(** * Logistik-bot: a shallow embedding of [main.py] and its specification

  The bot is a single Python module built on aiogram (handlers registered
  on one dispatcher, an in-memory FSM storage per user) and MongoDB.  The
  development below follows the components of the module:

  - [PyStr]: the fragment of Python's [str] the handlers rely on;
  - [Localization]: the button tables and [canonicalize_user_text];
  - [Regex], [ChatRef]: the chat-reference grammar and [check_chat_writable];
  - [Bot]: the stores, the FSM sessions, the handlers and the routing order.

  Text is kept as UTF-8 encoded [string]s, exactly the bytes of the source
  literals.  Awaits are sequential steps: one handler runs to completion on
  one message. *)

From Stdlib Require Import ZArith Ascii String List Bool Lia.
From stdpp Require Import gmap strings list fin_maps pretty.

Open Scope string_scope.

(** ** Python strings *)

Module PyStr.

Definition code (a : ascii) : N := N_of_ascii a.

Definition bytes (s : string) : list N := map code (list_ascii_of_string s).

Definition of_bytes (l : list N) : string :=
  string_of_list_ascii (map ascii_of_N l).

(** [len(s)] counts code points: every byte except UTF-8 continuation
    bytes (10xxxxxx) starts one. *)
Definition is_continuation (b : N) : bool := (128 <=? b)%N && (b <? 192)%N.

Definition py_len (s : string) : nat :=
  length (filter (fun b => negb (is_continuation b)) (bytes s)).

(** Whitespace as [str.strip()] sees it ([str.isspace]), given by the UTF-8
    encoding of each whitespace code point: U+0009..U+000D, U+001C..U+0020,
    U+0085, U+00A0, U+1680, U+2000..U+200A, U+2028, U+2029, U+202F, U+205F
    and U+3000. *)
Definition ws1 (a : N) : bool :=
  ((9 <=? a) && (a <=? 13) || (28 <=? a) && (a <=? 32))%N.

Definition ws2 (a b : N) : bool :=
  ((a =? 194) && ((b =? 133) || (b =? 160)))%N.

Definition ws3 (a b c : N) : bool :=
  ((a =? 225) && (b =? 154) && (c =? 128)
   || (a =? 226) && (b =? 128)
      && ((128 <=? c) && (c <=? 138) || (c =? 168) || (c =? 169) || (c =? 175))
   || (a =? 226) && (b =? 129) && (c =? 159)
   || (a =? 227) && (b =? 128) && (c =? 128))%N.

(** Number of bytes of the whitespace character the list starts with, 0 when
    it starts with none. *)
Definition ws_head (l : list N) : nat :=
  match l with
  | a :: r =>
      if ws1 a then 1
      else match r with
           | b :: r' =>
               if ws2 a b then 2
               else match r' with
                    | c :: _ => if ws3 a b c then 3 else 0
                    | [] => 0
                    end
           | [] => 0
           end
  | [] => 0
  end.

(** The same read from the end of the text, on the reversed bytes. *)
Definition ws_last (l : list N) : nat :=
  match l with
  | c :: r =>
      if ws1 c then 1
      else match r with
           | b :: r' =>
               if ws2 b c then 2
               else match r' with
                    | a :: _ => if ws3 a b c then 3 else 0
                    | [] => 0
                    end
           | [] => 0
           end
  | [] => 0
  end.

Fixpoint drop_while_ws (head : list N -> nat) (fuel : nat) (l : list N) : list N :=
  match fuel with
  | O => l
  | S fuel' =>
      match head l with
      | O => l
      | n => drop_while_ws head fuel' (drop n l)
      end
  end.

Definition lstrip_bytes (l : list N) : list N :=
  drop_while_ws ws_head (length l) l.

Definition rstrip_bytes (l : list N) : list N :=
  rev (drop_while_ws ws_last (length l) (rev l)).

(** [s.strip()] *)
Definition strip (s : string) : string :=
  of_bytes (rstrip_bytes (lstrip_bytes (bytes s))).

(** [a in b] for strings: [a] occurs in [b] as a contiguous run. *)
Fixpoint contains_at (fuel : nat) (needle hay : string) : bool :=
  if String.prefix needle hay then true
  else match fuel, hay with
       | S fuel', String _ hay' => contains_at fuel' needle hay'
       | _, _ => false
       end.

Definition contains (needle hay : string) : bool :=
  contains_at (String.length hay) needle hay.

(** [s.startswith(p)] *)
Definition startswith (p s : string) : bool := String.prefix p s.

(** Membership of a string in a tuple or list of strings. *)
Definition mem (x : string) (l : list string) : bool :=
  existsb (String.eqb x) l.

Lemma mem_true_iff x l : mem x l = true <-> x ∈ l.
Proof.
  unfold mem. rewrite existsb_exists. split.
  - intros (y & Hy & He). apply String.eqb_eq in He. subst.
    by apply list_elem_of_In.
  - intros Hx. exists x. split; [by apply list_elem_of_In | apply String.eqb_refl].
Qed.

End PyStr.


(** ** Localization layer: button tables and inbound canonicalization *)

Module Localization.

Import PyStr.

(** A Python [dict] from text to text, kept as its items in insertion order:
    assigning to a key that is present replaces the value in place, a new key
    goes to the end.  [RU_BUTTON_TEXTS.items()] is read in that order when
    [TEXT_CANON_MAP] is built. *)
Definition pydict : Type := list (string * string).

Fixpoint dict_set (k v : string) (d : pydict) : pydict :=
  match d with
  | [] => [(k, v)]
  | (k', v') :: d' =>
      if String.eqb k k' then (k, v) :: d' else (k', v') :: dict_set k v d'
  end.

(** [d.update(items)] and a dict display [{k1: v1, ...}]: assignments from
    left to right. *)
Definition dict_update (d : pydict) (items : list (string * string)) : pydict :=
  fold_left (fun acc kv => dict_set (fst kv) (snd kv) acc) items d.

Definition dict_literal (items : list (string * string)) : pydict :=
  dict_update [] items.

Fixpoint dict_get (k : string) (d : pydict) : option string :=
  match d with
  | [] => None
  | (k', v) :: d' => if String.eqb k k' then Some v else dict_get k d'
  end.

(** [d.get(k, dflt)] *)
Definition dict_get_or (k dflt : string) (d : pydict) : string :=
  match dict_get k d with Some v => v | None => dflt end.

Definition dict_keys (d : pydict) : list string := map fst d.

Definition REGIONS : list string :=
  [ "Andijon"; "Buxoro"; "Farg'ona"; "Jizzax"; "Namangan"; "Navoiy";
    "Qashqadaryo"; "Samarqand"; "Sirdaryo"; "Surxondaryo"; "Toshkent"; "Xorazm" ].

Definition ROLE_DRIVER := "driver".
Definition ROLE_SHIPPER := "shipper".
Definition LANG_UZ := "uz".
Definition LANG_RU := "ru".

Definition LANG_SELECT_UZ := "🇺🇿 O'zbekcha".
Definition LANG_SELECT_RU := "🇷🇺 Русский".
Definition LANG_LABEL_TO_CODE : pydict :=
  dict_literal [ (LANG_SELECT_UZ, LANG_UZ); (LANG_SELECT_RU, LANG_RU) ].
Definition VALID_LANGS : list string := [ LANG_UZ; LANG_RU ].

Definition ROLE_LABELS : pydict :=
  dict_literal [ (ROLE_DRIVER, "🚛 Haydovchi"); (ROLE_SHIPPER, "📦 Yuk beruvchi") ].
Definition ROLE_LABELS_RU : pydict :=
  dict_literal [ (ROLE_DRIVER, "🚛 Водитель"); (ROLE_SHIPPER, "📦 Грузоотправитель") ].

(** [ROLE_LABELS[ROLE_DRIVER]] and the like: the keys are present. *)
Definition ROLE_LABEL_DRIVER := dict_get_or ROLE_DRIVER EmptyString ROLE_LABELS.
Definition ROLE_LABEL_SHIPPER := dict_get_or ROLE_SHIPPER EmptyString ROLE_LABELS.
Definition ROLE_LABEL_RU_DRIVER := dict_get_or ROLE_DRIVER EmptyString ROLE_LABELS_RU.
Definition ROLE_LABEL_RU_SHIPPER := dict_get_or ROLE_SHIPPER EmptyString ROLE_LABELS_RU.

Definition LABEL_TO_ROLE : pydict :=
  dict_literal
    [ ("🚛 Haydovchi", ROLE_DRIVER); ("📦 Yuk beruvchi", ROLE_SHIPPER);
      ("🚛 Водитель", ROLE_DRIVER); ("📦 Грузоотправитель", ROLE_SHIPPER) ].

Definition PAYMENT_OPTIONS : list string := [ "💵 Naqd"; "💳 Karta"; "🏦 O'tkazma" ].
Definition PAYMENT_OPTIONS_RU : list string := [ "💵 Наличные"; "💳 Карта"; "🏦 Перевод" ].
Definition PAYMENT_0 := nth 0 PAYMENT_OPTIONS EmptyString.
Definition PAYMENT_1 := nth 1 PAYMENT_OPTIONS EmptyString.
Definition PAYMENT_2 := nth 2 PAYMENT_OPTIONS EmptyString.
Definition PAYMENT_RU_0 := nth 0 PAYMENT_OPTIONS_RU EmptyString.
Definition PAYMENT_RU_1 := nth 1 PAYMENT_OPTIONS_RU EmptyString.
Definition PAYMENT_RU_2 := nth 2 PAYMENT_OPTIONS_RU EmptyString.

Definition BTN_CANCEL := "❌ Bekor qilish".
Definition BTN_BACK_MAIN := "⬅️ Asosiy menyu".
Definition BTN_BACK_ADMIN := "🔙 Admin panel".
Definition BTN_SKIP := "⏭ O'tkazib yuborish".

Definition BTN_ADMIN_PANEL := "🛠 Admin panel".
Definition BTN_BROADCAST := "📣 Habar yuborish".
Definition BTN_ADMIN_STATS := "📊 Tizim statistikasi".
Definition BTN_ADMIN_USERS := "📋 Foydalanuvchilar".
Definition BTN_ADMIN_PRO := "💎 Pro boshqaruvi".
Definition BTN_ADMIN_CHANNELS := "🌐 Kanal/Guruh sozlash".
Definition BTN_ADMIN_GUIDE := "📘 Admin yo'riqnoma".
Definition BTN_PRO_ADD := "➕ Pro qo'shish".
Definition BTN_PRO_REMOVE := "➖ Pro o'chirish".
Definition BTN_CH_SET_CATALOG := "📚 Katalog chat ID".
Definition BTN_CH_SET_REGION := "🗺 Viloyat chat ID".
Definition BTN_CH_LIST := "📋 Ulangan chatlar".
Definition BTN_REQ_ADD := "➕ Majburiy kanal qo'shish".
Definition BTN_REQ_REMOVE := "➖ Majburiy kanal o'chirish".
Definition BTN_REQ_LIST := "📌 Majburiy kanallar".

Definition BTN_BC_ALL := "👥 Barchaga".
Definition BTN_BC_DRIVERS := "🚛 Haydovchilarga".
Definition BTN_BC_SHIPPERS := "📦 Yuk beruvchilarga".
Definition BTN_BC_PRO := "💎 Pro foydalanuvchilarga".

Definition BTN_MENU_CARGO := "📦 Yuk joylash".
Definition BTN_MENU_DRIVER := "🚛 Haydovchi anketasi".
Definition BTN_MENU_PROFILE := "👤 Profilim".
Definition BTN_MENU_ANALYSIS := "🧠 Profil tahlili".
Definition BTN_MENU_STATS := "📊 Statistika".
Definition BTN_MENU_PRO := "💎 Pro tarif".
Definition BTN_MENU_NEWS := "📣 Yangiliklar".
Definition BTN_MENU_CONTACT := "☎️ Bog'lanish".
Definition BTN_MENU_SETTINGS := "⚙️ Sozlamalar".
Definition BTN_SETTINGS_ROLE := "🔄 Rolni almashtirish".
Definition BTN_SETTINGS_LANG := "🌐 Tilni almashtirish".

Definition MENU_INTERRUPT_BUTTONS : list string :=
  [ BTN_CANCEL; BTN_BACK_MAIN; BTN_BACK_ADMIN;
    BTN_MENU_CARGO; BTN_MENU_DRIVER; BTN_MENU_PROFILE; BTN_MENU_ANALYSIS;
    BTN_MENU_STATS; BTN_MENU_PRO; BTN_MENU_NEWS; BTN_MENU_CONTACT;
    BTN_MENU_SETTINGS; BTN_SETTINGS_ROLE; BTN_SETTINGS_LANG;
    BTN_ADMIN_PANEL; BTN_ADMIN_STATS; BTN_ADMIN_USERS; BTN_BROADCAST;
    BTN_ADMIN_PRO; BTN_PRO_ADD; BTN_PRO_REMOVE; BTN_ADMIN_CHANNELS;
    BTN_CH_SET_CATALOG; BTN_CH_SET_REGION; BTN_CH_LIST;
    BTN_REQ_ADD; BTN_REQ_REMOVE; BTN_REQ_LIST; BTN_ADMIN_GUIDE ].

Definition BTN_CARGO_CONFIRM := "✅ Guruhlarga yuborish".
Definition BTN_CARGO_EDIT := "✏️ Tahrirlash".
Definition BTN_SEND_PHONE := "📲 Raqam yuborish".

Definition RU_BUTTON_TEXTS : pydict :=
  dict_literal
    [ (BTN_CANCEL, "❌ Отмена");
      (BTN_BACK_MAIN, "⬅️ Главное меню");
      (BTN_BACK_ADMIN, "🔙 Админ панель");
      (BTN_SKIP, "⏭ Пропустить");
      (BTN_ADMIN_PANEL, "🛠 Админ панель");
      (BTN_BROADCAST, "📣 Рассылка");
      (BTN_ADMIN_STATS, "📊 Системная статистика");
      (BTN_ADMIN_USERS, "📋 Пользователи");
      (BTN_ADMIN_PRO, "💎 Управление Pro");
      (BTN_ADMIN_CHANNELS, "🌐 Настройка каналов/групп");
      (BTN_ADMIN_GUIDE, "📘 Инструкция админа");
      (BTN_PRO_ADD, "➕ Добавить Pro");
      (BTN_PRO_REMOVE, "➖ Удалить Pro");
      (BTN_CH_SET_CATALOG, "📚 ID каталога");
      (BTN_CH_SET_REGION, "🗺 ID по области");
      (BTN_CH_LIST, "📋 Подключенные чаты");
      (BTN_REQ_ADD, "➕ Добавить обязательный канал");
      (BTN_REQ_REMOVE, "➖ Удалить обязательный канал");
      (BTN_REQ_LIST, "📌 Обязательные каналы");
      (BTN_BC_ALL, "👥 Всем");
      (BTN_BC_DRIVERS, "🚛 Водителям");
      (BTN_BC_SHIPPERS, "📦 Грузоотправителям");
      (BTN_BC_PRO, "💎 Pro пользователям");
      (BTN_MENU_CARGO, "📦 Разместить груз");
      (BTN_MENU_DRIVER, "🚛 Анкета водителя");
      (BTN_MENU_PROFILE, "👤 Мой профиль");
      (BTN_MENU_ANALYSIS, "🧠 Анализ профиля");
      (BTN_MENU_STATS, "📊 Статистика");
      (BTN_MENU_PRO, "💎 Pro тариф");
      (BTN_MENU_NEWS, "📣 Новости");
      (BTN_MENU_CONTACT, "☎️ Связь");
      (BTN_MENU_SETTINGS, "⚙️ Настройки");
      (BTN_SETTINGS_ROLE, "🔄 Сменить роль");
      (BTN_SETTINGS_LANG, "🌐 Сменить язык");
      (BTN_CARGO_CONFIRM, "✅ Отправить в группы");
      (BTN_CARGO_EDIT, "✏️ Изменить");
      (BTN_SEND_PHONE, "📲 Отправить номер");
      (ROLE_LABEL_DRIVER, ROLE_LABEL_RU_DRIVER);
      (ROLE_LABEL_SHIPPER, ROLE_LABEL_RU_SHIPPER);
      (PAYMENT_0, PAYMENT_RU_0);
      (PAYMENT_1, PAYMENT_RU_1);
      (PAYMENT_2, PAYMENT_RU_2) ].

(** [{v: k for k, v in RU_BUTTON_TEXTS.items()}], then [.update({...})]. *)
Definition TEXT_CANON_MAP : pydict :=
  dict_update
    (dict_literal (map (fun kv => (snd kv, fst kv)) RU_BUTTON_TEXTS))
    [ (LANG_SELECT_UZ, LANG_SELECT_UZ);
      (LANG_SELECT_RU, LANG_SELECT_RU);
      (ROLE_LABEL_DRIVER, ROLE_LABEL_DRIVER);
      (ROLE_LABEL_SHIPPER, ROLE_LABEL_SHIPPER);
      (ROLE_LABEL_RU_DRIVER, ROLE_LABEL_DRIVER);
      (ROLE_LABEL_RU_SHIPPER, ROLE_LABEL_SHIPPER);
      (PAYMENT_0, PAYMENT_0);
      (PAYMENT_1, PAYMENT_1);
      (PAYMENT_2, PAYMENT_2);
      (PAYMENT_RU_0, PAYMENT_0);
      (PAYMENT_RU_1, PAYMENT_1);
      (PAYMENT_RU_2, PAYMENT_2) ].

(** [text or ""] *)
Definition or_empty (text : option string) : string :=
  match text with Some t => t | None => EmptyString end.

Definition canonicalize_user_text (text : option string) : string :=
  let raw := strip (or_empty text) in
  dict_get_or raw raw TEXT_CANON_MAP.

Definition is_valid_lang (value : option string) : bool :=
  match value with Some v => mem v VALID_LANGS | None => false end.

Definition localize_button_text (text lang : string) : string :=
  if negb (String.eqb lang LANG_RU) then text
  else dict_get_or text text RU_BUTTON_TEXTS.

(** Reply keyboards: rows of button labels. *)
Definition keyboard : Type := list (list string).

(** [ReplyKeyboardBuilder.adjust] with a list of sizes: rows of the given sizes, the last
    size repeated for the buttons left over. *)
Fixpoint adjust_rows (fuel : nat) (sizes : list nat) (last : nat) (buttons : list string)
  : keyboard :=
  match fuel, buttons with
  | _, [] => []
  | O, _ => [buttons]
  | S fuel', _ =>
      let size := match sizes with n :: _ => n | [] => last end in
      let size := Nat.max 1 size in
      take size buttons
        :: adjust_rows fuel' (tl sizes) size (drop size buttons)
  end.

Definition adjust (sizes : list nat) (buttons : list string) : keyboard :=
  adjust_rows (length buttons) sizes 1 buttons.

Definition language_keyboard : keyboard :=
  [ [LANG_SELECT_UZ; LANG_SELECT_RU]; [BTN_CANCEL] ].

Definition main_menu_keyboard (is_admin : bool) : keyboard :=
  let buttons :=
    [ BTN_MENU_CARGO; BTN_MENU_DRIVER; BTN_MENU_PROFILE; BTN_MENU_ANALYSIS;
      BTN_MENU_STATS; BTN_MENU_PRO; BTN_MENU_NEWS; BTN_MENU_CONTACT;
      BTN_MENU_SETTINGS ] in
  let buttons := if is_admin then (buttons ++ [BTN_ADMIN_PANEL])%list else buttons in
  adjust [2] buttons.

Definition phone_keyboard : keyboard := [ [BTN_SEND_PHONE]; [BTN_CANCEL] ].

Definition role_keyboard : keyboard :=
  [ [ROLE_LABEL_DRIVER; ROLE_LABEL_SHIPPER]; [BTN_CANCEL] ].

Definition cancel_keyboard : keyboard := [ [BTN_CANCEL] ].

Definition skip_cancel_keyboard : keyboard := [ [BTN_SKIP]; [BTN_CANCEL] ].

Definition payment_keyboard : keyboard :=
  [ [PAYMENT_0; PAYMENT_1]; [PAYMENT_2]; [BTN_CANCEL] ].

Definition region_keyboard : keyboard :=
  adjust [3; 3; 3; 3; 1] (REGIONS ++ [BTN_CANCEL])%list.

Definition cargo_confirm_keyboard : keyboard :=
  [ [BTN_CARGO_CONFIRM; BTN_CARGO_EDIT]; [BTN_CANCEL] ].

Definition settings_keyboard : keyboard :=
  [ [BTN_SETTINGS_ROLE]; [BTN_SETTINGS_LANG]; [BTN_BACK_MAIN] ].

Definition admin_panel_keyboard : keyboard :=
  [ [BTN_BROADCAST]; [BTN_ADMIN_STATS; BTN_ADMIN_USERS];
    [BTN_ADMIN_PRO; BTN_ADMIN_CHANNELS]; [BTN_ADMIN_GUIDE]; [BTN_BACK_MAIN] ].

Definition admin_pro_keyboard : keyboard :=
  [ [BTN_PRO_ADD; BTN_PRO_REMOVE]; [BTN_BACK_ADMIN] ].

Definition admin_channels_keyboard : keyboard :=
  [ [BTN_CH_SET_CATALOG; BTN_CH_SET_REGION]; [BTN_REQ_ADD; BTN_REQ_REMOVE];
    [BTN_REQ_LIST]; [BTN_CH_LIST]; [BTN_BACK_ADMIN] ].

Definition broadcast_audience_keyboard : keyboard :=
  [ [BTN_BC_ALL]; [BTN_BC_DRIVERS; BTN_BC_SHIPPERS]; [BTN_BC_PRO]; [BTN_CANCEL] ].

(** [translate_reply_markup] on a [ReplyKeyboardMarkup]: every button's text
    goes through [localize_button_text], rows and their order are kept. *)
Definition translate_reply_markup (kb : keyboard) (lang : string) : keyboard :=
  if negb (String.eqb lang LANG_RU) then kb
  else map (map (fun text => localize_button_text text lang)) kb.

(** Every reply keyboard the module builds. *)
Definition ALL_KEYBOARDS : list keyboard :=
  [ language_keyboard; main_menu_keyboard true; main_menu_keyboard false;
    phone_keyboard; role_keyboard; cancel_keyboard; skip_cancel_keyboard;
    payment_keyboard; region_keyboard; cargo_confirm_keyboard;
    settings_keyboard; admin_panel_keyboard; admin_pro_keyboard;
    admin_channels_keyboard; broadcast_audience_keyboard ].

(** The fixed button set: the canonical labels of the Russian table together
    with every label placed on a reply keyboard. *)
Definition FIXED_BUTTONS : list string :=
  (dict_keys RU_BUTTON_TEXTS ++ concat (concat ALL_KEYBOARDS))%list.

Definition roundtrips (x : string) : bool :=
  String.eqb (canonicalize_user_text (Some (localize_button_text x LANG_RU))) x.

End Localization.


(** ** Results of code that may raise *)

Inductive result (A : Type) : Type :=
| Ok (a : A)
| Raise (exc : string).

Arguments Ok {A} a.
Arguments Raise {A} exc.

(** ** Regular expressions, as [re.fullmatch] runs them *)

Module Regex.

Import PyStr.

(** The constructs the module's four patterns use.  Alternatives and
    repetitions are tried in the order of Python's backtracking matcher: the
    left alternative first, one more iteration before stopping.  [Grp] is the
    (single) capturing group of a pattern. *)
Inductive re : Type :=
| Lit (s : string)
| Cls (p : N -> bool)
| Seq (r1 r2 : re)
| Alt (r1 r2 : re)
| Rep (lo : nat) (hi : option nat) (r : re)
| Grp (r : re).

Definition below (n : nat) (hi : option nat) : bool :=
  match hi with Some h => (n <? h)%nat | None => true end.

(** What was consumed between [s] and its suffix [s']. *)
Definition consumed (s s' : string) : string :=
  String.substring 0 (String.length s - String.length s') s.

Definition drop_string (n : nat) (s : string) : string :=
  String.substring n (String.length s - n) s.

(** [run r s cap k]: match [r] at the start of [s], then hand the rest and the
    capture to [k]; [None] when every way of matching fails. *)
Fixpoint run (r : re) (s : string) (cap : option string)
    (k : string -> option string -> option (option string)) {struct r}
  : option (option string) :=
  match r with
  | Lit l =>
      if String.prefix l s then k (drop_string (String.length l) s) cap else None
  | Cls p =>
      match s with
      | String a s' => if p (code a) then k s' cap else None
      | EmptyString => None
      end
  | Seq r1 r2 => run r1 s cap (fun s' cap' => run r2 s' cap' k)
  | Alt r1 r2 =>
      match run r1 s cap k with
      | Some res => Some res
      | None => run r2 s cap k
      end
  | Rep lo hi r1 =>
      (fix loop (fuel done : nat) (s : string) (cap : option string)
         : option (option string) :=
         let stop := if (lo <=? done)%nat then k s cap else None in
         match fuel with
         | O => stop
         | S fuel' =>
             if below done hi then
               match run r1 s cap
                       (fun s' cap' =>
                          if (String.length s' <? String.length s)%nat
                          then loop fuel' (S done) s' cap'
                          else None) with
               | Some res => Some res
               | None => stop
               end
             else stop
         end) (S (String.length s)) O s cap
  | Grp r1 => run r1 s cap (fun s' _ => k s' (Some (consumed s s')))
  end.

(** [pattern.fullmatch(s)]: [Some cap] on a match, [cap] the text of the
    group when the match went through it.  The patterns' [^] and [$] add
    nothing under [fullmatch]. *)
Definition fullmatch (r : re) (s : string) : option (option string) :=
  run r s None
    (fun rest cap => match rest with EmptyString => Some cap | _ => None end).

Definition matches (r : re) (s : string) : bool :=
  match fullmatch r s with Some _ => true | None => false end.

Definition opt (r : re) : re := Rep 0 (Some 1) r.
Definition star (r : re) : re := Rep 0 None r.
Definition plus (r : re) : re := Rep 1 None r.

Definition is_digit (b : N) : bool := ((48 <=? b) && (b <=? 57))%N.
Definition is_upper (b : N) : bool := ((65 <=? b) && (b <=? 90))%N.
Definition is_lower (b : N) : bool := ((97 <=? b) && (b <=? 122))%N.
(** The class [A-Za-z0-9_] *)
Definition is_word (b : N) : bool :=
  is_upper b || is_lower b || is_digit b || (b =? 95)%N.
(** The class [A-Za-z0-9_-] *)
Definition is_word_dash (b : N) : bool := is_word b || (b =? 45)%N.
(** The dot: anything but a newline *)
Definition is_dot (b : N) : bool := negb (b =? 10)%N.

End Regex.

(** ** Chat reference resolver *)

Module ChatRef.

Import PyStr Regex.

Definition nl : string := String (ascii_of_nat 10) EmptyString.

(** [int(s)] on a decimal literal: surrounding whitespace, an optional sign,
    then digits, single underscores allowed between digits.  Digits are the
    ASCII ones; decimal digits of other scripts, which [int] and [\d] also
    accept, are outside this model. *)
Fixpoint digits_value (acc : Z) (after_digit : bool) (s : string) : option Z :=
  match s with
  | EmptyString => if after_digit then Some acc else None
  | String a s' =>
      let b := code a in
      if is_digit b then digits_value (acc * 10 + Z.of_N (b - 48)) true s'
      else if (b =? 95)%N && after_digit then
             match s' with
             | String a' _ => if is_digit (code a') then digits_value acc false s' else None
             | EmptyString => None
             end
           else None
  end.

Definition py_int (s : string) : option Z :=
  match strip s with
  | String "-" s' => Z.opp <$> digits_value 0 false s'
  | String "+" s' => digits_value 0 false s'
  | s' => digits_value 0 false s'
  end.

Definition parse_chat_id (value : string) : option Z :=
  match py_int (strip value) with
  | None => None
  | Some chat_id => if (chat_id =? 0)%Z then None else Some chat_id
  end.

(** The scheme and host: (?:https?://)?(?:t\.me|telegram\.me) *)
Definition host : re :=
  Seq (opt (Seq (Lit "http") (Seq (opt (Lit "s")) (Lit "://"))))
      (Alt (Lit "t.me") (Lit "telegram.me")).

(** The end of a link: an optional slash, then an optional query, a question
    mark and any characters. *)
Definition link_tail : re :=
  Seq (opt (Lit "/")) (opt (Seq (Lit "?") (star (Cls is_dot)))).

(** The optional message id: (?:/\d+)? *)
Definition message_id : re := opt (Seq (Lit "/") (plus (Cls is_digit))).

(** ^@[A-Za-z0-9_]{5,}$ *)
Definition CHAT_USERNAME_RE : re :=
  Seq (Lit "@") (Rep 5 None (Cls is_word)).

(** [host], a slash, (?:s/)?, the group ([A-Za-z0-9_]{5,}), [message_id],
    [link_tail]. *)
Definition CHAT_PUBLIC_LINK_RE : re :=
  Seq host (Seq (Lit "/") (Seq (opt (Lit "s/"))
    (Seq (Grp (Rep 5 None (Cls is_word))) (Seq message_id link_tail)))).

(** [host], /c/, the group (\d+), [message_id], [link_tail]. *)
Definition CHAT_INTERNAL_LINK_RE : re :=
  Seq host (Seq (Lit "/c/")
    (Seq (Grp (plus (Cls is_digit))) (Seq message_id link_tail))).

(** ^[host]/(?:joinchat/|\+)[A-Za-z0-9_-]+/?$ *)
Definition CHAT_INVITE_LINK_RE : re :=
  Seq host (Seq (Lit "/") (Seq (Alt (Lit "joinchat/") (Lit "+"))
    (Seq (plus (Cls is_word_dash)) (opt (Lit "/"))))).

Definition ERR_EMPTY : string := "Chat ma'lumoti kiritilmadi.".

Definition ERR_INVITE : string :=
  "❗ `+` yoki `joinchat` invite-link orqali chat ID avtomatik olinmaydi." ++ nl
  ++ "Botni o'sha chatga qo'shing va:" ++ nl
  ++ "• chatdan forward xabar yuboring yoki" ++ nl
  ++ "• `@username` / `-100...` yuboring.".

Definition ERR_FORMAT : string :=
  "Chat formati noto'g'ri." ++ nl
  ++ "Qabul qilinadi: `-100...`, `@username`, `https://t.me/username`, `https://t.me/username/123`, `https://t.me/c/...`".

(** The triple [(numeric_id, username, parse_error)]. *)
Definition reference : Type := option Z * option string * option string.

Definition parse_chat_reference (value : string) : result reference :=
  let raw := strip value in
  if String.eqb raw EmptyString then Ok (None, None, Some ERR_EMPTY)
  else
    match parse_chat_id raw with
    | Some numeric_id => Ok (Some numeric_id, None, None)
    | None =>
        if matches CHAT_USERNAME_RE raw then Ok (None, Some raw, None)
        else
          match fullmatch CHAT_INTERNAL_LINK_RE raw with
          | Some internal_match =>
              let internal_id := default EmptyString internal_match in
              match py_int ("-100" ++ internal_id) with
              | Some n => Ok (Some n, None, None)
              | None => Raise "ValueError"
              end
          | None =>
              match fullmatch CHAT_PUBLIC_LINK_RE raw with
              | Some public_match =>
                  Ok (None, Some ("@" ++ default EmptyString public_match), None)
              | None =>
                  if matches CHAT_INVITE_LINK_RE raw
                  then Ok (None, None, Some ERR_INVITE)
                  else Ok (None, None, Some ERR_FORMAT)
              end
          end
    end.

Definition ERR_NOT_FOUND : string := "Chat topilmadi.".

Definition err_unreachable (username : string) : string :=
  "`" ++ username ++ "` chatiga ulanib bo'lmadi." ++ nl
  ++ "Bot shu chatga qo'shilganini va username to'g'ri ekanini tekshiring.".

(** The outcome of [resolve_chat_id_from_text]: the pair the function
    returns, and the [bot.get_chat] calls it made, in order. *)
Record resolution : Type := mkResolution {
  handle : option Z;
  error : option string;
  lookups : list string
}.

(** A string is true when it is not empty. *)
Definition truthy (s : option string) : bool :=
  match s with Some (String _ _) => true | _ => false end.

Section Resolve.

(** [bot.get_chat(username)]: the id of the chat found, [None] when the call
    raises. *)
Variable get_chat : string -> option Z.

Definition resolve_chat_id_from_text (value : string) : result resolution :=
  match parse_chat_reference value with
  | Raise exc => Raise exc
  | Ok (numeric_id, username, parse_error) =>
      if truthy parse_error then Ok (mkResolution None parse_error [])
      else
        match numeric_id with
        | Some n => Ok (mkResolution (Some n) None [])
        | None =>
            if negb (truthy username) then Ok (mkResolution None (Some ERR_NOT_FOUND) [])
            else
              let username := default EmptyString username in
              match get_chat username with
              | Some chat_id => Ok (mkResolution (Some chat_id) None [username])
              | None =>
                  Ok (mkResolution None (Some (err_unreachable username)) [username])
              end
        end
  end.

End Resolve.

(** [str.lower()], as far as the ASCII substring tests of
    [normalize_send_error] and the key of [normalize_region] can see: A-Z go to
    a-z, U+212A (Kelvin sign) to [k] and U+0130 to [i] followed by U+0307;
    [str.lower()] sends every other character to characters outside ASCII, and
    they are left as they are here. *)
Fixpoint lower_bytes (fuel : nat) (l : list N) : list N :=
  match fuel with
  | O => l
  | S fuel' =>
      match l with
      | [] => []
      | 226%N :: 132%N :: 170%N :: r => 107%N :: lower_bytes fuel' r
      | 196%N :: 176%N :: r => 105%N :: 204%N :: 135%N :: lower_bytes fuel' r
      | a :: r => (if is_upper a then (a + 32)%N else a) :: lower_bytes fuel' r
      end
  end.

Definition lower (s : string) : string :=
  of_bytes (lower_bytes (String.length s) (bytes s)).

Definition ERR_NO_RIGHTS : string :=
  "Botda yozish huquqi yo'q (admin emas yoki post/send ruxsati yo'q).".
Definition ERR_CHAT_NOT_FOUND : string :=
  "Chat topilmadi (ID/link noto'g'ri yoki bot chatga qo'shilmagan).".
Definition ERR_BLOCKED : string := "Bot bloklangan yoki chatdan chiqarilgan.".

(** [exc] stands for [str(exc)]. *)
Definition normalize_send_error (exc : string) : string :=
  let err := exc in
  let lowered := lower err in
  if contains "forbidden" lowered || contains "not enough rights" lowered
  then ERR_NO_RIGHTS
  else if contains "chat not found" lowered then ERR_CHAT_NOT_FOUND
  else if contains "blocked" lowered then ERR_BLOCKED
  else err.

(** What the three transport calls of [check_chat_writable] produced: an
    exception, or the chat's type, the bot's member status and the two
    capability attributes ([None] when the member object has no such
    attribute or holds [None]). *)
Inductive fetched : Type :=
| FetchFailed (exc : string)
| Fetched (chat_type status : string) (can_post_messages can_send_messages : option bool).

Definition MSG_NOT_IN_CHAT : string := "Bot chatda yo'q. Botni chatga qo'shing.".
Definition MSG_MUST_BE_ADMIN : string := "Bu kanal uchun bot admin bo'lishi shart.".
Definition MSG_POST_DISABLED : string :=
  "Bot admin, lekin `Post messages` huquqi o'chirilgan.".
Definition MSG_CHANNEL_OK : string := "Kanalga yuborish huquqi bor.".
Definition MSG_RESTRICTED : string := "Bot bu guruhda yozishga cheklangan.".
Definition MSG_CHAT_OK : string := "Chatga yuborish huquqi bor.".

(** [x is False] *)
Definition is_False (x : option bool) : bool :=
  match x with Some false => true | _ => false end.

Definition check_chat_writable (f : fetched) : bool * string :=
  match f with
  | FetchFailed exc => (false, normalize_send_error exc)
  | Fetched chat_type status can_post can_send =>
      if mem status ["left"; "kicked"] then (false, MSG_NOT_IN_CHAT)
      else if String.eqb chat_type "channel" then
        if negb (mem status ["administrator"; "creator"]) then (false, MSG_MUST_BE_ADMIN)
        else if is_False can_post then (false, MSG_POST_DISABLED)
        else (true, MSG_CHANNEL_OK)
      else if is_False can_send then (false, MSG_RESTRICTED)
      else (true, MSG_CHAT_OK)
  end.

End ChatRef.


(** ** The bot: stores, sessions, handlers and routing *)

Module Bot.

Import PyStr Regex Localization ChatRef.

(** The states of the eight [StatesGroup]s. *)
Inductive State : Type :=
| Registration_first_name | Registration_last_name | Registration_phone
| Registration_role
| Language_select
| Driver_car_type | Driver_capacity_ton | Driver_volume_m3 | Driver_routes
| Driver_price_per_km | Driver_note
| Cargo_from_region | Cargo_to_region | Cargo_cargo_type | Cargo_weight_ton
| Cargo_volume_m3 | Cargo_price | Cargo_load_date | Cargo_payment_type
| Cargo_comment | Cargo_confirm
| Settings_role
| AdminBroadcast_audience | AdminBroadcast_content
| AdminPro_add | AdminPro_remove
| AdminChannel_catalog_chat | AdminChannel_region_select
| AdminChannel_region_chat | AdminChannel_required_add
| AdminChannel_required_remove.

#[global] Instance State_eq_dec : EqDecision State.
Proof. solve_decision. Defined.

(** [str.split()] pieces, on the bytes of the text. *)
Fixpoint take_token (fuel : nat) (l : list N) : list N * list N :=
  match fuel with
  | O => ([], l)
  | S fuel' =>
      match l with
      | [] => ([], [])
      | a :: r =>
          match ws_head l with
          | O => let (tok, rest) := take_token fuel' r in (a :: tok, rest)
          | _ => ([], l)
          end
      end
  end.

Fixpoint split_bytes (fuel : nat) (l : list N) : list (list N) :=
  match fuel with
  | O => []
  | S fuel' =>
      match lstrip_bytes l with
      | [] => []
      | l' =>
          let (tok, rest) := take_token (length l') l' in
          tok :: split_bytes fuel' rest
      end
  end.

(** [text.split()] *)
Definition split (text : string) : list string :=
  map of_bytes (split_bytes (S (String.length text)) (bytes text)).

(** [text.split(maxsplit=1)]: the first piece, and what follows the blanks
    after it when anything does. *)
Definition split1 (text : string) : list string :=
  match lstrip_bytes (bytes text) with
  | [] => []
  | l =>
      let (tok, rest) := take_token (length l) l in
      match lstrip_bytes rest with
      | [] => [of_bytes tok]
      | rest' => [of_bytes tok; of_bytes rest']
      end
  end.

(** [s.isdigit()], on ASCII digits (the digits of other scripts and
    superscripts, which [isdigit] also accepts, are outside this model). *)
Definition isdigit (s : string) : bool :=
  match bytes s with
  | [] => false
  | l => forallb is_digit l
  end.

(** [s.lstrip("-")] *)
Fixpoint lstrip_dash (s : string) : string :=
  match s with
  | String "-" s' => lstrip_dash s'
  | _ => s
  end.

(** [re.sub(r"\s+", "", s)] *)
Fixpoint remove_ws (fuel : nat) (l : list N) : list N :=
  match fuel with
  | O => l
  | S fuel' =>
      match l with
      | [] => []
      | a :: r =>
          match ws_head l with
          | O => a :: remove_ws fuel' r
          | n => remove_ws fuel' (drop n l)
          end
      end
  end.

(** The pattern of [parse_phone]: an optional plus sign and 9 to 15 digits. *)
Definition PHONE_RE : re :=
  Seq (opt (Lit "+")) (Rep 9 (Some 15) (Cls is_digit)).

Definition parse_phone (value : string) : option string :=
  let l := bytes (strip value) in
  let cleaned := of_bytes (remove_ws (length l) l) in
  if matches PHONE_RE cleaned then Some cleaned else None.

(** [value.replace(" ", "").replace(",", ".")] *)
Definition clean_number (value : string) : string :=
  of_bytes
    (map (fun b => if (b =? 44)%N then 46%N else b)
       (filter (fun b => negb (b =? 32)%N) (bytes value))).

(** [re.sub(r"[^a-z0-9]", "", s.lower())] *)
Definition region_key (s : string) : string :=
  of_bytes (filter (fun b => is_lower b || is_digit b) (bytes (lower s))).

Definition normalize_region (raw : string) : option string :=
  let value := strip raw in
  let value_key := region_key value in
  find (fun region => String.eqb value_key (region_key region)) REGIONS.

(** [text.partition("@")]: the parts before and after the first [@]. *)
Fixpoint partition_at (s : string) : string * string :=
  match s with
  | EmptyString => (EmptyString, EmptyString)
  | String "@" s' => (EmptyString, s')
  | String a s' => let (h, t) := partition_at s' in (String a h, t)
  end.

(** [extract_start_payload] *)
Definition extract_start_payload (text : option string) : option string :=
  match text with
  | None => None
  | Some EmptyString => None
  | Some t =>
      match split1 (strip t) with
      | [_; rest] =>
          let payload := strip rest in
          if String.eqb payload EmptyString then None else Some payload
      | _ => None
      end
  end.

(** [mask_phone], [format_money] and the text builders only shape replies;
    replies built from data are recorded by the name of what builds them. *)
Inductive Text : Type :=
| Plain (s : string)
| Built (builder : string).

Inductive Markup : Type :=
| NoMarkup
| ReplyKeyboard (kb : keyboard)
| ReplyKeyboardRemove
| InlineKeyboard (name : string).

(** What a handler asked of the transport. *)
Inductive Event : Type :=
| Answer (chat : Z) (lang : string) (text : Text) (markup : Markup)
| SendMessage (chat_id : Z) (text : Text) (delivered : bool)
| CopyTo (chat_id : Z) (delivered : bool)
| GetChat (username : string)
| CheckWritable (chat_id : Z).

Record TgUser : Type := mkTgUser {
  tg_id : Z;
  tg_username : option string;
  tg_first : option string;
  tg_last : option string
}.

(** An incoming message.  [chat_id] keys the FSM storage (handlers only see
    private chats, where the chat and the user have one id).  The forward
    fields hold the id of the chat found there, when there is one. *)
Record Message : Type := mkMessage {
  chat_id : Z;
  chat_type : string;
  from_user : option TgUser;
  text : option string;
  caption : option string;
  contact_phone : option string;
  forward_from_chat : option Z;
  forward_origin_chat : option Z;
  forward_origin_sender_chat : option Z;
  sender_chat : option Z
}.

Record Channel : Type := mkChannel {
  ch_chat_id : Z;
  ch_title : string;
  ch_username : option string;
  ch_url : option string
}.

Record ChatInfo : Type := mkChatInfo {
  ci_id : Z;
  ci_title : option string;
  ci_full_name : option string;
  ci_username : option string
}.

Section Handlers.

(** Python floats stay abstract: [py_float s] is [float(s)], [None] when it
    raises [ValueError]. *)
Variable float : Type.
Variable py_float : string -> option float.
Variable float_le_zero : float -> bool.
Variable float_truthy : float -> bool.

(** A value held in the FSM data or in a document field. *)
Inductive Value : Type :=
| VNone
| VStr (s : string)
| VNum (x : float).

Definition value_truthy (v : option Value) : bool :=
  match v with
  | Some (VStr (String _ _)) => true
  | Some (VNum x) => float_truthy x
  | _ => false
  end.

(** [data.get(k)]: a missing key reads as [None]. *)
Definition get_value (k : string) (d : gmap string Value) : Value :=
  default VNone (d !! k).

Definition parse_positive_number (value : string) : option float :=
  let cleaned := strip (clean_number value) in
  match py_float cleaned with
  | None => None
  | Some parsed => if float_le_zero parsed then None else Some parsed
  end.

(** A document of [users_col]; a field the document lacks reads as [None],
    [False] or [{}]. *)
Record User : Type := mkUser {
  username : option string;
  tg_first_name : option string;
  tg_last_name : option string;
  first_name : Value;
  last_name : Value;
  phone : Value;
  role : option string;
  profile_completed : bool;
  driver_profile : gmap string Value;
  pro_until : option Z;
  lang : option string;
  created_at : option Z;
  updated_at : option Z
}.

Definition blank_user : User :=
  mkUser None None None VNone VNone VNone None false ∅ None None None None.

(** A document of [cargo_col]; its [_id] is its position in the collection. *)
Record Cargo : Type := mkCargo {
  owner_id : Z;
  c_from_region : Value;
  c_to_region : Value;
  c_cargo_type : Value;
  c_weight_ton : Value;
  c_volume_m3 : Value;
  c_price : Value;
  c_load_date : Value;
  c_payment_type : Value;
  c_comment : Value;
  c_created_at : Z;
  c_status : string;
  posted_chats : option (list Z);
  post_failures : option (list string);
  c_updated_at : option Z
}.

(** The FSM record of one chat: the current state and the data gathered. *)
Record Session : Type := mkSession {
  fsm_state : option State;
  fsm_data : gmap string Value
}.

Definition no_session : Session := mkSession None ∅.

(** Everything a handler reads or changes.  Times are microseconds since the
    epoch, as naive UTC datetimes count them; a collection gives back the
    value that was written (the database's rounding of stored datetimes to
    milliseconds happens outside the module).  Callback queries
    ([callback_check_sub]) are no messages and lie outside [dispatch]. *)
Record World : Type := mkWorld {
  users_col : gmap Z User;
  cargo_col : list Cargo;
  catalog_chat : option Z;
  mandatory_channels : list Channel;
  region_channels_col : gmap string (option Z);
  admins_col : gset Z;
  storage : gmap Z Session;
  clock : Z;
  outbox : list Event
}.

(** The persistent entities of a world: the collections of the database. *)
Definition persistent (w : World)
  : gmap Z User * list Cargo * option Z * list Channel * gmap string (option Z) * gset Z :=
  (users_col w, cargo_col w, catalog_chat w, mandatory_channels w,
   region_channels_col w, admins_col w).

Definition session_of (w : World) (chat : Z) : Session :=
  default no_session (storage w !! chat).

Inductive Outcome (A : Type) : Type :=
| Done (a : A) (w : World)
| Raised (exc : string) (w : World).

Arguments Done {A} a w.
Arguments Raised {A} exc w.

Definition world_of {A} (o : Outcome A) : World :=
  match o with Done _ w => w | Raised _ w => w end.

(** Handlers are state transformers that may raise. *)
Definition M (A : Type) : Type := World -> Outcome A.

Definition ret {A} (a : A) : M A := fun w => Done a w.

Definition bind {A B} (c : M A) (k : A -> M B) : M B :=
  fun w => match c w with
           | Done a w' => k a w'
           | Raised exc w' => Raised exc w'
           end.

Definition raise {A} (exc : string) : M A := fun w => Raised exc w.

Definition gets {A} (f : World -> A) : M A := fun w => Done (f w) w.

Definition modify (f : World -> World) : M unit := fun w => Done tt (f w).

#[local] Instance M_ret : MRet M := @ret.
#[local] Instance M_bind : MBind M := fun A B k c => bind c k.

(** The module's configuration and the answers of the transport.  A call
    that raises answers [None] (or [Raise] with the text of the exception). *)
Variable CONFIG_admin_ids : gset Z.
Variable CONFIG_news_channel : string.
(** aiogram's [Command] filter accepts a command's [@mention] when it names
    this bot. *)
Variable mention_ok : string -> bool.
(** [bot.get_chat_member(chat_id, user_id).status] *)
Variable tg_get_chat_member : Z -> Z -> option string.
(** [bot.get_chat(username).id] *)
Variable tg_get_chat_by_username : string -> option Z.
(** [bot.get_chat(chat_id)] *)
Variable tg_get_chat : Z -> result ChatInfo.
(** The three calls at the head of [check_chat_writable]. *)
Variable tg_fetch : Z -> fetched.
(** [bot.send_message(chat_id, ...)]: [None] when delivered, the text of the
    exception otherwise. *)
Variable tg_send_message : Z -> option string.
(** [message.copy_to(chat_id)]: whether it was delivered. *)
Variable tg_copy_to : Z -> bool.
(** [ObjectId(cargo_id)]: the document's position, [None] when the text is
    no ObjectId. *)
Variable oid_of_string : string -> option nat.

Definition set_users (f : gmap Z User -> gmap Z User) (w : World) : World :=
  mkWorld (f (users_col w)) (cargo_col w) (catalog_chat w) (mandatory_channels w)
    (region_channels_col w) (admins_col w) (storage w) (clock w) (outbox w).

Definition set_cargo (f : list Cargo -> list Cargo) (w : World) : World :=
  mkWorld (users_col w) (f (cargo_col w)) (catalog_chat w) (mandatory_channels w)
    (region_channels_col w) (admins_col w) (storage w) (clock w) (outbox w).

Definition set_catalog_chat (c : option Z) (w : World) : World :=
  mkWorld (users_col w) (cargo_col w) c (mandatory_channels w)
    (region_channels_col w) (admins_col w) (storage w) (clock w) (outbox w).

Definition set_channels (l : list Channel) (w : World) : World :=
  mkWorld (users_col w) (cargo_col w) (catalog_chat w) l
    (region_channels_col w) (admins_col w) (storage w) (clock w) (outbox w).

Definition set_regions (f : gmap string (option Z) -> gmap string (option Z)) (w : World)
  : World :=
  mkWorld (users_col w) (cargo_col w) (catalog_chat w) (mandatory_channels w)
    (f (region_channels_col w)) (admins_col w) (storage w) (clock w) (outbox w).

Definition set_storage (f : gmap Z Session -> gmap Z Session) (w : World) : World :=
  mkWorld (users_col w) (cargo_col w) (catalog_chat w) (mandatory_channels w)
    (region_channels_col w) (admins_col w) (f (storage w)) (clock w) (outbox w).

Definition emit (e : Event) (w : World) : World :=
  mkWorld (users_col w) (cargo_col w) (catalog_chat w) (mandatory_channels w)
    (region_channels_col w) (admins_col w) (storage w) (clock w) (outbox w ++ [e])%list.

(** Time passing between two messages. *)
Definition set_clock (t : Z) (w : World) : World :=
  mkWorld (users_col w) (cargo_col w) (catalog_chat w) (mandatory_channels w)
    (region_channels_col w) (admins_col w) (storage w) t (outbox w).

(** The FSM record of a chat put to [s]. *)
Definition put_session (chat : Z) (s : Session) (w : World) : World :=
  set_storage <[chat := s]> w.

Definition now_utc : M Z := gets clock.

(** *** The FSM context of the message's chat *)

Definition state_get_state (m : Message) : M (option State) :=
  gets (fun w => fsm_state (session_of w (chat_id m))).

Definition state_get_data (m : Message) : M (gmap string Value) :=
  gets (fun w => fsm_data (session_of w (chat_id m))).

Definition state_set_state (m : Message) (st : State) : M unit :=
  modify (fun w =>
    set_storage <[chat_id m := mkSession (Some st) (fsm_data (session_of w (chat_id m)))]> w).

Definition state_update_data (m : Message) (k : string) (v : Value) : M unit :=
  modify (fun w =>
    let s := session_of w (chat_id m) in
    set_storage <[chat_id m := mkSession (fsm_state s) (<[k := v]> (fsm_data s))]> w).

(** [state.clear()]: no state, no data. *)
Definition state_clear (m : Message) : M unit :=
  modify (set_storage <[chat_id m := no_session]>).

(** *** The stores *)

Definition fetch_user (user_id : Z) : M (option User) :=
  gets (fun w => users_col w !! user_id).

(** [users_col.update_one({"_id": user_id}, {"$set": ...})]: nothing happens
    when no document has the id. *)
Definition users_update_one (user_id : Z) (f : User -> User) : M unit :=
  modify (set_users (alter f user_id)).

(** The same with [upsert=True]. *)
Definition users_upsert (user_id : Z) (f : User -> User) : M unit :=
  modify (set_users (fun us => <[user_id := f (default blank_user (us !! user_id))]> us)).

Definition get_user_lang (user_id : Z) : M string :=
  user ← fetch_user user_id;
  match user with
  | Some u =>
      if is_valid_lang (lang u) then ret (default LANG_UZ (lang u)) else ret LANG_UZ
  | None => ret LANG_UZ
  end.

Definition with_lang (l : string) (now : Z) (u : User) : User :=
  mkUser (username u) (tg_first_name u) (tg_last_name u) (first_name u) (last_name u)
    (phone u) (role u) (profile_completed u) (driver_profile u) (pro_until u)
    (Some l) (created_at u) (Some now).

Definition set_user_lang (user_id : Z) (l : string) : M unit :=
  if negb (is_valid_lang (Some l)) then ret tt
  else
    now ← now_utc;
    users_upsert user_id (with_lang l now).

(** [message.answer], as replaced by [_localized_message_answer]: the
    sender's language is read, text and markup are rendered in it. *)
Definition answer (m : Message) (t : Text) (markup : Markup) : M unit :=
  l ← match from_user m with
      | Some u => get_user_lang (tg_id u)
      | None => ret LANG_UZ
      end;
  modify (emit (Answer (chat_id m) l t markup)).

Definition is_admin_user (user_id : Z) : M bool :=
  if bool_decide (user_id ∈ CONFIG_admin_ids) then ret true
  else gets (fun w => bool_decide (user_id ∈ admins_col w)).

Definition with_tg (t : TgUser) (now : Z) (u : User) : User :=
  mkUser (tg_username t) (tg_first t) (tg_last t) (first_name u) (last_name u)
    (phone u) (role u) (profile_completed u) (driver_profile u) (pro_until u)
    (lang u) (created_at u) (Some now).

(** The document [ensure_user] inserts when the user is new. *)
Definition new_user (t : TgUser) (now : Z) : User :=
  mkUser (tg_username t) (tg_first t) (tg_last t) VNone VNone VNone None false ∅
    None None (Some now) (Some now).

Definition ensure_user (t : TgUser) : M User :=
  now ← now_utc;
  existing ← fetch_user (tg_id t);
  let doc := match existing with
             | Some u => with_tg t now u
             | None => new_user t now
             end in
  modify (set_users <[tg_id t := doc]>);;
  ret doc.

Definition get_region_chat_id (region : Value) : M (option Z) :=
  match region with
  | VStr r => gets (fun w => mjoin (region_channels_col w !! r))
  | _ => ret None
  end.

Definition get_mandatory_channels : M (list Channel) := gets mandatory_channels.

Definition set_mandatory_channels (channels : list Channel) : M unit :=
  modify (set_channels channels).

Definition subscribed (status : option string) : bool :=
  match status with
  | Some s => mem s ["member"; "administrator"; "creator"; "restricted"]
  | None => false
  end.

Definition get_missing_mandatory_channels (user_id : Z) : M (list Channel) :=
  channels ← get_mandatory_channels;
  ret (filter (fun c => negb (subscribed (tg_get_chat_member (ch_chat_id c) user_id)))
         channels).

Definition ensure_mandatory_subscription_message (m : Message) : M bool :=
  match from_user m with
  | None => ret false
  | Some u =>
      admin ← is_admin_user (tg_id u);
      if admin : bool then ret true
      else
        missing ← get_missing_mandatory_channels (tg_id u);
        match missing with
        | [] => ret true
        | _ =>
            answer m (Built "mandatory_subscribe_text")
              (InlineKeyboard "mandatory_subscribe_keyboard");;
            ret false
        end
  end.

Definition open_main_menu (m : Message) (t : Text) : M unit :=
  match from_user m with
  | None => ret tt
  | Some u =>
      admin ← is_admin_user (tg_id u);
      answer m t (ReplyKeyboard (main_menu_keyboard admin))
  end.

Definition DENIED : string := "⛔ Sizda admin huquqi yo'q.".

Definition require_admin (m : Message) : M bool :=
  match from_user m with
  | None => ret false
  | Some u =>
      admin ← is_admin_user (tg_id u);
      if admin : bool then ret true
      else answer m (Plain DENIED) NoMarkup;; ret false
  end.

Definition NOT_COMPLETED : string :=
  "Profilingiz tugallanmagan. Avval /start orqali to'ldiring.".

Definition require_completed_profile (m : Message) : M (option User) :=
  match from_user m with
  | None => ret None
  | Some u =>
      ok ← ensure_mandatory_subscription_message m;
      if negb ok then ret None
      else
        user ← ensure_user u;
        if negb (profile_completed user)
        then answer m (Plain NOT_COMPLETED) NoMarkup;; ret None
        else ret (Some user)
  end.

Definition start_driver_form (m : Message) (mode : string) : M unit :=
  state_clear m;;
  state_set_state m Driver_car_type;;
  state_update_data m "driver_mode" (VStr mode);;
  answer m (Built "start_driver_form") (ReplyKeyboard cancel_keyboard).

Definition ASK_FROM_REGION : string := "📍 Yuk qayerdan yuklanadi? Viloyatni tanlang:".

Definition start_cargo_form (m : Message) : M unit :=
  state_clear m;;
  state_set_state m Cargo_from_region;;
  answer m (Plain ASK_FROM_REGION) (ReplyKeyboard region_keyboard).

(** *** Start, language selection, cancel *)

Definition GREETING : string :=
  "👋 Assalomu alaykum!" ++ nl ++ "Logistik platformaga xush kelibsiz." ++ nl ++ nl
  ++ "🧾 Ismingizni kiriting:".

Definition ASK_LANGUAGE : string := "Tilni tanlang / Выберите язык:".
Definition ASK_LANGUAGE_AGAIN : string :=
  "Tilni tugma orqali tanlang / Выберите язык кнопкой.".
Definition MAIN_MENU : string := "Asosiy menyu.".
Definition CANCELLED : string := "❌ Jarayon bekor qilindi.".
Definition CHOOSE_SECTION : string := "Kerakli bo'limni menyudan tanlang.".

(** [isinstance(x, str) and x.strip()] *)
Definition nonblank (x : option string) : bool :=
  match x with
  | Some s => negb (String.eqb (strip s) EmptyString)
  | None => false
  end.

Definition handle_start_payload (m : Message) (payload : string) : M unit :=
  let cargo_id :=
    if startswith "phone_" payload then Some (drop_string 6 payload)
    else if startswith "cargo_" payload then Some (drop_string 6 payload)
    else None in
  match cargo_id with
  | None => ret tt
  | Some cargo_id =>
      match oid_of_string cargo_id with
      | None => answer m (Plain "E'lon identifikatori noto'g'ri.") NoMarkup
      | Some cargo_oid =>
          cargo ← gets (fun w => cargo_col w !! cargo_oid);
          match cargo with
          | None => answer m (Plain "E'lon topilmadi yoki o'chirilgan.") NoMarkup
          | Some cargo =>
              owner ← fetch_user (owner_id cargo);
              match owner with
              | None => answer m (Plain "Aloqa ma'lumoti topilmadi.") NoMarkup
              | Some owner =>
                  answer m (Built "handle_start_payload")
                    (if nonblank (username owner)
                     then InlineKeyboard "✉️ Telegramda yozish" else NoMarkup)
              end
          end
      end
  end.

Definition cmd_start (m : Message) : M unit :=
  match from_user m with
  | None => ret tt
  | Some u =>
      ok ← ensure_mandatory_subscription_message m;
      if negb ok then ret tt
      else
        state_clear m;;
        user ← ensure_user u;
        match extract_start_payload (text m) with
        | Some payload =>
            handle_start_payload m payload;;
            if profile_completed user then open_main_menu m (Plain MAIN_MENU)
            else answer m
                   (Plain "Botdan to'liq foydalanish uchun /start ni oddiy yuborib ro'yxatdan o'ting.")
                   NoMarkup
        | None =>
            if negb (is_valid_lang (lang user)) then
              state_set_state m Language_select;;
              answer m (Plain ASK_LANGUAGE) (ReplyKeyboard language_keyboard)
            else if profile_completed user then
              open_main_menu m (Plain "👋 Xush kelibsiz! Asosiy menyudan bo'limni tanlang.")
            else
              state_set_state m Registration_first_name;;
              answer m (Plain GREETING) ReplyKeyboardRemove
        end
  end.

Definition select_language (m : Message) : M unit :=
  match from_user m with
  | None => ret tt
  | Some u =>
      let chosen := dict_get (strip (or_empty (text m))) LANG_LABEL_TO_CODE in
      if negb (truthy chosen) then
        answer m (Plain ASK_LANGUAGE_AGAIN) (ReplyKeyboard language_keyboard)
      else
        set_user_lang (tg_id u) (default EmptyString chosen);;
        user ← ensure_user u;
        if profile_completed user then
          state_clear m;;
          open_main_menu m (Plain "✅ Til saqlandi. Asosiy menyu.")
        else
          state_set_state m Registration_first_name;;
          answer m (Plain GREETING) ReplyKeyboardRemove
  end.

Definition cancel_flow (m : Message) : M unit :=
  current ← state_get_state m;
  match current with
  | None =>
      match from_user m with
      | Some _ => open_main_menu m (Plain MAIN_MENU)
      | None => ret tt
      end
  | Some _ =>
      state_clear m;;
      open_main_menu m (Plain CANCELLED)
  end.

(** *** The menu actions (the handlers under [StateFilter(None)]) *)

Definition show_profile (m : Message) : M unit :=
  match from_user m with
  | None => ret tt
  | Some u =>
      ok ← ensure_mandatory_subscription_message m;
      if negb ok then ret tt
      else
        user ← ensure_user u;
        if negb (profile_completed user) then
          answer m (Plain "Profilingiz tugallanmagan. /start orqali davom eting.") NoMarkup
        else
          admin ← is_admin_user (tg_id u);
          answer m (Built "build_profile_text") (ReplyKeyboard (main_menu_keyboard admin))
  end.

Definition show_profile_analysis (m : Message) : M unit :=
  match from_user m with
  | None => ret tt
  | Some u =>
      ok ← ensure_mandatory_subscription_message m;
      if negb ok then ret tt
      else
        user ← ensure_user u;
        if negb (profile_completed user) then
          answer m (Plain "Profilingiz tugallanmagan. /start ni bosing.") NoMarkup
        else
          admin ← is_admin_user (tg_id u);
          answer m (Built "show_profile_analysis") (ReplyKeyboard (main_menu_keyboard admin))
  end.

Definition show_stats (m : Message) : M unit :=
  match from_user m with
  | None => ret tt
  | Some u =>
      ok ← ensure_mandatory_subscription_message m;
      if negb ok then ret tt
      else
        user ← ensure_user u;
        if negb (profile_completed user) then
          answer m (Plain "Profilingiz tugallanmagan. /start ni bosing.") NoMarkup
        else
          admin ← is_admin_user (tg_id u);
          answer m (Built "show_stats") (ReplyKeyboard (main_menu_keyboard admin))
  end.

Definition menu_cargo (m : Message) : M unit :=
  user ← require_completed_profile m;
  match user with
  | None => ret tt
  | Some user =>
      if negb (bool_decide (role user = Some ROLE_SHIPPER)) then
        answer m
          (Plain "📌 Yuk joylash faqat `Yuk beruvchi` roli uchun. Sozlamadan rolni almashtiring.")
          NoMarkup
      else start_cargo_form m
  end.

Definition menu_driver (m : Message) : M unit :=
  user ← require_completed_profile m;
  match user with
  | None => ret tt
  | Some _ => start_driver_form m "edit"
  end.

Definition menu_pro (m : Message) : M unit :=
  ok ← ensure_mandatory_subscription_message m;
  if negb ok then ret tt else answer m (Built "menu_pro") NoMarkup.

Definition menu_news (m : Message) : M unit :=
  ok ← ensure_mandatory_subscription_message m;
  if negb ok then ret tt
  else if negb (String.eqb CONFIG_news_channel EmptyString)
       then answer m (Built "menu_news") NoMarkup
       else answer m (Plain "📣 Yangiliklar bo'limi hali sozlanmagan.") NoMarkup.

Definition menu_contact (m : Message) : M unit :=
  ok ← ensure_mandatory_subscription_message m;
  if negb ok then ret tt else answer m (Built "menu_contact") NoMarkup.

Definition menu_settings (m : Message) : M unit :=
  ok ← ensure_mandatory_subscription_message m;
  if negb ok then ret tt
  else answer m (Plain "⚙️ Sozlamalar:") (ReplyKeyboard settings_keyboard).

Definition settings_role_start (m : Message) : M unit :=
  user ← require_completed_profile m;
  match user with
  | None => ret tt
  | Some _ =>
      state_set_state m Settings_role;;
      answer m (Plain "Yangi rolni tanlang:") (ReplyKeyboard role_keyboard)
  end.

Definition settings_lang_start (m : Message) : M unit :=
  match from_user m with
  | None => ret tt
  | Some _ =>
      state_set_state m Language_select;;
      answer m (Plain ASK_LANGUAGE) (ReplyKeyboard language_keyboard)
  end.

Definition cmd_lang (m : Message) : M unit :=
  ok ← ensure_mandatory_subscription_message m;
  if negb ok then ret tt
  else
    state_set_state m Language_select;;
    answer m (Plain ASK_LANGUAGE) (ReplyKeyboard language_keyboard).

Definition back_to_main (m : Message) : M unit :=
  state_clear m;;
  open_main_menu m (Plain MAIN_MENU).

Definition admin_panel (m : Message) : M unit :=
  ok ← require_admin m;
  if negb ok then ret tt
  else answer m (Plain "🛠 <b>Admin panel</b>") (ReplyKeyboard admin_panel_keyboard).

Definition admin_stats (m : Message) : M unit :=
  ok ← require_admin m;
  if negb ok then ret tt
  else answer m (Built "build_admin_stats_text") (ReplyKeyboard admin_panel_keyboard).

Definition admin_users (m : Message) : M unit :=
  ok ← require_admin m;
  if negb ok then ret tt
  else
    empty ← gets (fun w => bool_decide (users_col w = ∅));
    if empty : bool then
      answer m (Plain "Foydalanuvchilar topilmadi.") (ReplyKeyboard admin_panel_keyboard)
    else answer m (Built "admin_users") (ReplyKeyboard admin_panel_keyboard).

Definition admin_broadcast_start (m : Message) : M unit :=
  ok ← require_admin m;
  if negb ok then ret tt
  else
    state_set_state m AdminBroadcast_audience;;
    answer m (Plain "Qaysi auditoriyaga yuborilsin?") (ReplyKeyboard broadcast_audience_keyboard).

Definition admin_pro_menu (m : Message) : M unit :=
  ok ← require_admin m;
  if negb ok then ret tt
  else answer m (Plain "💎 Pro boshqaruvi") (ReplyKeyboard admin_pro_keyboard).

Definition PRO_ADD_FORMAT : string :=
  "Format: <code>user_id kun</code>" ++ nl ++ "Masalan: <code>123456789 30</code>".

Definition admin_pro_add_start (m : Message) : M unit :=
  ok ← require_admin m;
  if negb ok then ret tt
  else
    state_set_state m AdminPro_add;;
    answer m (Plain PRO_ADD_FORMAT) (ReplyKeyboard cancel_keyboard).

Definition admin_pro_remove_start (m : Message) : M unit :=
  ok ← require_admin m;
  if negb ok then ret tt
  else
    state_set_state m AdminPro_remove;;
    answer m
      (Plain ("Format: <code>user_id</code>" ++ nl ++ "Masalan: <code>123456789</code>"))
      (ReplyKeyboard cancel_keyboard).

Definition admin_channels_menu (m : Message) : M unit :=
  ok ← require_admin m;
  if negb ok then ret tt
  else answer m (Plain "🌐 Kanal/Guruh sozlash") (ReplyKeyboard admin_channels_keyboard).

Definition admin_catalog_start (m : Message) : M unit :=
  ok ← require_admin m;
  if negb ok then ret tt
  else
    state_set_state m AdminChannel_catalog_chat;;
    answer m (Built "admin_catalog_start") (ReplyKeyboard cancel_keyboard).

Definition admin_region_start (m : Message) : M unit :=
  ok ← require_admin m;
  if negb ok then ret tt
  else
    state_set_state m AdminChannel_region_select;;
    answer m (Plain "Viloyatni tanlang:") (ReplyKeyboard region_keyboard).

Definition admin_channels_list (m : Message) : M unit :=
  ok ← require_admin m;
  if negb ok then ret tt
  else answer m (Built "admin_channels_overview_text") (ReplyKeyboard admin_channels_keyboard).

Definition admin_required_add_start (m : Message) : M unit :=
  ok ← require_admin m;
  if negb ok then ret tt
  else
    state_set_state m AdminChannel_required_add;;
    answer m (Built "admin_required_add_start") (ReplyKeyboard cancel_keyboard).

Definition admin_required_remove_start (m : Message) : M unit :=
  ok ← require_admin m;
  if negb ok then ret tt
  else
    state_set_state m AdminChannel_required_remove;;
    answer m (Built "admin_required_remove_start") (ReplyKeyboard cancel_keyboard).

Definition admin_required_list (m : Message) : M unit :=
  ok ← require_admin m;
  if negb ok then ret tt
  else answer m (Built "mandatory_channels_overview_text")
         (ReplyKeyboard admin_channels_keyboard).

Definition admin_help (m : Message) : M unit :=
  ok ← require_admin m;
  if negb ok then ret tt
  else answer m (Built "build_admin_guide_text") (ReplyKeyboard admin_panel_keyboard).

Definition back_to_admin (m : Message) : M unit :=
  state_clear m;;
  ok ← require_admin m;
  if negb ok then ret tt
  else answer m (Plain "🛠 Admin panel") (ReplyKeyboard admin_panel_keyboard).

(** *** The menu interrupt *)

Definition route_menu_button (m : Message) (t : string) : M unit :=
  if String.eqb t BTN_MENU_PROFILE then show_profile m
  else if String.eqb t BTN_MENU_ANALYSIS then show_profile_analysis m
  else if String.eqb t BTN_MENU_STATS then show_stats m
  else if String.eqb t BTN_MENU_CARGO then menu_cargo m
  else if String.eqb t BTN_MENU_DRIVER then menu_driver m
  else if String.eqb t BTN_MENU_PRO then menu_pro m
  else if String.eqb t BTN_MENU_NEWS then menu_news m
  else if String.eqb t BTN_MENU_CONTACT then menu_contact m
  else if String.eqb t BTN_MENU_SETTINGS then menu_settings m
  else if String.eqb t BTN_SETTINGS_ROLE then settings_role_start m
  else if String.eqb t BTN_SETTINGS_LANG then settings_lang_start m
  else if String.eqb t BTN_BACK_MAIN then back_to_main m
  else if String.eqb t BTN_ADMIN_PANEL then admin_panel m
  else if String.eqb t BTN_ADMIN_STATS then admin_stats m
  else if String.eqb t BTN_ADMIN_USERS then admin_users m
  else if String.eqb t BTN_BROADCAST then admin_broadcast_start m
  else if String.eqb t BTN_ADMIN_PRO then admin_pro_menu m
  else if String.eqb t BTN_PRO_ADD then admin_pro_add_start m
  else if String.eqb t BTN_PRO_REMOVE then admin_pro_remove_start m
  else if String.eqb t BTN_ADMIN_CHANNELS then admin_channels_menu m
  else if String.eqb t BTN_CH_SET_CATALOG then admin_catalog_start m
  else if String.eqb t BTN_CH_SET_REGION then admin_region_start m
  else if String.eqb t BTN_CH_LIST then admin_channels_list m
  else if String.eqb t BTN_REQ_ADD then admin_required_add_start m
  else if String.eqb t BTN_REQ_REMOVE then admin_required_remove_start m
  else if String.eqb t BTN_REQ_LIST then admin_required_list m
  else if String.eqb t BTN_ADMIN_GUIDE then admin_help m
  else if String.eqb t BTN_BACK_ADMIN then back_to_admin m
  else match from_user m with
       | Some _ => open_main_menu m (Plain CHOOSE_SECTION)
       | None => ret tt
       end.

(** The filter of [menu_interrupt_handler]. *)
Definition is_menu_interrupt (t : option string) : bool :=
  mem (canonicalize_user_text t) MENU_INTERRUPT_BUTTONS.

Definition menu_interrupt_handler (m : Message) : M unit :=
  let t := canonicalize_user_text (text m) in
  if String.eqb t BTN_CANCEL then cancel_flow m
  else
    state_clear m;;
    route_menu_button m t.

(** *** Registration *)

Definition text_of (m : Message) : string := strip (or_empty (text m)).

Definition reg_first_name (m : Message) : M unit :=
  let t := text_of m in
  if (py_len t <? 2)%nat then
    answer m (Plain "Ism kamida 2 ta harf bo'lsin. Qayta kiriting:") NoMarkup
  else
    state_update_data m "first_name" (VStr t);;
    state_set_state m Registration_last_name;;
    answer m (Plain "🧾 Familiyangizni kiriting:") NoMarkup.

Definition reg_last_name (m : Message) : M unit :=
  let t := text_of m in
  if (py_len t <? 2)%nat then
    answer m (Plain "Familiya kamida 2 ta harf bo'lsin. Qayta kiriting:") NoMarkup
  else
    state_update_data m "last_name" (VStr t);;
    state_set_state m Registration_phone;;
    answer m (Plain "📱 Telefon raqamingizni yuboring:") (ReplyKeyboard phone_keyboard).

Definition reg_phone (m : Message) : M unit :=
  let phone :=
    if truthy (contact_phone m) then parse_phone (or_empty (contact_phone m))
    else if truthy (text m) then parse_phone (or_empty (text m))
    else None in
  match phone with
  | None => answer m (Plain "Telefon formati noto'g'ri. Masalan: +998901234567") NoMarkup
  | Some phone =>
      state_update_data m "phone" (VStr phone);;
      state_set_state m Registration_role;;
      answer m (Plain "Sizning rolingizni tanlang:") (ReplyKeyboard role_keyboard)
  end.

Definition with_registration (fn ln ph : Value) (r : string) (now : Z) (u : User) : User :=
  mkUser (username u) (tg_first_name u) (tg_last_name u) fn ln ph (Some r)
    (String.eqb r ROLE_SHIPPER) (driver_profile u) (pro_until u) (lang u)
    (created_at u) (Some now).

Definition CHOOSE_BUTTON : string := "Pastdagi tugmalardan birini tanlang.".

Definition reg_role (m : Message) : M unit :=
  match from_user m with
  | None => ret tt
  | Some u =>
      match dict_get (text_of m) LABEL_TO_ROLE with
      | None => answer m (Plain CHOOSE_BUTTON) NoMarkup
      | Some r =>
          if negb (mem r [ROLE_DRIVER; ROLE_SHIPPER]) then
            answer m (Plain CHOOSE_BUTTON) NoMarkup
          else
            data ← state_get_data m;
            now ← now_utc;
            users_update_one (tg_id u)
              (with_registration (get_value "first_name" data) (get_value "last_name" data)
                 (get_value "phone" data) r now);;
            if String.eqb r ROLE_SHIPPER then
              state_clear m;;
              open_main_menu m
                (Plain "✅ Ro'yxatdan o'tish tugadi. Endi yuk joylashingiz mumkin.")
            else start_driver_form m "registration"
      end
  end.

(** *** Driver profile *)

Definition ASK_NOTE : string := "📝 Qo'shimcha izoh (ixtiyoriy):".

Definition driver_car_type (m : Message) : M unit :=
  let t := text_of m in
  if (py_len t <? 2)%nat then
    answer m (Plain "Mashina turi juda qisqa. Qayta kiriting:") NoMarkup
  else
    state_update_data m "car_type" (VStr t);;
    state_set_state m Driver_capacity_ton;;
    answer m (Plain "⚖️ Yuk sig'imini kiriting (tonna):") NoMarkup.

Definition driver_capacity (m : Message) : M unit :=
  match parse_positive_number (or_empty (text m)) with
  | None => answer m (Plain "Raqam kiriting. Masalan: 20") NoMarkup
  | Some value =>
      state_update_data m "capacity_ton" (VNum value);;
      state_set_state m Driver_volume_m3;;
      answer m (Plain "📐 Hajmini kiriting (m3):") NoMarkup
  end.

Definition driver_volume (m : Message) : M unit :=
  match parse_positive_number (or_empty (text m)) with
  | None => answer m (Plain "Raqam kiriting. Masalan: 86") NoMarkup
  | Some value =>
      state_update_data m "volume_m3" (VNum value);;
      state_set_state m Driver_routes;;
      answer m
        (Plain "📍 Qaysi yo'nalishlarda ishlaysiz? (masalan: Toshkent-Samarqand-Farg'ona)")
        NoMarkup
  end.

Definition driver_routes (m : Message) : M unit :=
  let t := text_of m in
  if (py_len t <? 3)%nat then
    answer m (Plain "Yo'nalishni to'liqroq yozing.") NoMarkup
  else
    state_update_data m "routes" (VStr t);;
    state_set_state m Driver_price_per_km;;
    answer m (Plain "💵 1 km uchun narx (ixtiyoriy):") (ReplyKeyboard skip_cancel_keyboard).

Definition driver_price (m : Message) : M unit :=
  let t := text_of m in
  if String.eqb t BTN_SKIP then
    state_update_data m "price_per_km" VNone;;
    state_set_state m Driver_note;;
    answer m (Plain ASK_NOTE) (ReplyKeyboard skip_cancel_keyboard)
  else
    match parse_positive_number t with
    | None =>
        answer m (Plain "Raqam kiriting yoki `⏭ O'tkazib yuborish` ni bosing.") NoMarkup
    | Some value =>
        state_update_data m "price_per_km" (VNum value);;
        state_set_state m Driver_note;;
        answer m (Plain ASK_NOTE) (ReplyKeyboard skip_cancel_keyboard)
    end.

(** The [driver_profile] dict that [driver_note] stores. *)
Definition make_driver_profile (data : gmap string Value) (note : Value)
  : gmap string Value :=
  <["note" := note]> (<["price_per_km" := get_value "price_per_km" data]>
  (<["routes" := get_value "routes" data]> (<["volume_m3" := get_value "volume_m3" data]>
  (<["capacity_ton" := get_value "capacity_ton" data]>
  (<["car_type" := get_value "car_type" data]> ∅))))).

Definition with_driver_profile (dp : gmap string Value) (now : Z) (u : User) : User :=
  mkUser (username u) (tg_first_name u) (tg_last_name u) (first_name u) (last_name u)
    (phone u) (Some ROLE_DRIVER) true dp (pro_until u) (lang u) (created_at u) (Some now).

Definition driver_note (m : Message) : M unit :=
  match from_user m with
  | None => ret tt
  | Some u =>
      let t := text_of m in
      let note := if String.eqb t BTN_SKIP then VNone else VStr t in
      data ← state_get_data m;
      state_clear m;;
      let driver_profile := make_driver_profile data note in
      now ← now_utc;
      users_update_one (tg_id u) (with_driver_profile driver_profile now);;
      open_main_menu m (Plain "✅ Haydovchi anketasi saqlandi.")
  end.

(** *** Cargo posting *)

Definition CHOOSE_REGION : string := "Viloyatni tugmadan tanlang.".

Definition cargo_from_region (m : Message) : M unit :=
  match normalize_region (or_empty (text m)) with
  | None => answer m (Plain CHOOSE_REGION) (ReplyKeyboard region_keyboard)
  | Some region =>
      state_update_data m "from_region" (VStr region);;
      state_set_state m Cargo_to_region;;
      answer m (Plain "🏁 Yuk qayerga boradi? Viloyatni tanlang:")
        (ReplyKeyboard region_keyboard)
  end.

Definition cargo_to_region (m : Message) : M unit :=
  match normalize_region (or_empty (text m)) with
  | None => answer m (Plain CHOOSE_REGION) (ReplyKeyboard region_keyboard)
  | Some region =>
      state_update_data m "to_region" (VStr region);;
      state_set_state m Cargo_cargo_type;;
      answer m (Plain "📦 Yuk turini kiriting (masalan: sement, mebel, oziq-ovqat):")
        (ReplyKeyboard cancel_keyboard)
  end.

Definition cargo_type (m : Message) : M unit :=
  let t := text_of m in
  if (py_len t <? 2)%nat then
    answer m (Plain "Yuk turini to'liqroq kiriting.") NoMarkup
  else
    state_update_data m "cargo_type" (VStr t);;
    state_set_state m Cargo_weight_ton;;
    answer m (Plain "⚖️ Og'irligini kiriting (tonna):") NoMarkup.

Definition cargo_weight (m : Message) : M unit :=
  match parse_positive_number (or_empty (text m)) with
  | None => answer m (Plain "Raqam kiriting. Masalan: 22") NoMarkup
  | Some value =>
      state_update_data m "weight_ton" (VNum value);;
      state_set_state m Cargo_volume_m3;;
      answer m (Plain "📐 Hajmini kiriting (m3):") NoMarkup
  end.

Definition cargo_volume (m : Message) : M unit :=
  match parse_positive_number (or_empty (text m)) with
  | None => answer m (Plain "Raqam kiriting. Masalan: 86") NoMarkup
  | Some value =>
      state_update_data m "volume_m3" (VNum value);;
      state_set_state m Cargo_price;;
      answer m (Plain "💰 Taklif narxini kiriting (so'm):") NoMarkup
  end.

Definition cargo_price (m : Message) : M unit :=
  match parse_positive_number (or_empty (text m)) with
  | None => answer m (Plain "Narxni raqamda kiriting. Masalan: 2500000") NoMarkup
  | Some value =>
      state_update_data m "price" (VNum value);;
      state_set_state m Cargo_load_date;;
      answer m (Plain "📅 Yuklash sanasi (masalan: 25.02.2026 yoki bugun):") NoMarkup
  end.

Definition cargo_load_date (m : Message) : M unit :=
  let t := text_of m in
  if (py_len t <? 2)%nat then
    answer m (Plain "Yuklash sanasini kiriting.") NoMarkup
  else
    state_update_data m "load_date" (VStr t);;
    state_set_state m Cargo_payment_type;;
    answer m (Plain "💳 To'lov turini tanlang:") (ReplyKeyboard payment_keyboard).

Definition cargo_payment (m : Message) : M unit :=
  let t := text_of m in
  if negb (mem t PAYMENT_OPTIONS) then
    answer m (Plain "To'lov turini tugmadan tanlang.") (ReplyKeyboard payment_keyboard)
  else
    state_update_data m "payment_type" (VStr t);;
    state_set_state m Cargo_comment;;
    answer m (Plain ASK_NOTE) (ReplyKeyboard skip_cancel_keyboard).

Definition cargo_comment (m : Message) : M unit :=
  let t := text_of m in
  let comment := if String.eqb t BTN_SKIP then "-" else t in
  state_update_data m "comment" (VStr comment);;
  state_set_state m Cargo_confirm;;
  answer m (Built "build_cargo_preview") (ReplyKeyboard cargo_confirm_keyboard).

(** *** Publication *)

Definition resolve_target_chats (from_region to_region : Value) : M (list Z) :=
  from_chat ← get_region_chat_id from_region;
  match from_chat with
  | None => ret []
  | Some c => ret [c]
  end.

(** The entry [publish_cargo] records for a failed send. *)
Definition failure_entry (chat : Z) (exc : string) : string :=
  pretty chat ++ ": " ++ normalize_send_error exc.

(** The loop of [publish_cargo] over the target chats. *)
Fixpoint publish_loop (targets : list Z) (sent : list Z) (failed : list string)
  : M (list Z * list string) :=
  match targets with
  | [] => ret (sent, failed)
  | chat :: rest =>
      match tg_send_message chat with
      | None =>
          modify (emit (SendMessage chat (Built "build_cargo_post_text") true));;
          publish_loop rest (sent ++ [chat])%list failed
      | Some exc =>
          modify (emit (SendMessage chat (Built "build_cargo_post_text") false));;
          publish_loop rest sent (failed ++ [failure_entry chat exc])%list
      end
  end.

Definition publish_cargo (cargo : Cargo) (owner : User) (cargo_id : nat)
  : M (list Z * list string) :=
  target_chats ← resolve_target_chats (c_from_region cargo) (c_to_region cargo);
  publish_loop target_chats [] [].

(** [data[k]] *)
Definition item (data : gmap string Value) (k : string) : M Value :=
  match data !! k with
  | Some v => ret v
  | None => raise "KeyError"
  end.

Definition with_post_result (sent : list Z) (failed : list string) (now : Z) (c : Cargo)
  : Cargo :=
  mkCargo (owner_id c) (c_from_region c) (c_to_region c) (c_cargo_type c)
    (c_weight_ton c) (c_volume_m3 c) (c_price c) (c_load_date c) (c_payment_type c)
    (c_comment c) (c_created_at c) (c_status c) (Some sent) (Some failed) (Some now).

Definition cargo_confirm (m : Message) : M unit :=
  match from_user m with
  | None => ret tt
  | Some u =>
      let t := text_of m in
      if String.eqb t BTN_CARGO_EDIT then
        state_set_state m Cargo_from_region;;
        answer m (Plain "Tahrirlash boshlandi. Qayerdan yuklanadi?")
          (ReplyKeyboard region_keyboard)
      else if negb (String.eqb t BTN_CARGO_CONFIRM) then
        answer m (Plain CHOOSE_BUTTON) (ReplyKeyboard cargo_confirm_keyboard)
      else
        data ← state_get_data m;
        state_clear m;;
        owner ← fetch_user (tg_id u);
        match owner with
        | None => answer m (Plain "Xatolik: foydalanuvchi topilmadi.") NoMarkup
        | Some owner =>
            from_region ← item data "from_region";
            to_region ← item data "to_region";
            cargo_type ← item data "cargo_type";
            weight_ton ← item data "weight_ton";
            volume_m3 ← item data "volume_m3";
            price ← item data "price";
            load_date ← item data "load_date";
            payment_type ← item data "payment_type";
            comment ← item data "comment";
            created ← now_utc;
            let cargo_doc :=
              mkCargo (tg_id u) from_region to_region cargo_type weight_ton volume_m3
                price load_date payment_type comment created "active" None None None in
            cargo_id ← gets (fun w => length (cargo_col w));
            modify (set_cargo (fun l => l ++ [cargo_doc])%list);;
            '(sent, failed) ← publish_cargo cargo_doc owner cargo_id;
            now ← now_utc;
            modify (set_cargo (alter (with_post_result sent failed now) cargo_id));;
            open_main_menu m (Built "cargo_confirm")
        end
  end.

(** *** Settings: role change *)

Definition with_role (r : string) (completed : bool) (now : Z) (u : User) : User :=
  mkUser (username u) (tg_first_name u) (tg_last_name u) (first_name u) (last_name u)
    (phone u) (Some r) completed (driver_profile u) (pro_until u) (lang u)
    (created_at u) (Some now).

Definition settings_change_role (m : Message) : M unit :=
  match from_user m with
  | None => ret tt
  | Some u =>
      match dict_get (text_of m) LABEL_TO_ROLE with
      | None => answer m (Plain "Rolni tugmadan tanlang.") NoMarkup
      | Some r =>
          if negb (mem r [ROLE_DRIVER; ROLE_SHIPPER]) then
            answer m (Plain "Rolni tugmadan tanlang.") NoMarkup
          else
            user ← fetch_user (tg_id u);
            match user with
            | None => answer m (Plain "Foydalanuvchi topilmadi.") NoMarkup
            | Some user =>
                now ← now_utc;
                if String.eqb r ROLE_SHIPPER then
                  users_update_one (tg_id u) (with_role ROLE_SHIPPER true now);;
                  state_clear m;;
                  open_main_menu m (Plain "✅ Rolingiz yuk beruvchi qilib yangilandi.")
                else
                  let dp := driver_profile user in
                  let profile_ready :=
                    value_truthy (dp !! "car_type") && value_truthy (dp !! "capacity_ton")
                    && value_truthy (dp !! "volume_m3") && value_truthy (dp !! "routes") in
                  users_update_one (tg_id u) (with_role ROLE_DRIVER profile_ready now);;
                  if profile_ready then
                    state_clear m;;
                    open_main_menu m (Plain "✅ Rolingiz haydovchi qilib yangilandi.")
                  else start_driver_form m "settings"
            end
      end
  end.

(** *** Pro subscriptions *)

Definition MICROSECONDS_PER_DAY : Z := 86400000000.

(** [datetime.min] and [datetime.max], and the largest [timedelta(days=...)]. *)
Definition DATETIME_MIN : Z := -719162 * MICROSECONDS_PER_DAY.
Definition DATETIME_MAX : Z := 2932897 * MICROSECONDS_PER_DAY - 1.
Definition TIMEDELTA_MAX_DAYS : Z := 999999999.

(** [base + timedelta(days=days)]; both the [timedelta] and the sum raise
    [OverflowError] outside their ranges. *)
Definition add_days (base days : Z) : result Z :=
  if (Z.abs days >? TIMEDELTA_MAX_DAYS)%Z then Raise "OverflowError"
  else
    let t := (base + days * MICROSECONDS_PER_DAY)%Z in
    if (t <? DATETIME_MIN)%Z || (t >? DATETIME_MAX)%Z then Raise "OverflowError"
    else Ok t.

Definition with_pro_until (p : option Z) (now : Z) (u : User) : User :=
  mkUser (username u) (tg_first_name u) (tg_last_name u) (first_name u) (last_name u)
    (phone u) (role u) (profile_completed u) (driver_profile u) p (lang u)
    (created_at u) (Some now).

(** [bool(pro_until and pro_until > now)] *)
Definition pro_active_at (now : Z) (u : User) : bool :=
  match pro_until u with
  | Some t => (t >? now)%Z
  | None => false
  end.

Definition is_pro_active (user : option User) : M bool :=
  match user with
  | None => ret false
  | Some u => now ← now_utc; ret (pro_active_at now u)
  end.

Definition apply_pro (user_id : Z) (days : Z) : M (option Z) :=
  user ← fetch_user user_id;
  match user with
  | None => ret None
  | Some user =>
      now ← now_utc;
      let current := pro_until user in
      let base := match current with
                  | Some c => if (c >? now)%Z then c else now
                  | None => now
                  end in
      match add_days base days with
      | Raise exc => raise exc
      | Ok new_until =>
          users_update_one user_id (with_pro_until (Some new_until) now);;
          ret (Some new_until)
      end
  end.

Definition remove_pro (user_id : Z) : M bool :=
  user ← fetch_user user_id;
  now ← now_utc;
  users_update_one user_id (with_pro_until None now);;
  ret (bool_decide (is_Some user)).

(** [int(s)] in a handler: [ValueError] when [s] is no integer literal. *)
Definition int_of (s : string) : M Z :=
  match py_int s with
  | Some n => ret n
  | None => raise "ValueError"
  end.

(** [bot.send_message] inside [try ... except Exception: pass]. *)
Definition notify (chat : Z) (t : Text) : M unit :=
  modify (emit (SendMessage chat t (bool_decide (tg_send_message chat = None)))).

(** *** Admin flows *)

Definition BC_MAPPING : pydict :=
  dict_literal [ (BTN_BC_ALL, "all"); (BTN_BC_DRIVERS, "drivers");
                 (BTN_BC_SHIPPERS, "shippers"); (BTN_BC_PRO, "pro") ].

Definition admin_broadcast_audience (m : Message) : M unit :=
  let audience := dict_get (text_of m) BC_MAPPING in
  if negb (truthy audience) then
    answer m (Plain "Auditoriyani tugmadan tanlang.")
      (ReplyKeyboard broadcast_audience_keyboard)
  else
    state_update_data m "audience" (VStr (default EmptyString audience));;
    state_set_state m AdminBroadcast_content;;
    answer m
      (Plain "Yuboriladigan xabarni yuboring (text/photo/video ham bo'lishi mumkin).")
      (ReplyKeyboard cancel_keyboard).

(** The Mongo query the audience selects, as a predicate on documents. *)
Definition audience_query (audience : Value) (now : Z) (u : User) : bool :=
  match audience with
  | VStr "drivers" => bool_decide (role u = Some ROLE_DRIVER)
  | VStr "shippers" => bool_decide (role u = Some ROLE_SHIPPER)
  | VStr "pro" => pro_active_at now u
  | _ => true
  end.

(** [users_col.find(query, {"_id": 1})]: the ids of the matching documents,
    in the collection's order. *)
Definition find_user_ids (q : User -> bool) (us : gmap Z User) : list Z :=
  map fst (filter (fun kv => q (snd kv)) (map_to_list us)).

(** The loop of [admin_broadcast_content]. *)
Fixpoint broadcast_loop (ids : list Z) (sent failed : nat) : M (nat * nat) :=
  match ids with
  | [] => ret (sent, failed)
  | user_id :: rest =>
      if tg_copy_to user_id then
        modify (emit (CopyTo user_id true));;
        broadcast_loop rest (S sent) failed
      else
        modify (emit (CopyTo user_id false));;
        broadcast_loop rest sent (S failed)
  end.

Definition broadcast_report (sent failed : nat) : string :=
  "✅ Broadcast yakunlandi." ++ nl ++ "📤 Yuborildi: <b>" ++ pretty sent ++ "</b>" ++ nl
  ++ "❗ Xato: <b>" ++ pretty failed ++ "</b>".

Definition admin_broadcast_content (m : Message) : M unit :=
  match from_user m with
  | None => ret tt
  | Some _ =>
      ok ← require_admin m;
      if negb ok then state_clear m
      else
        data ← state_get_data m;
        let audience := default (VStr "all") (data !! "audience") in
        now ← now_utc;
        ids ← gets (fun w => find_user_ids (audience_query audience now) (users_col w));
        '(sent, failed) ← broadcast_loop ids 0 0;
        state_clear m;;
        answer m (Plain (broadcast_report sent failed)) (ReplyKeyboard admin_panel_keyboard)
  end.

Definition NOT_FOUND : string := "Foydalanuvchi topilmadi.".
Definition DAYS_POSITIVE : string := "Kun soni 0 dan katta bo'lishi kerak.".

Definition admin_pro_add_state (m : Message) : M unit :=
  ok ← require_admin m;
  if negb ok then state_clear m
  else
    match split (or_empty (text m)) with
    | [p0; p1] =>
        if negb (isdigit (lstrip_dash p0)) || negb (isdigit p1) then
          answer m (Plain "Noto'g'ri format. Raqam kiriting.") NoMarkup
        else
          user_id ← int_of p0;
          days ← int_of p1;
          if (days <=? 0)%Z then answer m (Plain DAYS_POSITIVE) NoMarkup
          else
            new_until ← apply_pro user_id days;
            match new_until with
            | None => answer m (Plain NOT_FOUND) NoMarkup
            | Some _ =>
                state_clear m;;
                answer m (Built "pro_added") (ReplyKeyboard admin_pro_keyboard);;
                notify user_id (Built "pro_granted")
            end
    | _ => answer m (Plain PRO_ADD_FORMAT) NoMarkup
    end.

Definition admin_pro_remove_state (m : Message) : M unit :=
  ok ← require_admin m;
  if negb ok then state_clear m
  else
    let raw := text_of m in
    if negb (isdigit (lstrip_dash raw)) then
      answer m (Plain "Faqat user_id kiriting. Masalan: <code>123456789</code>") NoMarkup
    else
      user_id ← int_of raw;
      ok ← remove_pro user_id;
      if negb ok then answer m (Plain NOT_FOUND) NoMarkup
      else
        state_clear m;;
        answer m (Built "pro_removed") (ReplyKeyboard admin_pro_keyboard);;
        notify user_id (Plain "ℹ️ Sizning PRO statusingiz bekor qilindi.").

(** A chat id found on the message itself: one that is present and not 0. *)
Definition chat_found (c : option Z) : option Z :=
  match c with
  | Some n => if (n =? 0)%Z then None else Some n
  | None => None
  end.

Definition extract_chat_id_from_message (m : Message) : option Z :=
  match chat_found (forward_from_chat m) with
  | Some c => Some c
  | None =>
      match chat_found (forward_origin_chat m) with
      | Some c => Some c
      | None =>
          match chat_found (forward_origin_sender_chat m) with
          | Some c => Some c
          | None =>
              match chat_found (sender_chat m) with
              | Some c => Some c
              | None =>
                  if truthy (text m) then parse_chat_id (or_empty (text m)) else None
              end
          end
      end
  end.

(** [resolve_chat_id_from_text] in a handler: its lookups go to the outbox. *)
Definition resolve_text (value : string) : M (option Z * option string) :=
  match resolve_chat_id_from_text tg_get_chat_by_username value with
  | Raise exc => raise exc
  | Ok r =>
      modify (fun w => fold_left (fun w u => emit (GetChat u) w) (lookups r) w);;
      ret (handle r, error r)
  end.

Definition NO_CHAT_ID : string :=
  "Chat ID topilmadi." ++ nl
  ++ "ID (`-100...`), `@username`, `https://t.me/...` link yoki forward xabar yuboring.".

Definition resolve_chat_id_from_message (m : Message) : M (option Z * option string) :=
  match extract_chat_id_from_message m with
  | Some direct => ret (Some direct, None)
  | None =>
      if negb (truthy (text m)) then ret (None, Some NO_CHAT_ID)
      else resolve_text (or_empty (text m))
  end.

(** [error or dflt] *)
Definition or_text (e : option string) (dflt : string) : string :=
  if truthy e then or_empty e else dflt.

Definition check_writable (chat : Z) : M (bool * string) :=
  modify (emit (CheckWritable chat));;
  ret (check_chat_writable (tg_fetch chat)).

Definition admin_set_catalog_chat (m : Message) : M unit :=
  ok ← require_admin m;
  if negb ok then state_clear m
  else
    '(chat, err) ← resolve_chat_id_from_message m;
    match chat with
    | None => answer m (Plain (or_text err "Chat ID topilmadi.")) NoMarkup
    | Some chat =>
        modify (set_catalog_chat (Some chat));;
        state_clear m;;
        check_writable chat;;
        answer m (Built "catalog_saved") (ReplyKeyboard admin_channels_keyboard)
    end.

Definition admin_select_region (m : Message) : M unit :=
  match normalize_region (or_empty (text m)) with
  | None => answer m (Plain CHOOSE_REGION) (ReplyKeyboard region_keyboard)
  | Some region =>
      state_update_data m "selected_region" (VStr region);;
      state_set_state m AdminChannel_region_chat;;
      answer m (Built "admin_select_region") (ReplyKeyboard cancel_keyboard)
  end.

Definition admin_set_region_chat (m : Message) : M unit :=
  ok ← require_admin m;
  if negb ok then state_clear m
  else
    '(chat, err) ← resolve_chat_id_from_message m;
    match chat with
    | None => answer m (Plain (or_text err "Chat ID topilmadi.")) NoMarkup
    | Some chat =>
        data ← state_get_data m;
        match data !! "selected_region" with
        | Some (VStr (String a r)) =>
            modify (set_regions <[String a r := Some chat]>);;
            state_clear m;;
            check_writable chat;;
            answer m (Built "region_saved") (ReplyKeyboard admin_channels_keyboard)
        | _ =>
            state_clear m;;
            answer m (Plain "Xatolik: viloyat tanlanmadi.")
              (ReplyKeyboard admin_channels_keyboard)
        end
    end.

(** [chat.title or chat.full_name or str(chat_id)] *)
Definition channel_title (chat : ChatInfo) (chat_id : Z) : string :=
  if truthy (ci_title chat) then or_empty (ci_title chat)
  else if truthy (ci_full_name chat) then or_empty (ci_full_name chat)
  else pretty chat_id.

Definition add_mandatory_channel (chat_id : Z) : M (bool * Text) :=
  match tg_get_chat chat_id with
  | Raise exc => ret (false, Plain (normalize_send_error exc))
  | Ok chat =>
      let entry :=
        mkChannel (ci_id chat) (channel_title chat chat_id) (ci_username chat)
          (if truthy (ci_username chat)
           then Some ("https://t.me/" ++ or_empty (ci_username chat)) else None) in
      channels ← get_mandatory_channels;
      let channels :=
        filter (fun c => negb (ch_chat_id c =? ch_chat_id entry)%Z) channels in
      set_mandatory_channels (channels ++ [entry])%list;;
      ret (true, Built "mandatory_channel_added")
  end.

Definition remove_mandatory_channel (chat_id : Z) : M bool :=
  channels ← get_mandatory_channels;
  let updated := filter (fun c => negb (ch_chat_id c =? chat_id)%Z) channels in
  if (length updated =? length channels)%nat then ret false
  else set_mandatory_channels updated;; ret true.

Definition admin_required_add_state (m : Message) : M unit :=
  ok ← require_admin m;
  if negb ok then state_clear m
  else
    '(chat, err) ← resolve_chat_id_from_message m;
    match chat with
    | None => answer m (Plain (or_text err "Chat aniqlanmadi.")) NoMarkup
    | Some chat =>
        '(ok, result_text) ← add_mandatory_channel chat;
        if negb ok then answer m (Built "add_failed") NoMarkup
        else
          state_clear m;;
          answer m result_text (ReplyKeyboard admin_channels_keyboard)
    end.

Definition admin_required_remove_state (m : Message) : M unit :=
  ok ← require_admin m;
  if negb ok then state_clear m
  else
    '(chat, err) ← resolve_chat_id_from_message m;
    match chat with
    | None => answer m (Plain (or_text err "Chat aniqlanmadi.")) NoMarkup
    | Some chat =>
        deleted ← remove_mandatory_channel chat;
        state_clear m;;
        if negb deleted then
          answer m (Plain "Berilgan kanal majburiy ro'yxatda topilmadi.")
            (ReplyKeyboard admin_channels_keyboard)
        else answer m (Built "mandatory_channel_removed")
               (ReplyKeyboard admin_channels_keyboard)
    end.

(** *** Admin commands *)

Definition admin_pro_add_command (m : Message) : M unit :=
  ok ← require_admin m;
  if negb ok then ret tt
  else
    match split (or_empty (text m)) with
    | [_; p1; p2] =>
        if negb (isdigit (lstrip_dash p1)) || negb (isdigit p2) then
          answer m (Plain "Format noto'g'ri.") NoMarkup
        else
          user_id ← int_of p1;
          days ← int_of p2;
          if (days <=? 0)%Z then answer m (Plain DAYS_POSITIVE) NoMarkup
          else
            new_until ← apply_pro user_id days;
            match new_until with
            | None => answer m (Plain NOT_FOUND) NoMarkup
            | Some _ => answer m (Built "pro_added") NoMarkup
            end
    | _ => answer m (Plain "Format: <code>/pro_add user_id kun</code>") NoMarkup
    end.

Definition admin_pro_remove_command (m : Message) : M unit :=
  ok ← require_admin m;
  if negb ok then ret tt
  else
    match split (or_empty (text m)) with
    | [_; p1] =>
        if negb (isdigit (lstrip_dash p1)) then
          answer m (Plain "Format: <code>/pro_remove user_id</code>") NoMarkup
        else
          user_id ← int_of p1;
          ok ← remove_pro user_id;
          if negb ok then answer m (Plain NOT_FOUND) NoMarkup
          else answer m (Built "pro_removed") NoMarkup
    | _ => answer m (Plain "Format: <code>/pro_remove user_id</code>") NoMarkup
    end.

Definition admin_set_catalog_command (m : Message) : M unit :=
  ok ← require_admin m;
  if negb ok then ret tt
  else
    match split (or_empty (text m)) with
    | [_; p1] =>
        '(chat, err) ← resolve_text p1;
        match chat with
        | None => answer m (Plain (or_text err "Chat ID noto'g'ri.")) NoMarkup
        | Some chat =>
            modify (set_catalog_chat (Some chat));;
            check_writable chat;;
            answer m (Built "catalog_saved") NoMarkup
        end
    | _ => answer m (Built "set_catalog_format") NoMarkup
    end.

(** [" ".join(parts).replace("_", " ")] *)
Definition join_words (parts : list string) : string :=
  of_bytes (map (fun b => if (b =? 95)%N then 32%N else b)
              (bytes (String.concat " " parts))).

Definition admin_set_region_command (m : Message) : M unit :=
  ok ← require_admin m;
  if negb ok then ret tt
  else
    let parts := split (or_empty (text m)) in
    if (length parts <? 3)%nat then answer m (Built "set_region_format") NoMarkup
    else
      '(chat, err) ← resolve_text (List.last parts EmptyString);
      match chat with
      | None => answer m (Plain (or_text err "Chat ID noto'g'ri.")) NoMarkup
      | Some chat =>
          let region_raw := join_words (removelast (tl parts)) in
          match normalize_region region_raw with
          | None => answer m (Built "bad_region") NoMarkup
          | Some region =>
              modify (set_regions <[region := Some chat]>);;
              check_writable chat;;
              answer m (Built "region_saved") NoMarkup
          end
      end.

Definition admin_set_catalog_here (m : Message) : M unit :=
  ok ← require_admin m;
  if negb ok then ret tt
  else if String.eqb (chat_type m) "private" then
    answer m (Plain "Bu buyruqni katalog kanal/guruh ichida yuboring.") NoMarkup
  else
    modify (set_catalog_chat (Some (chat_id m)));;
    check_writable (chat_id m);;
    answer m (Built "catalog_here_saved") NoMarkup.

Definition admin_set_region_here (m : Message) : M unit :=
  ok ← require_admin m;
  if negb ok then ret tt
  else if String.eqb (chat_type m) "private" then
    answer m (Built "set_region_here_private") NoMarkup
  else
    match split1 (or_empty (text m)) with
    | [_; rest] =>
        match normalize_region (join_words [rest]) with
        | None => answer m (Built "bad_region") NoMarkup
        | Some region =>
            modify (set_regions <[region := Some (chat_id m)]>);;
            check_writable (chat_id m);;
            answer m (Built "region_here_saved") NoMarkup
        end
    | _ => answer m (Plain "Format: <code>/set_region_here Toshkent</code>") NoMarkup
    end.

Definition cmd_chat_id (m : Message) : M unit :=
  answer m (Built "cmd_chat_id") NoMarkup.

Definition fallback (m : Message) : M unit :=
  if startswith "/" (or_empty (text m)) then
    answer m (Plain "Buyruq topilmadi. Menyudan foydalaning yoki /start ni bosing.")
      NoMarkup
  else match from_user m with
       | Some _ => open_main_menu m (Plain CHOOSE_SECTION)
       | None => ret tt
       end.

(** *** The dispatcher *)

(** [CanonicalizeInputMiddleware]: a message with text is handed on with its
    text canonicalized. *)
Definition canonicalize_input (m : Message) : Message :=
  if truthy (text m) then
    mkMessage (chat_id m) (chat_type m) (from_user m)
      (Some (canonicalize_user_text (text m))) (caption m) (contact_phone m)
      (forward_from_chat m) (forward_origin_chat m) (forward_origin_sender_chat m)
      (sender_chat m)
  else m.

(** aiogram's [Command] filter reads the first word of the text (or of the
    caption): a slash, the command, and possibly [@mention]. *)
Definition command_in (t : string) : option string :=
  match split1 t with
  | String "/" rest :: _ =>
      let (command, mention) := partition_at rest in
      if String.eqb mention EmptyString || mention_ok mention
      then Some command else None
  | _ => None
  end.

Definition command_of (m : Message) : option string :=
  let t := if truthy (text m) then text m else caption m in
  if negb (truthy t) then None else command_in (or_empty t).

Definition is_command (name : string) (m : Message) : bool :=
  bool_decide (command_of m = Some name).

Definition text_is (label : string) (m : Message) : bool :=
  bool_decide (text m = Some label).

(** The handler registered for a state. *)
Definition state_handler (st : State) : Message -> M unit :=
  match st with
  | Registration_first_name => reg_first_name
  | Registration_last_name => reg_last_name
  | Registration_phone => reg_phone
  | Registration_role => reg_role
  | Language_select => select_language
  | Driver_car_type => driver_car_type
  | Driver_capacity_ton => driver_capacity
  | Driver_volume_m3 => driver_volume
  | Driver_routes => driver_routes
  | Driver_price_per_km => driver_price
  | Driver_note => driver_note
  | Cargo_from_region => cargo_from_region
  | Cargo_to_region => cargo_to_region
  | Cargo_cargo_type => cargo_type
  | Cargo_weight_ton => cargo_weight
  | Cargo_volume_m3 => cargo_volume
  | Cargo_price => cargo_price
  | Cargo_load_date => cargo_load_date
  | Cargo_payment_type => cargo_payment
  | Cargo_comment => cargo_comment
  | Cargo_confirm => cargo_confirm
  | Settings_role => settings_change_role
  | AdminBroadcast_audience => admin_broadcast_audience
  | AdminBroadcast_content => admin_broadcast_content
  | AdminPro_add => admin_pro_add_state
  | AdminPro_remove => admin_pro_remove_state
  | AdminChannel_catalog_chat => admin_set_catalog_chat
  | AdminChannel_region_select => admin_select_region
  | AdminChannel_region_chat => admin_set_region_chat
  | AdminChannel_required_add => admin_required_add_state
  | AdminChannel_required_remove => admin_required_remove_state
  end.

(** The handlers that only run without a state, the command handlers after
    them and [fallback], in the order of registration. *)
Definition stateless_handler (m : Message) : M unit :=
  if text_is BTN_MENU_PROFILE m || is_command "profil" m then show_profile m
  else if text_is BTN_MENU_ANALYSIS m || is_command "tahlil" m then show_profile_analysis m
  else if text_is BTN_MENU_STATS m || is_command "statistika" m then show_stats m
  else if text_is BTN_MENU_CARGO m || is_command "yuk" m then menu_cargo m
  else if text_is BTN_MENU_DRIVER m then menu_driver m
  else if text_is BTN_MENU_PRO m then menu_pro m
  else if text_is BTN_MENU_NEWS m then menu_news m
  else if text_is BTN_MENU_CONTACT m then menu_contact m
  else if text_is BTN_MENU_SETTINGS m then menu_settings m
  else if text_is BTN_SETTINGS_ROLE m then settings_role_start m
  else if text_is BTN_SETTINGS_LANG m then settings_lang_start m
  else if is_command "lang" m then cmd_lang m
  else if text_is BTN_BACK_MAIN m then back_to_main m
  else if text_is BTN_ADMIN_PANEL m || is_command "admin" m then admin_panel m
  else if text_is BTN_ADMIN_STATS m then admin_stats m
  else if text_is BTN_ADMIN_USERS m then admin_users m
  else if text_is BTN_BROADCAST m then admin_broadcast_start m
  else if text_is BTN_ADMIN_PRO m then admin_pro_menu m
  else if text_is BTN_PRO_ADD m then admin_pro_add_start m
  else if text_is BTN_PRO_REMOVE m then admin_pro_remove_start m
  else if text_is BTN_ADMIN_CHANNELS m then admin_channels_menu m
  else if text_is BTN_CH_SET_CATALOG m then admin_catalog_start m
  else if text_is BTN_CH_SET_REGION m then admin_region_start m
  else if text_is BTN_CH_LIST m then admin_channels_list m
  else if text_is BTN_REQ_ADD m then admin_required_add_start m
  else if text_is BTN_REQ_REMOVE m then admin_required_remove_start m
  else if text_is BTN_REQ_LIST m then admin_required_list m
  else if text_is BTN_ADMIN_GUIDE m || is_command "admin_help" m then admin_help m
  else if text_is BTN_BACK_ADMIN m then back_to_admin m
  else if is_command "pro_add" m then admin_pro_add_command m
  else if is_command "pro_remove" m then admin_pro_remove_command m
  else if is_command "set_catalog" m then admin_set_catalog_command m
  else if is_command "set_region" m then admin_set_region_command m
  else if is_command "set_catalog_here" m then admin_set_catalog_here m
  else if is_command "set_region_here" m then admin_set_region_here m
  else if is_command "chat_id" m then cmd_chat_id m
  else fallback m.

(** One incoming message: the dispatcher only lets private chats through,
    the middleware canonicalizes the text, and the first handler whose filters
    accept the message runs.  [cmd_start], [select_language], [cancel_flow]
    and [menu_interrupt_handler] are registered, in this order, before every
    other handler; every state has a handler registered before the first
    handler that has no state filter. *)
Definition dispatch (m0 : Message) : M unit :=
  if negb (String.eqb (chat_type m0) "private") then ret tt
  else
    let m := canonicalize_input m0 in
    st ← state_get_state m;
    if is_command "start" m then cmd_start m
    else if bool_decide (st = Some Language_select) then select_language m
    else if text_is BTN_CANCEL m || is_command "cancel" m then cancel_flow m
    else if is_menu_interrupt (text m) then menu_interrupt_handler m
    else match st with
         | Some s => state_handler s m
         | None => stateless_handler m
         end.

(** Messages one after the other. *)
Fixpoint dispatch_all (ms : list Message) : M unit :=
  match ms with
  | [] => ret tt
  | m :: rest => dispatch m;; dispatch_all rest
  end.

(** A message that goes to the handler of the current state: no [/start], no
    cancel and no menu label. *)
Definition passes_to_flow (m : Message) : bool :=
  negb (is_command "start" m)
  && negb (text_is BTN_CANCEL m || is_command "cancel" m)
  && negb (is_menu_interrupt (text m)).

(** The same read off a text alone. *)
Definition plain_text (t : string) : bool :=
  negb (bool_decide (command_in t = Some "start"))
  && negb (bool_decide (t = BTN_CANCEL) || bool_decide (command_in t = Some "cancel"))
  && negb (is_menu_interrupt (Some t)).

(** The chat a region is mapped to, as [get_region_chat_id] reads it. *)
Definition region_chat_of (w : World) (region : Value) : option Z :=
  match region with
  | VStr r => mjoin (region_channels_col w !! r)
  | _ => None
  end.

(** The admin-only operations: every handler that starts by [require_admin]
    (after clearing the state, for [back_to_admin]). *)
Inductive AdminOp : Type :=
| Op_admin_panel | Op_admin_stats | Op_admin_users | Op_admin_broadcast_start
| Op_admin_pro_menu | Op_admin_pro_add_start | Op_admin_pro_remove_start
| Op_admin_channels_menu | Op_admin_catalog_start | Op_admin_region_start
| Op_admin_channels_list | Op_admin_required_add_start
| Op_admin_required_remove_start | Op_admin_required_list | Op_admin_help
| Op_back_to_admin
| Op_admin_broadcast_content | Op_admin_pro_add_state | Op_admin_pro_remove_state
| Op_admin_set_catalog_chat | Op_admin_set_region_chat
| Op_admin_required_add_state | Op_admin_required_remove_state
| Op_admin_pro_add_command | Op_admin_pro_remove_command
| Op_admin_set_catalog_command | Op_admin_set_region_command
| Op_admin_set_catalog_here | Op_admin_set_region_here.

Definition admin_handler (op : AdminOp) : Message -> M unit :=
  match op with
  | Op_admin_panel => admin_panel
  | Op_admin_stats => admin_stats
  | Op_admin_users => admin_users
  | Op_admin_broadcast_start => admin_broadcast_start
  | Op_admin_pro_menu => admin_pro_menu
  | Op_admin_pro_add_start => admin_pro_add_start
  | Op_admin_pro_remove_start => admin_pro_remove_start
  | Op_admin_channels_menu => admin_channels_menu
  | Op_admin_catalog_start => admin_catalog_start
  | Op_admin_region_start => admin_region_start
  | Op_admin_channels_list => admin_channels_list
  | Op_admin_required_add_start => admin_required_add_start
  | Op_admin_required_remove_start => admin_required_remove_start
  | Op_admin_required_list => admin_required_list
  | Op_admin_help => admin_help
  | Op_back_to_admin => back_to_admin
  | Op_admin_broadcast_content => admin_broadcast_content
  | Op_admin_pro_add_state => admin_pro_add_state
  | Op_admin_pro_remove_state => admin_pro_remove_state
  | Op_admin_set_catalog_chat => admin_set_catalog_chat
  | Op_admin_set_region_chat => admin_set_region_chat
  | Op_admin_required_add_state => admin_required_add_state
  | Op_admin_required_remove_state => admin_required_remove_state
  | Op_admin_pro_add_command => admin_pro_add_command
  | Op_admin_pro_remove_command => admin_pro_remove_command
  | Op_admin_set_catalog_command => admin_set_catalog_command
  | Op_admin_set_region_command => admin_set_region_command
  | Op_admin_set_catalog_here => admin_set_catalog_here
  | Op_admin_set_region_here => admin_set_region_here
  end.

(** The operations whose denial branch calls [state.clear()]: the steps of
    the admin flows, and [back_to_admin], which clears before it checks. *)
Definition clears_on_denial (op : AdminOp) : bool :=
  match op with
  | Op_back_to_admin
  | Op_admin_broadcast_content | Op_admin_pro_add_state | Op_admin_pro_remove_state
  | Op_admin_set_catalog_chat | Op_admin_set_region_chat
  | Op_admin_required_add_state | Op_admin_required_remove_state => true
  | _ => false
  end.

(** *** Reading the handlers *)

Ltac run_m :=
  unfold mbind, mret, M_bind, M_ret, bind, ret, gets, modify, raise in *.

Definition lang_for (w : World) (m : Message) : string :=
  match from_user m with
  | Some u =>
      match users_col w !! tg_id u with
      | Some usr => if is_valid_lang (lang usr) then default LANG_UZ (lang usr) else LANG_UZ
      | None => LANG_UZ
      end
  | None => LANG_UZ
  end.

Definition admin_in (w : World) (user_id : Z) : bool :=
  bool_decide (user_id ∈ CONFIG_admin_ids) || bool_decide (user_id ∈ admins_col w).

Lemma answer_eq m t mk w :
  answer m t mk w = Done tt (emit (Answer (chat_id m) (lang_for w m) t mk) w).
Proof.
  unfold answer, lang_for, get_user_lang, fetch_user. run_m.
  destruct (from_user m) as [u|]; [|reflexivity].
  destruct (users_col w !! tg_id u) as [usr|]; [|reflexivity].
  destruct (is_valid_lang (lang usr)); reflexivity.
Qed.

Lemma is_admin_user_eq user_id w :
  is_admin_user user_id w = Done (admin_in w user_id) w.
Proof.
  unfold is_admin_user, admin_in. run_m.
  destruct (bool_decide (user_id ∈ CONFIG_admin_ids)); reflexivity.
Qed.

Lemma open_main_menu_eq m u t w :
  from_user m = Some u ->
  open_main_menu m t w
  = Done tt (emit (Answer (chat_id m) (lang_for w m) t
                     (ReplyKeyboard (main_menu_keyboard (admin_in w (tg_id u))))) w).
Proof.
  intros Hu. unfold open_main_menu. rewrite Hu. run_m.
  rewrite is_admin_user_eq. apply answer_eq.
Qed.

Lemma require_admin_denied m u w :
  from_user m = Some u -> admin_in w (tg_id u) = false ->
  require_admin m w
  = Done false (emit (Answer (chat_id m) (lang_for w m) (Plain DENIED) NoMarkup) w).
Proof.
  intros Hu Hadm. unfold require_admin. rewrite Hu. run_m.
  rewrite is_admin_user_eq, Hadm, answer_eq. reflexivity.
Qed.

Lemma require_admin_granted m u w :
  from_user m = Some u -> admin_in w (tg_id u) = true ->
  require_admin m w = Done true w.
Proof.
  intros Hu Hadm. unfold require_admin. rewrite Hu. run_m.
  rewrite is_admin_user_eq, Hadm. reflexivity.
Qed.

Lemma session_of_put chat s w : session_of (put_session chat s w) chat = s.
Proof. unfold session_of, put_session. simpl. by rewrite lookup_insert_eq. Qed.

Lemma session_of_put_ne chat chat' s w :
  chat <> chat' -> session_of (put_session chat s w) chat' = session_of w chat'.
Proof. intros H. unfold session_of, put_session. simpl. by rewrite lookup_insert_ne. Qed.

Lemma put_put chat s s' w : put_session chat s (put_session chat s' w) = put_session chat s w.
Proof. unfold put_session, set_storage. simpl. by rewrite insert_insert_eq. Qed.

Lemma session_of_emit e w chat : session_of (emit e w) chat = session_of w chat.
Proof. reflexivity. Qed.

Lemma state_clear_eq m w : state_clear m w = Done tt (put_session (chat_id m) no_session w).
Proof. reflexivity. Qed.

Lemma state_set_state_eq m st w :
  state_set_state m st w
  = Done tt (put_session (chat_id m)
               (mkSession (Some st) (fsm_data (session_of w (chat_id m)))) w).
Proof. reflexivity. Qed.

Lemma state_update_data_eq m k v w :
  state_update_data m k v w
  = Done tt (put_session (chat_id m)
               (mkSession (fsm_state (session_of w (chat_id m)))
                  (<[k := v]> (fsm_data (session_of w (chat_id m))))) w).
Proof. reflexivity. Qed.

(** *** Admin guard *)

(** C9 (as amended): an admin-only operation invoked by a non-admin answers
    with the fixed denial message and nothing else, and changes no persistent
    entity; the sender's session is cleared when the operation is a step of
    an admin flow (or [back_to_admin]) and left as it is otherwise. *)
Theorem admin_denied_effects (op : AdminOp) (m : Message) (u : TgUser) (w : World) :
  from_user m = Some u ->
  admin_in w (tg_id u) = false ->
  exists w',
    admin_handler op m w = Done tt w'
    /\ persistent w' = persistent w
    /\ outbox w' = (outbox w ++ [Answer (chat_id m) (lang_for w m) (Plain DENIED) NoMarkup])%list
    /\ storage w'
       = (if clears_on_denial op then <[chat_id m := no_session]> (storage w) else storage w).
Proof.
  intros Hu Hadm.
  assert (Hden := require_admin_denied m u w Hu Hadm).
  destruct op; simpl admin_handler; simpl clears_on_denial;
    try (eexists; split;
         [ match goal with |- ?h m w = _ => unfold h end; run_m;
           try rewrite Hu; rewrite Hden; reflexivity
         | repeat split ]).
  (* back_to_admin clears before it checks *)
  unfold back_to_admin. run_m. rewrite state_clear_eq.
  rewrite (require_admin_denied m u _ Hu); [| exact Hadm].
  eexists; split; [reflexivity | repeat split].
Qed.

(** *** Routing *)

Lemma command_of_text m t :
  text m = Some t -> t <> EmptyString -> command_of m = command_in t.
Proof.
  intros Ht Hne. unfold command_of. rewrite Ht.
  destruct t; [done | reflexivity].
Qed.

Lemma passes_to_flow_text m t :
  text m = Some t -> t <> EmptyString -> passes_to_flow m = plain_text t.
Proof.
  intros Ht Hne. unfold passes_to_flow, plain_text, is_command, text_is.
  rewrite (command_of_text m t Ht Hne), Ht.
  do 2 f_equal. f_equal. f_equal.
  apply bool_decide_ext. split; [by intros [= ->] | by intros ->].
Qed.

(** What the middleware hands on when the message has text. *)
Lemma canonicalize_input_text m t :
  text m = Some t -> t <> EmptyString ->
  text (canonicalize_input m) = Some (canonicalize_user_text (Some t)).
Proof.
  intros Ht Hne. unfold canonicalize_input. rewrite Ht.
  destruct t; [done | reflexivity].
Qed.

Lemma canonicalize_input_meta m :
  chat_id (canonicalize_input m) = chat_id m
  /\ from_user (canonicalize_input m) = from_user m
  /\ chat_type (canonicalize_input m) = chat_type m.
Proof. unfold canonicalize_input. destruct (truthy (text m)); done. Qed.

(** A private message that is no [/start], cancel or menu label reaches the
    handler of the chat's state (language selection apart, which comes
    earlier in the order). *)
Lemma dispatch_state_handler m w st :
  chat_type m = "private" ->
  fsm_state (session_of w (chat_id m)) = Some st ->
  st <> Language_select ->
  passes_to_flow (canonicalize_input m) = true ->
  dispatch m w = state_handler st (canonicalize_input m) w.
Proof.
  intros Hpriv Hst Hne Hpass. unfold dispatch. rewrite Hpriv. simpl.
  run_m. unfold state_get_state. run_m.
  destruct (canonicalize_input_meta m) as (-> & _ & _). rewrite Hst.
  unfold passes_to_flow in Hpass.
  apply andb_true_iff in Hpass as [Hpass Hint].
  apply andb_true_iff in Hpass as [Hstart Hcancel].
  apply negb_true_iff in Hstart, Hcancel, Hint.
  rewrite Hstart, Hcancel, Hint.
  rewrite bool_decide_eq_false_2; [reflexivity | congruence].
Qed.

(** *** Cargo posting: the edit token *)

(** C6 (as amended): at the preview-and-confirm step the edit token rewinds
    the session to the first step, origin region, and keeps the values
    gathered so far in the session; nothing else changes but the reply. *)
Theorem cargo_edit_rewinds_keeping_values (m : Message) (u : TgUser) (t : string) (w : World) :
  chat_type m = "private" ->
  from_user m = Some u ->
  text m = Some t ->
  canonicalize_user_text (Some t) = BTN_CARGO_EDIT ->
  fsm_state (session_of w (chat_id m)) = Some Cargo_confirm ->
  exists w',
    dispatch m w = Done tt w'
    /\ session_of w' (chat_id m)
       = mkSession (Some Cargo_from_region) (fsm_data (session_of w (chat_id m)))
    /\ persistent w' = persistent w
    /\ outbox w'
       = (outbox w
          ++ [Answer (chat_id m) (lang_for w m)
                (Plain "Tahrirlash boshlandi. Qayerdan yuklanadi?")
                (ReplyKeyboard region_keyboard)])%list.
Proof.
  intros Hpriv Hu Ht Hcanon Hst.
  assert (Hne : t <> EmptyString).
  { intros ->. vm_compute in Hcanon. discriminate. }
  destruct (canonicalize_input_meta m) as (Hc & Hf & _).
  assert (Htext : text (canonicalize_input m) = Some BTN_CARGO_EDIT).
  { rewrite (canonicalize_input_text m t Ht Hne). by rewrite Hcanon. }
  rewrite (dispatch_state_handler m w Cargo_confirm Hpriv Hst); [| done |].
  2:{ rewrite (passes_to_flow_text _ _ Htext); [by vm_compute | done]. }
  simpl state_handler. unfold cargo_confirm. rewrite Hf, Hu.
  unfold text_of. rewrite Htext.
  replace (strip (or_empty (Some BTN_CARGO_EDIT))) with BTN_CARGO_EDIT
    by (vm_compute; reflexivity).
  rewrite String.eqb_refl. run_m.
  rewrite state_set_state_eq, answer_eq, Hc.
  eexists; split; [reflexivity |].
  split; [apply session_of_put |].
  split; [reflexivity |].
  simpl. unfold lang_for. by rewrite Hf.
Qed.

(** *** Publication routing *)

(** C2: a listing is sent to the chat mapped to its origin region and to no
    other chat; with no chat mapped to the origin nothing is sent and both
    lists come back empty.  The destination region and the catalog chat are
    read nowhere. *)
Theorem publish_only_to_origin (cargo : Cargo) (owner : User) (cargo_id : nat) (w : World) :
  publish_cargo cargo owner cargo_id w
  = match region_chat_of w (c_from_region cargo) with
    | None => Done ([], []) w
    | Some chat =>
        match tg_send_message chat with
        | None =>
            Done ([chat], [])
              (emit (SendMessage chat (Built "build_cargo_post_text") true) w)
        | Some exc =>
            Done ([], [failure_entry chat exc])
              (emit (SendMessage chat (Built "build_cargo_post_text") false) w)
        end
    end.
Proof.
  unfold publish_cargo, resolve_target_chats, get_region_chat_id, region_chat_of.
  run_m.
  destruct (c_from_region cargo) as [|r|x]; simpl; try reflexivity.
  destruct (mjoin (region_channels_col w !! r)) as [chat|]; simpl; [|reflexivity].
  destruct (tg_send_message chat); reflexivity.
Qed.

(** *** Pro grants *)

Definition pro_base (w : World) (u : User) : Z :=
  match pro_until u with
  | Some c => if (c >? clock w)%Z then c else clock w
  | None => clock w
  end.

Definition representable (t : Z) : Prop := (DATETIME_MIN <= t <= DATETIME_MAX)%Z.

Lemma add_days_ok base days :
  (0 < days <= TIMEDELTA_MAX_DAYS)%Z ->
  representable (base + days * MICROSECONDS_PER_DAY) ->
  add_days base days = Ok (base + days * MICROSECONDS_PER_DAY)%Z.
Proof.
  intros Hd [Hlo Hhi]. unfold add_days.
  destruct (Z.gtb_spec (Z.abs days) TIMEDELTA_MAX_DAYS) as [Habs|_]; [lia|].
  destruct (Z.ltb_spec (base + days * MICROSECONDS_PER_DAY) DATETIME_MIN); [lia|].
  destruct (Z.gtb_spec (base + days * MICROSECONDS_PER_DAY) DATETIME_MAX); [lia|].
  reflexivity.
Qed.

Lemma apply_pro_grant user_id days w u :
  users_col w !! user_id = Some u ->
  (0 < days <= TIMEDELTA_MAX_DAYS)%Z ->
  representable (pro_base w u + days * MICROSECONDS_PER_DAY) ->
  apply_pro user_id days w
  = Done (Some (pro_base w u + days * MICROSECONDS_PER_DAY)%Z)
      (set_users
         (alter (with_pro_until (Some (pro_base w u + days * MICROSECONDS_PER_DAY)%Z) (clock w))
            user_id) w).
Proof.
  intros Hu Hd Hrep. unfold apply_pro, fetch_user, now_utc, users_update_one. run_m.
  rewrite Hu. fold (pro_base w u). by rewrite add_days_ok.
Qed.

(** C10 (as amended): a grant of [days > 0] to an existing user, when the
    new expiry is a representable datetime, stores and returns the current
    expiry if it lies strictly in the future, the current time otherwise,
    plus [days] days; for a user whose subscription is active, a grant of
    [d1] days followed, before that expiry, by a grant of [d2] days leaves the
    expiry one grant of [d1 + d2] days leaves; a grant to a user that does not
    exist returns none and changes nothing. *)
Theorem apply_pro_extends (user_id : Z) (w : World) :
  (forall u days,
     users_col w !! user_id = Some u ->
     (0 < days <= TIMEDELTA_MAX_DAYS)%Z ->
     representable (pro_base w u + days * MICROSECONDS_PER_DAY) ->
     exists w',
       apply_pro user_id days w
       = Done (Some (pro_base w u + days * MICROSECONDS_PER_DAY)%Z) w'
       /\ (pro_until <$> users_col w' !! user_id)
          = Some (Some (pro_base w u + days * MICROSECONDS_PER_DAY)%Z))
  /\ (forall u current d1 d2 later,
        users_col w !! user_id = Some u ->
        pro_until u = Some current ->
        (clock w < current)%Z ->
        (0 < d1)%Z -> (0 < d2)%Z -> (d1 + d2 <= TIMEDELTA_MAX_DAYS)%Z ->
        representable current ->
        representable (current + (d1 + d2) * MICROSECONDS_PER_DAY) ->
        (later < current + d1 * MICROSECONDS_PER_DAY)%Z ->
        exists e1 w1 w2 w12,
          apply_pro user_id d1 w = Done (Some e1) w1
          /\ apply_pro user_id d2 (set_clock later w1)
             = Done (Some (current + (d1 + d2) * MICROSECONDS_PER_DAY)%Z) w2
          /\ apply_pro user_id (d1 + d2) w
             = Done (Some (current + (d1 + d2) * MICROSECONDS_PER_DAY)%Z) w12
          /\ (pro_until <$> users_col w2 !! user_id)
             = (pro_until <$> users_col w12 !! user_id))
  /\ (forall days, users_col w !! user_id = None -> apply_pro user_id days w = Done None w).
Proof.
  split; [| split].
  - intros u days Hu Hd Hrep. eexists. split; [by apply apply_pro_grant |].
    simpl. rewrite lookup_alter_eq, Hu. reflexivity.
  - intros u current d1 d2 later Hu Hcur Hact Hd1 Hd2 Hmax [Hlo Hhi] [Hlo' Hhi'] Hlater.
    assert (Hbase : pro_base w u = current).
    { unfold pro_base. rewrite Hcur.
      destruct (Z.gtb_spec current (clock w)); [done | lia]. }
    assert (Hrep1 : representable (pro_base w u + d1 * MICROSECONDS_PER_DAY)).
    { rewrite Hbase. unfold representable, MICROSECONDS_PER_DAY in *. lia. }
    assert (Hrep12 : representable (pro_base w u + (d1 + d2) * MICROSECONDS_PER_DAY)).
    { rewrite Hbase. done. }
    rewrite (apply_pro_grant user_id d1 w u Hu); [| lia | done].
    rewrite (apply_pro_grant user_id (d1 + d2) w u Hu); [| lia | done].
    rewrite Hbase.
    set (e1 := (current + d1 * MICROSECONDS_PER_DAY)%Z).
    set (w1 := set_users _ w).
    set (u1 := with_pro_until (Some e1) (clock w) u).
    assert (Hu1 : users_col (set_clock later w1) !! user_id = Some u1).
    { simpl. rewrite lookup_alter_eq, Hu. reflexivity. }
    assert (Hbase1 : pro_base (set_clock later w1) u1 = e1).
    { unfold pro_base. simpl. destruct (Z.gtb_spec e1 later); [done | lia]. }
    assert (He : (e1 + d2 * MICROSECONDS_PER_DAY
                  = current + (d1 + d2) * MICROSECONDS_PER_DAY)%Z)
      by (unfold e1; lia).
    exists e1, w1. do 2 eexists. split; [reflexivity |].
    rewrite (apply_pro_grant user_id d2 _ u1 Hu1); [| lia | by rewrite Hbase1, He].
    rewrite Hbase1, He.
    split; [reflexivity |]. split; [reflexivity |].
    simpl. rewrite !lookup_alter_eq, Hu. reflexivity.
  - intros days Hu. unfold apply_pro, fetch_user. run_m. by rewrite Hu.
Qed.

(** *** Broadcast *)

Definition emit_all (evs : list Event) (w : World) : World :=
  fold_left (fun w e => emit e w) evs w.

(** The recipients the transport accepted. *)
Fixpoint count_delivered (ids : list Z) : nat :=
  match ids with
  | [] => 0
  | user_id :: rest => (if tg_copy_to user_id then 1 else 0) + count_delivered rest
  end.

Definition is_driver (u : User) : bool := bool_decide (role u = Some ROLE_DRIVER).

Lemma emit_all_outbox evs w : outbox (emit_all evs w) = (outbox w ++ evs)%list.
Proof.
  revert w. induction evs as [|e evs IH]; intros w; simpl.
  - by rewrite app_nil_r.
  - rewrite IH. simpl. by rewrite <- app_assoc.
Qed.

Lemma emit_all_frame evs w :
  persistent (emit_all evs w) = persistent w
  /\ storage (emit_all evs w) = storage w
  /\ clock (emit_all evs w) = clock w.
Proof.
  revert w. induction evs as [|e evs IH]; intros w; simpl; [done|].
  destruct (IH (emit e w)) as (-> & -> & ->). done.
Qed.

Lemma count_delivered_le ids : count_delivered ids <= length ids.
Proof. induction ids as [|x r IH]; simpl; [lia|]. destruct (tg_copy_to x); lia. Qed.

Lemma broadcast_loop_eq ids sent failed w :
  broadcast_loop ids sent failed w
  = Done (sent + count_delivered ids, failed + (length ids - count_delivered ids))
      (emit_all (map (fun user_id => CopyTo user_id (tg_copy_to user_id)) ids) w).
Proof.
  revert sent failed w. induction ids as [|x r IH]; intros sent failed w; simpl.
  - unfold ret. do 2 f_equal; lia.
  - pose proof (count_delivered_le r) as Hle.
    destruct (tg_copy_to x); run_m; rewrite IH; do 2 f_equal; lia.
Qed.

Lemma find_user_ids_NoDup q (us : gmap Z User) : NoDup (find_user_ids q us).
Proof.
  unfold find_user_ids.
  pose proof (NoDup_fst_map_to_list us) as Hnd.
  induction (map_to_list us) as [|[k v] l IH]; simpl in *; [constructor|].
  apply NoDup_cons in Hnd as [Hk Hl].
  rewrite filter_cons. simpl. destruct (decide (q v)); simpl; [|by apply IH].
  apply NoDup_cons. split; [|by apply IH].
  intros Hin. apply Hk.
  apply list_elem_of_fmap in Hin as ([k' v'] & -> & Hin').
  apply list_elem_of_filter in Hin' as [_ Hin'].
  apply list_elem_of_fmap. by exists (k', v').
Qed.

Lemma find_user_ids_elem q (us : gmap Z User) user_id :
  user_id ∈ find_user_ids q us <-> exists u, us !! user_id = Some u /\ q u = true.
Proof.
  unfold find_user_ids. split.
  - intros Hin. apply list_elem_of_fmap in Hin as ([k v] & -> & Hin).
    apply list_elem_of_filter in Hin as [Hq Hin]. simpl in *.
    apply elem_of_map_to_list in Hin. exists v. split; [done|].
    by apply Is_true_true.
  - intros (u & Hu & Hq). apply list_elem_of_fmap. exists (user_id, u). split; [done|].
    apply list_elem_of_filter. split; [simpl; by apply Is_true_true|].
    by apply elem_of_map_to_list.
Qed.

(** C7: in the content step of the broadcast flow, with the audience
    [drivers] chosen, an admin's message is copied once to every user whose
    role is driver and to nobody else; every recipient is attempted whatever
    the earlier sends did, and the two counts reported add up to the number
    of drivers. *)
Theorem broadcast_to_drivers (m : Message) (u : TgUser) (w : World) :
  chat_type m = "private" ->
  from_user m = Some u ->
  admin_in w (tg_id u) = true ->
  fsm_state (session_of w (chat_id m)) = Some AdminBroadcast_content ->
  fsm_data (session_of w (chat_id m)) !! "audience" = Some (VStr "drivers") ->
  passes_to_flow (canonicalize_input m) = true ->
  exists w' ids sent failed,
    dispatch m w = Done tt w'
    /\ outbox w'
       = (outbox w
          ++ map (fun user_id => CopyTo user_id (tg_copy_to user_id)) ids
          ++ [Answer (chat_id m) (lang_for w m) (Plain (broadcast_report sent failed))
                (ReplyKeyboard admin_panel_keyboard)])%list
    /\ NoDup ids
    /\ (forall user_id,
          user_id ∈ ids
          <-> exists x, users_col w !! user_id = Some x /\ role x = Some ROLE_DRIVER)
    /\ sent = count_delivered ids
    /\ sent + failed = length ids
    /\ persistent w' = persistent w
    /\ session_of w' (chat_id m) = no_session.
Proof.
  intros Hpriv Hu Hadm Hst Haud Hpass.
  destruct (canonicalize_input_meta m) as (Hc & Hf & _).
  rewrite (dispatch_state_handler m w AdminBroadcast_content Hpriv Hst); [| done | done].
  simpl state_handler. unfold admin_broadcast_content. rewrite Hf, Hu. run_m.
  rewrite (require_admin_granted _ u w); [| by rewrite Hf | done]. simpl.
  unfold state_get_data, now_utc. run_m. rewrite Hc, Haud. simpl.
  set (ids := find_user_ids _ (users_col w)).
  rewrite broadcast_loop_eq. cbv beta iota. rewrite answer_eq, Hc.
  pose proof (count_delivered_le ids) as Hle.
  exists (emit
            (Answer (chat_id m)
               (lang_for
                  (put_session (chat_id m) no_session
                     (emit_all (map (fun user_id => CopyTo user_id (tg_copy_to user_id)) ids) w))
                  (canonicalize_input m))
               (Plain (broadcast_report (0 + count_delivered ids)
                         (0 + (length ids - count_delivered ids))))
               (ReplyKeyboard admin_panel_keyboard))
            (put_session (chat_id m) no_session
               (emit_all (map (fun user_id => CopyTo user_id (tg_copy_to user_id)) ids) w))),
    ids, (0 + count_delivered ids), (0 + (length ids - count_delivered ids)).
  destruct (emit_all_frame (map (fun user_id => CopyTo user_id (tg_copy_to user_id)) ids) w)
    as (Hper & Hsto & Hclk).
  split; [reflexivity |].
  split.
  { simpl. rewrite emit_all_outbox, <- app_assoc. do 3 f_equal.
    unfold lang_for. rewrite Hf. simpl.
    injection Hper as Hus _ _ _ _ _. by rewrite Hus. }
  split; [apply find_user_ids_NoDup |].
  split.
  { intros user_id. unfold ids. rewrite find_user_ids_elem.
    split; intros (x & Hx & Hq); exists x; (split; [done|]).
    - simpl in Hq. by apply bool_decide_eq_true in Hq.
    - simpl. by apply bool_decide_eq_true. }
  split; [lia |]. split; [lia |].
  split; [exact Hper |].
  apply session_of_put.
Qed.

(** *** Driver profile flow *)

(** What a step of a form does with an accepted input: the value goes under
    the step's key, the state moves on, the next prompt is sent. *)
Lemma field_step m k v st' t mk w :
  exists w',
    (state_update_data m k v;; state_set_state m st';; answer m t mk) w = Done tt w'
    /\ session_of w' (chat_id m)
       = mkSession (Some st') (<[k := v]> (fsm_data (session_of w (chat_id m))))
    /\ users_col w' = users_col w
    /\ clock w' = clock w.
Proof.
  run_m. rewrite state_update_data_eq, state_set_state_eq, answer_eq.
  eexists. split; [reflexivity |].
  split; [| done].
  rewrite session_of_emit, session_of_put, session_of_put. reflexivity.
Qed.

Lemma driver_car_type_step m w :
  (2 <= py_len (text_of m))%nat ->
  driver_car_type m w
  = (state_update_data m "car_type" (VStr (text_of m));;
     state_set_state m Driver_capacity_ton;;
     answer m (Plain "⚖️ Yuk sig'imini kiriting (tonna):") NoMarkup) w.
Proof.
  intros H. unfold driver_car_type.
  destruct (Nat.ltb_spec (py_len (text_of m)) 2); [lia | reflexivity].
Qed.

Lemma driver_capacity_step m w value :
  parse_positive_number (or_empty (text m)) = Some value ->
  driver_capacity m w
  = (state_update_data m "capacity_ton" (VNum value);;
     state_set_state m Driver_volume_m3;;
     answer m (Plain "📐 Hajmini kiriting (m3):") NoMarkup) w.
Proof. intros H. unfold driver_capacity. by rewrite H. Qed.

Lemma driver_volume_step m w value :
  parse_positive_number (or_empty (text m)) = Some value ->
  driver_volume m w
  = (state_update_data m "volume_m3" (VNum value);;
     state_set_state m Driver_routes;;
     answer m
       (Plain "📍 Qaysi yo'nalishlarda ishlaysiz? (masalan: Toshkent-Samarqand-Farg'ona)")
       NoMarkup) w.
Proof. intros H. unfold driver_volume. by rewrite H. Qed.

Lemma driver_routes_step m w :
  (3 <= py_len (text_of m))%nat ->
  driver_routes m w
  = (state_update_data m "routes" (VStr (text_of m));;
     state_set_state m Driver_price_per_km;;
     answer m (Plain "💵 1 km uchun narx (ixtiyoriy):") (ReplyKeyboard skip_cancel_keyboard)) w.
Proof.
  intros H. unfold driver_routes.
  destruct (Nat.ltb_spec (py_len (text_of m)) 3); [lia | reflexivity].
Qed.

Lemma driver_price_skip_step m w :
  text_of m = BTN_SKIP ->
  driver_price m w
  = (state_update_data m "price_per_km" VNone;;
     state_set_state m Driver_note;;
     answer m (Plain ASK_NOTE) (ReplyKeyboard skip_cancel_keyboard)) w.
Proof. intros H. unfold driver_price. rewrite H, String.eqb_refl. reflexivity. Qed.

Lemma driver_note_skip_step m u w :
  from_user m = Some u ->
  text_of m = BTN_SKIP ->
  exists w',
    driver_note m w = Done tt w'
    /\ session_of w' (chat_id m) = no_session
    /\ users_col w'
       = alter (with_driver_profile
                  (make_driver_profile (fsm_data (session_of w (chat_id m))) VNone)
                  (clock w)) (tg_id u) (users_col w).
Proof.
  intros Hu Ht. unfold driver_note. rewrite Hu, Ht, String.eqb_refl.
  unfold state_get_data, now_utc, users_update_one. run_m.
  rewrite state_clear_eq. cbv beta iota.
  erewrite open_main_menu_eq by exact Hu.
  eexists. split; [reflexivity |].
  split; [| reflexivity].
  rewrite session_of_emit. apply session_of_put.
Qed.

(** A canonical text the middleware hands on as it is. *)
Lemma seen_text_canonical m tok :
  canonicalize_user_text (text m) = tok -> tok <> EmptyString ->
  text (canonicalize_input m) = Some tok.
Proof.
  intros Hcanon Hne. destruct (text m) as [t|] eqn:Ht.
  - destruct (string_dec t EmptyString) as [->|Hnt].
    + vm_compute in Hcanon. congruence.
    + rewrite (canonicalize_input_text m t Ht Hnt). by rewrite Hcanon.
  - vm_compute in Hcanon. congruence.
Qed.

Lemma skip_text_of m :
  text m = Some BTN_SKIP -> text_of m = BTN_SKIP.
Proof. intros H. unfold text_of. rewrite H. by vm_compute. Qed.

Lemma skip_passes m :
  text m = Some BTN_SKIP -> passes_to_flow m = true.
Proof.
  intros H. rewrite (passes_to_flow_text m BTN_SKIP H); [by vm_compute | done].
Qed.

(** C8: in the driver-profile flow, a valid vehicle type, capacity, volume
    and routes followed by the skip token at the price step and again at the
    note step complete the flow: the user's document gets the role driver, the
    completion flag and a driver profile whose [price_per_km] and [note] are
    [None], and the session ends. *)
Theorem driver_profile_skips_complete
    (m1 m2 m3 m4 m5 m6 : Message) (u : TgUser) (usr : User) (chat : Z)
    (capacity volume : float) (w : World) :
  Forall (fun m => chat_type m = "private" /\ from_user m = Some u /\ chat_id m = chat)
    [m1; m2; m3; m4; m5; m6] ->
  Forall (fun m => passes_to_flow (canonicalize_input m) = true) [m1; m2; m3; m4] ->
  fsm_state (session_of w chat) = Some Driver_car_type ->
  users_col w !! tg_id u = Some usr ->
  (2 <= py_len (text_of (canonicalize_input m1)))%nat ->
  parse_positive_number (or_empty (text (canonicalize_input m2))) = Some capacity ->
  parse_positive_number (or_empty (text (canonicalize_input m3))) = Some volume ->
  (3 <= py_len (text_of (canonicalize_input m4)))%nat ->
  canonicalize_user_text (text m5) = BTN_SKIP ->
  canonicalize_user_text (text m6) = BTN_SKIP ->
  exists w' usr',
    dispatch_all [m1; m2; m3; m4; m5; m6] w = Done tt w'
    /\ users_col w' !! tg_id u = Some usr'
    /\ profile_completed usr' = true
    /\ role usr' = Some ROLE_DRIVER
    /\ driver_profile usr' !! "price_per_km" = Some VNone
    /\ driver_profile usr' !! "note" = Some VNone
    /\ driver_profile usr' !! "car_type" = Some (VStr (text_of (canonicalize_input m1)))
    /\ driver_profile usr' !! "capacity_ton" = Some (VNum capacity)
    /\ driver_profile usr' !! "volume_m3" = Some (VNum volume)
    /\ driver_profile usr' !! "routes" = Some (VStr (text_of (canonicalize_input m4)))
    /\ session_of w' chat = no_session.
Proof.
  intros Hall Hpass Hst Husr Hcar Hcap Hvol Hroutes Hskip5 Hskip6.
  repeat match goal with
         | H : Forall _ (_ :: _) |- _ => apply Forall_cons in H as [? H]
         end.
  repeat match goal with H : _ /\ _ |- _ => destruct H end.
  pose proof (seen_text_canonical m5 BTN_SKIP Hskip5 ltac:(done)) as Ht5.
  pose proof (seen_text_canonical m6 BTN_SKIP Hskip6 ltac:(done)) as Ht6.
  assert (Hmeta : forall m, chat_id (canonicalize_input m) = chat_id m
                            /\ from_user (canonicalize_input m) = from_user m).
  { intros m. destruct (canonicalize_input_meta m) as (? & ? & _). done. }
  destruct (Hmeta m1) as [Hc1 Hf1]. destruct (Hmeta m2) as [Hc2 Hf2].
  destruct (Hmeta m3) as [Hc3 Hf3]. destruct (Hmeta m4) as [Hc4 Hf4].
  destruct (Hmeta m5) as [Hc5 Hf5]. destruct (Hmeta m6) as [Hc6 Hf6].
  unfold dispatch_all. run_m.
  (* vehicle type *)
  rewrite (dispatch_state_handler m1 w Driver_car_type); [| done | congruence | done | done].
  simpl state_handler. rewrite (driver_car_type_step _ w Hcar).
  destruct (field_step (canonicalize_input m1) "car_type"
              (VStr (text_of (canonicalize_input m1))) Driver_capacity_ton
              (Plain "⚖️ Yuk sig'imini kiriting (tonna):") NoMarkup w)
    as (w1 & -> & Hs1 & Hu1 & Hk1).
  rewrite Hc1 in Hs1. replace (chat_id m1) with chat in Hs1 by congruence.
  (* capacity *)
  rewrite (dispatch_state_handler m2 w1 Driver_capacity_ton);
    [| done | replace (chat_id m2) with chat by congruence; by rewrite Hs1 | done | done].
  simpl state_handler. rewrite (driver_capacity_step _ w1 capacity Hcap).
  destruct (field_step (canonicalize_input m2) "capacity_ton" (VNum capacity)
              Driver_volume_m3 (Plain "📐 Hajmini kiriting (m3):") NoMarkup w1)
    as (w2 & -> & Hs2 & Hu2 & Hk2).
  rewrite Hc2 in Hs2. replace (chat_id m2) with chat in Hs2 by congruence.
  (* volume *)
  rewrite (dispatch_state_handler m3 w2 Driver_volume_m3);
    [| done | replace (chat_id m3) with chat by congruence; by rewrite Hs2 | done | done].
  simpl state_handler. rewrite (driver_volume_step _ w2 volume Hvol).
  destruct (field_step (canonicalize_input m3) "volume_m3" (VNum volume) Driver_routes
              (Plain "📍 Qaysi yo'nalishlarda ishlaysiz? (masalan: Toshkent-Samarqand-Farg'ona)")
              NoMarkup w2)
    as (w3 & -> & Hs3 & Hu3 & Hk3).
  rewrite Hc3 in Hs3. replace (chat_id m3) with chat in Hs3 by congruence.
  (* routes *)
  rewrite (dispatch_state_handler m4 w3 Driver_routes);
    [| done | replace (chat_id m4) with chat by congruence; by rewrite Hs3 | done | done].
  simpl state_handler. rewrite (driver_routes_step _ w3 Hroutes).
  destruct (field_step (canonicalize_input m4) "routes"
              (VStr (text_of (canonicalize_input m4))) Driver_price_per_km
              (Plain "💵 1 km uchun narx (ixtiyoriy):") (ReplyKeyboard skip_cancel_keyboard) w3)
    as (w4 & -> & Hs4 & Hu4 & Hk4).
  rewrite Hc4 in Hs4. replace (chat_id m4) with chat in Hs4 by congruence.
  (* price per km: skipped *)
  rewrite (dispatch_state_handler m5 w4 Driver_price_per_km);
    [| done | replace (chat_id m5) with chat by congruence; by rewrite Hs4 | done
     | by apply skip_passes].
  simpl state_handler. rewrite (driver_price_skip_step _ w4 (skip_text_of _ Ht5)).
  destruct (field_step (canonicalize_input m5) "price_per_km" VNone Driver_note
              (Plain ASK_NOTE) (ReplyKeyboard skip_cancel_keyboard) w4)
    as (w5 & -> & Hs5 & Hu5 & Hk5).
  rewrite Hc5 in Hs5. replace (chat_id m5) with chat in Hs5 by congruence.
  (* note: skipped *)
  rewrite (dispatch_state_handler m6 w5 Driver_note);
    [| done | replace (chat_id m6) with chat by congruence; by rewrite Hs5 | done
     | by apply skip_passes].
  simpl state_handler.
  destruct (driver_note_skip_step (canonicalize_input m6) u w5) as (w6 & Hrun & Hs6 & Hu6);
    [congruence | by apply skip_text_of |].
  rewrite Hrun. rewrite Hc6 in Hs6, Hu6.
  replace (chat_id m6) with chat in Hs6, Hu6 by congruence.
  rewrite Hs5, Hs4, Hs3, Hs2, Hs1 in Hu6. simpl in Hu6.
  rewrite Hu5, Hu4, Hu3, Hu2, Hu1 in Hu6.
  eexists w6, _. split; [reflexivity |].
  split; [rewrite Hu6, lookup_alter_eq, Husr; reflexivity |].
  simpl. unfold make_driver_profile, get_value.
  repeat split; try done; by simplify_map_eq.
Qed.

(** *** Menu interrupts *)

(** What the proofs below need of a menu label: it is no command, it is not
    empty, it is no language label, and canonicalizing it again gives it
    back. *)
Definition menu_label_checked (tok : string) : bool :=
  bool_decide (command_in tok = None)
  && negb (String.eqb tok EmptyString)
  && negb (truthy (dict_get (strip tok) LANG_LABEL_TO_CODE))
  && String.eqb (canonicalize_user_text (Some tok)) tok.

Lemma menu_labels_checked tok :
  tok ∈ MENU_INTERRUPT_BUTTONS ->
  command_in tok = None
  /\ tok <> EmptyString
  /\ truthy (dict_get (strip tok) LANG_LABEL_TO_CODE) = false
  /\ canonicalize_user_text (Some tok) = tok.
Proof.
  intros Hin.
  assert (Hall : forallb menu_label_checked MENU_INTERRUPT_BUTTONS = true)
    by (vm_compute; reflexivity).
  rewrite forallb_forall in Hall.
  specialize (Hall tok (proj1 (list_elem_of_In _ _) Hin)).
  unfold menu_label_checked in Hall.
  repeat (apply andb_true_iff in Hall as [Hall ?]).
  apply bool_decide_eq_true in Hall.
  repeat split; try done.
  - intros ->. discriminate.
  - by apply negb_true_iff.
  - by apply String.eqb_eq.
Qed.

(** The text the handlers see when a menu label comes in. *)
Lemma menu_label_seen m t :
  text m = Some t ->
  is_menu_interrupt (Some t) = true ->
  canonicalize_user_text (Some t) ∈ MENU_INTERRUPT_BUTTONS
  /\ text (canonicalize_input m) = Some (canonicalize_user_text (Some t)).
Proof.
  intros Ht Hint. unfold is_menu_interrupt in Hint.
  apply mem_true_iff in Hint. split; [done |].
  apply canonicalize_input_text; [done |].
  intros ->. vm_compute in Hint.
  repeat (apply elem_of_cons in Hint as [Hint | Hint]; [discriminate |]).
  by apply elem_of_nil in Hint.
Qed.

(** C1, where the code departs from it: during language selection a menu
    label (cancel included) is taken by [select_language], which is registered
    before [cancel_flow] and [menu_interrupt_handler]; the user is asked for a
    language again, the session stays as it was and no menu action runs. *)
Theorem language_selection_swallows_menu_labels
    (m : Message) (u : TgUser) (t : string) (w : World) :
  chat_type m = "private" ->
  from_user m = Some u ->
  text m = Some t ->
  is_menu_interrupt (Some t) = true ->
  fsm_state (session_of w (chat_id m)) = Some Language_select ->
  dispatch m w
  = Done tt
      (emit (Answer (chat_id m) (lang_for w m) (Plain ASK_LANGUAGE_AGAIN)
               (ReplyKeyboard language_keyboard)) w).
Proof.
  intros Hpriv Hu Ht Hint Hst.
  destruct (menu_label_seen m t Ht Hint) as [Hin Hseen].
  destruct (menu_labels_checked _ Hin) as (Hcmd & Hne & Hlang & _).
  destruct (canonicalize_input_meta m) as (Hc & Hf & _).
  unfold dispatch. rewrite Hpriv. simpl. run_m. unfold state_get_state. run_m.
  rewrite Hc, Hst.
  unfold is_command. rewrite (command_of_text _ _ Hseen Hne), Hcmd.
  rewrite bool_decide_eq_false_2 by discriminate.
  rewrite bool_decide_eq_true_2 by reflexivity.
  unfold select_language. rewrite Hf, Hu, Hseen. cbv zeta. unfold or_empty.
  rewrite Hlang. change (negb false) with true. cbv iota.
  rewrite answer_eq, Hc. unfold lang_for. by rewrite Hf.
Qed.

(** In every other state of every flow a menu label clears the session and
    runs its menu action on the cleared session: what the session held plays
    no part in the outcome. *)
Theorem menu_label_clears_other_flows
    (m : Message) (u : TgUser) (t : string) (st : State) (d : gmap string Value)
    (w : World) :
  chat_type m = "private" ->
  from_user m = Some u ->
  text m = Some t ->
  is_menu_interrupt (Some t) = true ->
  st <> Language_select ->
  dispatch m (put_session (chat_id m) (mkSession (Some st) d) w)
  = (if String.eqb (canonicalize_user_text (Some t)) BTN_CANCEL
     then open_main_menu (canonicalize_input m) (Plain CANCELLED)
     else route_menu_button (canonicalize_input m) (canonicalize_user_text (Some t)))
      (put_session (chat_id m) no_session w).
Proof.
  intros Hpriv Hu Ht Hint Hst.
  destruct (menu_label_seen m t Ht Hint) as [Hin Hseen].
  destruct (menu_labels_checked _ Hin) as (Hcmd & Hne & _ & Hidem).
  destruct (canonicalize_input_meta m) as (Hc & Hf & _).
  set (tok := canonicalize_user_text (Some t)) in *.
  unfold dispatch. rewrite Hpriv. simpl. run_m. unfold state_get_state. run_m.
  rewrite Hc, session_of_put. simpl fsm_state.
  unfold is_command. rewrite (command_of_text _ _ Hseen Hne), Hcmd.
  rewrite (bool_decide_eq_false_2 (None = Some "start")) by discriminate.
  rewrite (bool_decide_eq_false_2 (Some st = Some Language_select)) by congruence.
  rewrite (bool_decide_eq_false_2 (None = Some "cancel")) by discriminate.
  rewrite orb_false_r. unfold text_is. rewrite Hseen.
  destruct (String.eqb_spec tok BTN_CANCEL) as [Heq | Hneq].
  - rewrite bool_decide_eq_true_2 by congruence.
    unfold cancel_flow, state_get_state. run_m.
    rewrite Hc, session_of_put. cbn [fsm_state]. cbv beta iota.
    rewrite state_clear_eq, Hc, put_put. reflexivity.
  - rewrite bool_decide_eq_false_2 by congruence.
    unfold is_menu_interrupt. rewrite Hidem.
    rewrite (proj2 (mem_true_iff _ _) Hin).
    unfold menu_interrupt_handler. rewrite Hseen, Hidem.
    rewrite (proj2 (String.eqb_neq _ _) Hneq). run_m.
    rewrite state_clear_eq, Hc, put_put. reflexivity.
Qed.

(** *** Further properties of the pro grants and of the private-chat filter *)

(** A grant leaves the user with an active subscription: [is_pro_active]
    answers true on the stored document, at the time of the grant. *)
Theorem granted_pro_is_active (user_id days : Z) (u : User) (w : World) :
  users_col w !! user_id = Some u ->
  (0 < days <= TIMEDELTA_MAX_DAYS)%Z ->
  representable (pro_base w u + days * MICROSECONDS_PER_DAY) ->
  exists e w' u',
    apply_pro user_id days w = Done (Some e) w'
    /\ users_col w' !! user_id = Some u'
    /\ pro_until u' = Some e
    /\ is_pro_active (Some u') w' = Done true w'.
Proof.
  intros Hu Hd Hrep.
  rewrite (apply_pro_grant user_id days w u Hu Hd Hrep).
  set (e := (pro_base w u + days * MICROSECONDS_PER_DAY)%Z).
  exists e. eexists. exists (with_pro_until (Some e) (clock w) u).
  split; [reflexivity |].
  split; [simpl; rewrite lookup_alter_eq, Hu; reflexivity |].
  split; [reflexivity |].
  unfold is_pro_active, now_utc. run_m. simpl. f_equal.
  unfold pro_active_at. simpl.
  assert (clock w <= pro_base w u)%Z.
  { unfold pro_base. destruct (pro_until u) as [c|]; [| lia].
    destruct (Z.gtb_spec c (clock w)); lia. }
  destruct (Z.gtb_spec e (clock w)); [done |].
  unfold e, MICROSECONDS_PER_DAY in *. lia.
Qed.

(** [remove_pro] answers whether the user exists; the user's expiry is set to
    none, so that the subscription is no longer active, and where no document
    has the id none is created. *)
Theorem remove_pro_ends_subscription (user_id : Z) (w : World) :
  exists w',
    remove_pro user_id w = Done (bool_decide (is_Some (users_col w !! user_id))) w'
    /\ (forall u, users_col w !! user_id = Some u ->
          users_col w' !! user_id = Some (with_pro_until None (clock w) u)
          /\ is_pro_active (users_col w' !! user_id) w' = Done false w')
    /\ (users_col w !! user_id = None -> users_col w' = users_col w)
    /\ (forall other, other <> user_id -> users_col w' !! other = users_col w !! other).
Proof.
  unfold remove_pro, fetch_user, now_utc, users_update_one. run_m.
  eexists. split; [reflexivity |]. simpl.
  split; [| split].
  - intros u Hu. rewrite lookup_alter_eq, Hu. simpl. split; [reflexivity |].
    unfold is_pro_active, now_utc. run_m. reflexivity.
  - intros Hnone. apply map_eq. intros i.
    destruct (decide (i = user_id)) as [-> | Hne].
    + by rewrite lookup_alter_eq, Hnone.
    + by rewrite lookup_alter_ne.
  - intros other Hne. by rewrite lookup_alter_ne.
Qed.


(** *** The language preference *)

(** [set_user_lang] followed by [get_user_lang] gives the language back; no
    other user's document changes, and a document that existed keeps its
    other fields. *)
Theorem lang_roundtrip (user_id : Z) (l : string) (w : World) :
  is_valid_lang (Some l) = true ->
  exists w',
    set_user_lang user_id l w = Done tt w'
    /\ get_user_lang user_id w' = Done l w'
    /\ (forall u, users_col w !! user_id = Some u ->
          users_col w' !! user_id = Some (with_lang l (clock w) u))
    /\ (forall other, other <> user_id -> users_col w' !! other = users_col w !! other).
Proof.
  intros Hl. unfold set_user_lang, users_upsert, now_utc. rewrite Hl. run_m.
  eexists. split; [reflexivity |].
  split.
  { unfold get_user_lang, fetch_user. run_m. cbn [users_col set_users].
    rewrite lookup_insert_eq. cbn [lang with_lang]. by rewrite Hl. }
  split.
  - intros u Hu. simpl. by rewrite lookup_insert_eq, Hu.
  - intros other Hne. simpl. by rewrite lookup_insert_ne.
Qed.

(** Whatever the collection holds, the language [get_user_lang] answers is
    one of the two the bot speaks; a value that is none of them is never
    stored by [set_user_lang]. *)
Theorem lang_always_valid (user_id : Z) (w : World) :
  (exists l, get_user_lang user_id w = Done l w /\ l ∈ VALID_LANGS)
  /\ (users_col w !! user_id = None -> get_user_lang user_id w = Done LANG_UZ w)
  /\ (forall l, l ∉ VALID_LANGS -> set_user_lang user_id l w = Done tt w).
Proof.
  split; [| split].
  - assert (Huz : LANG_UZ ∈ VALID_LANGS) by (by apply mem_true_iff).
    unfold get_user_lang, fetch_user, is_valid_lang. run_m.
    destruct (users_col w !! user_id) as [u|]; [| by exists LANG_UZ].
    destruct (lang u) as [l|] eqn:Hlang; [| by exists LANG_UZ].
    destruct (mem l VALID_LANGS) eqn:Hm; [| by exists LANG_UZ].
    exists l. split; [reflexivity | by apply mem_true_iff].
  - intros Hnone. unfold get_user_lang, fetch_user. run_m. by rewrite Hnone.
  - intros l Hl. unfold set_user_lang, is_valid_lang.
    destruct (mem l VALID_LANGS) eqn:Hm; [| reflexivity].
    apply mem_true_iff in Hm. contradiction.
Qed.

(** *** [ensure_user] *)

Lemma ensure_user_eq (t : TgUser) (w : World) :
  exists doc w',
    ensure_user t w = Done doc w'
    /\ users_col w' !! tg_id t = Some doc
    /\ storage w' = storage w
    /\ (cargo_col w', catalog_chat w', mandatory_channels w', region_channels_col w',
        admins_col w', clock w', outbox w')
       = (cargo_col w, catalog_chat w, mandatory_channels w, region_channels_col w,
          admins_col w, clock w, outbox w)
    /\ (forall other, other <> tg_id t -> users_col w' !! other = users_col w !! other)
    /\ doc = match users_col w !! tg_id t with
             | Some u => with_tg t (clock w) u
             | None => new_user t (clock w)
             end.
Proof.
  unfold ensure_user, now_utc, fetch_user. run_m.
  eexists _, _. split; [reflexivity |]. simpl.
  split; [by rewrite lookup_insert_eq |].
  repeat split. intros other Hne. by rewrite lookup_insert_ne.
Qed.

(** [ensure_user] refreshes the Telegram names and [updated_at] and touches
    nothing else: a user who exists keeps the registration fields, a new one
    gets the blank document; the document returned is the one stored, other
    users are left alone, and a second call at the same time changes
    nothing. *)
Theorem ensure_user_keeps_registration (t : TgUser) (w : World) :
  exists doc w',
    ensure_user t w = Done doc w'
    /\ users_col w' !! tg_id t = Some doc
    /\ (username doc, tg_first_name doc, tg_last_name doc, updated_at doc)
       = (tg_username t, tg_first t, tg_last t, Some (clock w))
    /\ (forall u, users_col w !! tg_id t = Some u ->
          (first_name doc, last_name doc, phone doc, role doc, profile_completed doc,
           driver_profile doc, pro_until doc, lang doc, created_at doc)
          = (first_name u, last_name u, phone u, role u, profile_completed u,
             driver_profile u, pro_until u, lang u, created_at u))
    /\ (users_col w !! tg_id t = None ->
          (first_name doc, last_name doc, phone doc, role doc, profile_completed doc,
           driver_profile doc, pro_until doc, lang doc, created_at doc)
          = (VNone, VNone, VNone, None, false, ∅, None, None, Some (clock w)))
    /\ (forall other, other <> tg_id t -> users_col w' !! other = users_col w !! other)
    /\ ensure_user t w' = Done doc w'.
Proof.
  unfold ensure_user, now_utc, fetch_user. run_m.
  eexists _, _. split; [reflexivity |]. simpl.
  split; [by rewrite lookup_insert_eq |].
  split; [by destruct (users_col w !! tg_id t) |].
  split; [by intros u -> |].
  split; [by intros -> |].
  split; [intros other Hne; by rewrite lookup_insert_ne |].
  rewrite !lookup_insert_eq. unfold set_users. simpl. rewrite insert_insert_eq.
  by destruct (users_col w !! tg_id t).
Qed.

(** *** Mandatory channels *)

Definition has_chat (chat_id : Z) (c : Channel) : bool := (ch_chat_id c =? chat_id)%Z.

Definition channel_ids (w : World) : list Z := map ch_chat_id (mandatory_channels w).

Lemma filter_other_ids chat_id (l : list Channel) :
  map ch_chat_id (filter (fun c => negb (ch_chat_id c =? chat_id)%Z) l)
  = filter (fun i => negb (i =? chat_id)%Z) (map ch_chat_id l).
Proof using Type.
  induction l as [|c l IH]; [done |].
  rewrite !filter_cons. simpl. rewrite filter_cons.
  destruct (ch_chat_id c =? chat_id)%Z; simpl; by rewrite IH.
Qed.

Lemma filter_absent_id chat_id (l : list Channel) :
  chat_id ∉ map ch_chat_id l ->
  filter (fun c => negb (ch_chat_id c =? chat_id)%Z) l = l.
Proof using Type.
  induction l as [|c l IH]; [done |]. simpl. intros Hnot.
  apply not_elem_of_cons in Hnot as [Hne Hnot].
  rewrite filter_cons.
  destruct (Z.eqb_spec (ch_chat_id c) chat_id) as [He | _]; [by destruct Hne |].
  simpl. by rewrite IH.
Qed.

Lemma filter_has_chat_others chat_id (l : list Channel) :
  filter (has_chat chat_id) (filter (fun c => negb (ch_chat_id c =? chat_id)%Z) l) = [].
Proof using Type.
  induction l as [|c l IH]; [done |].
  rewrite filter_cons.
  destruct (ch_chat_id c =? chat_id)%Z eqn:He; simpl; [exact IH |].
  rewrite filter_cons_False; [exact IH |].
  unfold has_chat. rewrite He. simpl. exact (fun x => x).
Qed.

(** [add_mandatory_channel]: when the chat can be read, its entry comes last
    and is the only one with its id; the other channels stay, in their order;
    ids that were distinct stay distinct.  When the chat cannot be read
    nothing changes. *)
Theorem add_mandatory_channel_unique (chat_id : Z) (w : World) :
  (forall chat, tg_get_chat chat_id = Ok chat ->
     exists entry w',
       add_mandatory_channel chat_id w = Done (true, Built "mandatory_channel_added") w'
       /\ ch_chat_id entry = ci_id chat
       /\ mandatory_channels w'
          = (filter (fun c => negb (has_chat (ci_id chat) c)) (mandatory_channels w)
             ++ [entry])%list
       /\ filter (has_chat (ci_id chat)) (mandatory_channels w') = [entry]
       /\ (NoDup (channel_ids w) -> NoDup (channel_ids w'))
       /\ (users_col w', cargo_col w', catalog_chat w', region_channels_col w', storage w',
           outbox w')
          = (users_col w, cargo_col w, catalog_chat w, region_channels_col w, storage w,
             outbox w))
  /\ (forall exc, tg_get_chat chat_id = Raise exc ->
        add_mandatory_channel chat_id w = Done (false, Plain (normalize_send_error exc)) w).
Proof using Type.
  split.
  - intros chat Hchat. unfold add_mandatory_channel, get_mandatory_channels,
      set_mandatory_channels. rewrite Hchat. run_m.
    exists (mkChannel (ci_id chat) (channel_title chat chat_id) (ci_username chat)
              (if truthy (ci_username chat)
               then Some ("https://t.me/" ++ or_empty (ci_username chat)) else None)).
    eexists. split; [reflexivity |]. simpl.
    split; [reflexivity |].
    split; [reflexivity |].
    split.
    { rewrite filter_app, filter_has_chat_others. simpl.
      rewrite filter_cons_True; [done |].
      unfold has_chat. simpl. by rewrite Z.eqb_refl. }
    split; [| reflexivity].
    unfold channel_ids. simpl. intros Hnd.
    rewrite map_app. simpl. apply NoDup_app. split; [| split].
    + unfold has_chat. rewrite filter_other_ids.
      by apply NoDup_filter.
    + intros i Hi Hin. apply list_elem_of_singleton in Hin. subst i.
      unfold has_chat in Hi. rewrite filter_other_ids in Hi.
      apply list_elem_of_filter in Hi as [Hi _].
      rewrite Z.eqb_refl in Hi. by simpl in Hi.
    + apply NoDup_singleton.
  - intros exc Hexc. unfold add_mandatory_channel. by rewrite Hexc.
Qed.

(** [remove_mandatory_channel] answers whether an entry had the id; no entry
    has it afterwards, the other entries stay in their order, and when none
    had it nothing is written. *)
Theorem remove_mandatory_channel_removes (chat_id : Z) (w : World) :
  exists w',
    remove_mandatory_channel chat_id w = Done (bool_decide (chat_id ∈ channel_ids w)) w'
    /\ (chat_id ∉ channel_ids w')
    /\ mandatory_channels w'
       = filter (fun c => negb (has_chat chat_id c)) (mandatory_channels w)
    /\ (chat_id ∉ channel_ids w -> w' = w).
Proof.
  unfold remove_mandatory_channel, get_mandatory_channels, set_mandatory_channels. run_m.
  assert (Hnotin : forall l : list Channel,
            chat_id ∉ map ch_chat_id (filter (fun c => negb (ch_chat_id c =? chat_id)%Z) l)).
  { intros l Hin. rewrite filter_other_ids in Hin.
    apply list_elem_of_filter in Hin as [Hi _]. rewrite Z.eqb_refl in Hi. by simpl in Hi. }
  destruct (decide (chat_id ∈ channel_ids w)) as [Hin | Hout].
  - rewrite bool_decide_eq_true_2 by done.
    assert (Hlen : (length (filter (fun c => negb (ch_chat_id c =? chat_id)%Z)
                              (mandatory_channels w))
                    =? length (mandatory_channels w))%nat = false).
    { apply Nat.eqb_neq. intros Hlen.
      unfold channel_ids in Hin.
      induction (mandatory_channels w) as [|c l IH]; [by apply elem_of_nil in Hin |].
      rewrite filter_cons in Hlen. simpl in Hin.
      pose proof (length_filter (fun c => negb (ch_chat_id c =? chat_id)%Z) l) as Hle.
      destruct (Z.eqb_spec (ch_chat_id c) chat_id) as [He | Hne]; simpl in Hlen.
      - lia.
      - apply elem_of_cons in Hin as [Hin | Hin]; [congruence |].
        apply IH; [done | lia]. }
    rewrite Hlen. eexists. split; [reflexivity |]. simpl.
    split; [apply Hnotin |]. split; [reflexivity | done].
  - rewrite bool_decide_eq_false_2 by done.
    unfold channel_ids in Hout. rewrite (filter_absent_id _ _ Hout), Nat.eqb_refl.
    exists w. split; [reflexivity |].
    split; [exact Hout |].
    split; [| done].
    unfold has_chat. by rewrite (filter_absent_id _ _ Hout).
Qed.

(** Adding a channel that was not in the list and removing it again gives
    the list back. *)
Theorem add_then_remove_restores (chat_id : Z) (chat : ChatInfo) (w : World) :
  tg_get_chat chat_id = Ok chat ->
  ci_id chat ∉ channel_ids w ->
  exists r w1 w2,
    add_mandatory_channel chat_id w = Done r w1
    /\ remove_mandatory_channel (ci_id chat) w1 = Done true w2
    /\ mandatory_channels w2 = mandatory_channels w
    /\ persistent w2 = persistent w.
Proof using Type.
  intros Hchat Hout.
  unfold add_mandatory_channel, remove_mandatory_channel, get_mandatory_channels,
    set_mandatory_channels. rewrite Hchat. run_m. simpl.
  unfold channel_ids in Hout. rewrite (filter_absent_id _ _ Hout).
  eexists _, _, _. split; [reflexivity |]. simpl.
  rewrite filter_app, (filter_absent_id _ _ Hout).
  rewrite filter_cons_False by (simpl; rewrite Z.eqb_refl; simpl; exact (fun x => x)).
  rewrite filter_nil, app_nil_r, length_app. simpl.
  destruct (Nat.eqb_spec (length (mandatory_channels w)) (length (mandatory_channels w) + 1));
    [lia |].
  split; [reflexivity |]. split; reflexivity.
Qed.

(** *** The subscription gate *)

(** The prompt [ensure_mandatory_subscription_message] sends. *)
Definition subscribe_prompt (m : Message) (w : World) : Event :=
  Answer (chat_id m) (lang_for w m) (Built "mandatory_subscribe_text")
    (InlineKeyboard "mandatory_subscribe_keyboard").

(** The user is an admin, or a member of every mandatory channel. *)
Definition gate_passes (w : World) (u : TgUser) : bool :=
  admin_in w (tg_id u)
  || forallb (fun c => subscribed (tg_get_chat_member (ch_chat_id c) (tg_id u)))
       (mandatory_channels w).

Lemma missing_nil user_id (channels : list Channel) :
  filter (fun c => negb (subscribed (tg_get_chat_member (ch_chat_id c) user_id))) channels = []
  <-> forallb (fun c => subscribed (tg_get_chat_member (ch_chat_id c) user_id)) channels = true.
Proof.
  induction channels as [|c l IH]; [done |].
  rewrite filter_cons. simpl.
  destruct (subscribed (tg_get_chat_member (ch_chat_id c) user_id)); simpl; [exact IH |].
  split; discriminate.
Qed.

Lemma ensure_mandatory_eq m u w :
  from_user m = Some u ->
  ensure_mandatory_subscription_message m w
  = if gate_passes w u then Done true w else Done false (emit (subscribe_prompt m w) w).
Proof.
  intros Hu. unfold ensure_mandatory_subscription_message, gate_passes. rewrite Hu. run_m.
  rewrite is_admin_user_eq.
  destruct (admin_in w (tg_id u)); [reflexivity |]. simpl.
  unfold get_missing_mandatory_channels, get_mandatory_channels. run_m.
  pose proof (missing_nil (tg_id u) (mandatory_channels w)) as Hnil.
  destruct (filter _ (mandatory_channels w)) as [|c l] eqn:Hf.
  - rewrite (proj1 Hnil eq_refl). reflexivity.
  - destruct (forallb _ (mandatory_channels w)).
    + pose proof (proj2 Hnil eq_refl) as Hx. discriminate Hx.
    + rewrite answer_eq. reflexivity.
Qed.

(** The handlers that start by [ensure_mandatory_subscription_message],
    directly or through [require_completed_profile]. *)
Inductive GatedOp : Type :=
| G_cmd_start | G_show_profile | G_show_profile_analysis | G_show_stats
| G_menu_cargo | G_menu_driver | G_menu_pro | G_menu_news | G_menu_contact
| G_menu_settings | G_settings_role_start | G_cmd_lang.

Definition gated_handler (op : GatedOp) : Message -> M unit :=
  match op with
  | G_cmd_start => cmd_start
  | G_show_profile => show_profile
  | G_show_profile_analysis => show_profile_analysis
  | G_show_stats => show_stats
  | G_menu_cargo => menu_cargo
  | G_menu_driver => menu_driver
  | G_menu_pro => menu_pro
  | G_menu_news => menu_news
  | G_menu_contact => menu_contact
  | G_menu_settings => menu_settings
  | G_settings_role_start => settings_role_start
  | G_cmd_lang => cmd_lang
  end.

(** A user who is no admin and misses one mandatory channel (is no member,
    or the membership cannot be read) gets the subscription prompt from every
    gated handler and nothing else: no store and no session changes, no form
    starts. *)
Theorem subscription_gate_blocks (op : GatedOp) (m : Message) (u : TgUser) (c : Channel)
    (w : World) :
  from_user m = Some u ->
  admin_in w (tg_id u) = false ->
  c ∈ mandatory_channels w ->
  subscribed (tg_get_chat_member (ch_chat_id c) (tg_id u)) = false ->
  gated_handler op m w = Done tt (emit (subscribe_prompt m w) w).
Proof.
  intros Hu Hadm Hc Hsub.
  assert (Hgate : gate_passes w u = false).
  { unfold gate_passes. rewrite Hadm. simpl.
    apply not_true_is_false. intros Hall. rewrite forallb_forall in Hall.
    specialize (Hall c (proj1 (list_elem_of_In _ _) Hc)). congruence. }
  pose proof (ensure_mandatory_eq m u w Hu) as He. rewrite Hgate in He.
  destruct op; simpl gated_handler;
    match goal with |- ?h m w = _ => unfold h end;
    try unfold require_completed_profile; try rewrite Hu; run_m; rewrite He; reflexivity.
Qed.

(** The admin's side of the gate. *)
Lemma admin_passes_gate m u w :
  from_user m = Some u -> admin_in w (tg_id u) = true ->
  ensure_mandatory_subscription_message m w = Done true w.
Proof.
  intros Hu Hadm. rewrite (ensure_mandatory_eq m u w Hu).
  unfold gate_passes. by rewrite Hadm.
Qed.

(** *** Deep links *)

Lemma handle_start_payload_frame m payload w :
  exists w',
    handle_start_payload m payload w = Done tt w'
    /\ persistent w' = persistent w
    /\ storage w' = storage w
    /\ clock w' = clock w.
Proof.
  unfold handle_start_payload.
  destruct (if startswith "phone_" payload then _ else _) as [cargo_id|];
    [| by exists w].
  destruct (oid_of_string cargo_id) as [oid|]; [| rewrite answer_eq; by eexists].
  run_m. destruct (cargo_col w !! oid) as [cargo|]; [| rewrite answer_eq; by eexists].
  unfold fetch_user. run_m.
  destruct (users_col w !! owner_id cargo) as [owner|]; rewrite answer_eq; by eexists.
Qed.

Lemma startswith_app p s : startswith p (p ++ s) = true.
Proof.
  unfold startswith. induction p as [|a p IH]; simpl.
  - by destruct s.
  - by destruct (ascii_dec a a).
Qed.

Lemma substring_all s : String.substring 0 (String.length s) s = s.
Proof. induction s as [|a s IH]; [done |]. simpl. by rewrite IH. Qed.

Lemma drop_string_app p s : drop_string (String.length p) (p ++ s) = s.
Proof.
  unfold drop_string. induction p as [|a p IH]; simpl.
  - rewrite Nat.sub_0_r. apply substring_all.
  - exact IH.
Qed.

(** The two links under a posted listing, [phone_<id>] and [cargo_<id>], open
    the same contact card; any other payload is ignored; and no payload ever
    changes a store or a session. *)
Theorem start_payload_links_agree (m : Message) (cargo_id : string) (w : World) :
  handle_start_payload m ("phone_" ++ cargo_id) w
  = handle_start_payload m ("cargo_" ++ cargo_id) w
  /\ (forall payload,
        startswith "phone_" payload = false -> startswith "cargo_" payload = false ->
        handle_start_payload m payload w = Done tt w)
  /\ (forall payload, exists w',
        handle_start_payload m payload w = Done tt w'
        /\ persistent w' = persistent w /\ storage w' = storage w).
Proof.
  split; [| split].
  - unfold handle_start_payload.
    rewrite !startswith_app.
    replace (startswith "phone_" ("cargo_" ++ cargo_id)) with false
      by (unfold startswith; simpl; by destruct (ascii_dec "p" "c")).
    by rewrite (drop_string_app "phone_"), (drop_string_app "cargo_").
  - intros payload Hp Hc. unfold handle_start_payload. by rewrite Hp, Hc.
  - intros payload. destruct (handle_start_payload_frame m payload w) as (w' & ? & ? & ? & _).
    by exists w'.
Qed.

(** *** [/start] *)

Definition start_states : list (option State) :=
  [None; Some Language_select; Some Registration_first_name].

(** [/start] is taken by [cmd_start] whatever the state of the chat.  When
    the subscription gate lets the user through, the session starts afresh: no
    data is left, and the state is none, language selection or the first step
    of the registration.  When the gate stops the user, the session is left as
    it was. *)
Theorem start_resets_session (m : Message) (u : TgUser) (w : World) :
  chat_type m = "private" ->
  from_user m = Some u ->
  is_command "start" (canonicalize_input m) = true ->
  exists w',
    dispatch m w = Done tt w'
    /\ (gate_passes w u = true ->
          fsm_data (session_of w' (chat_id m)) = ∅
          /\ fsm_state (session_of w' (chat_id m)) ∈ start_states
          /\ is_Some (users_col w' !! tg_id u))
    /\ (gate_passes w u = false -> w' = emit (subscribe_prompt m w) w).
Proof.
  intros Hpriv Hu Hstart.
  destruct (canonicalize_input_meta m) as (Hc & Hf & _).
  unfold dispatch. rewrite Hpriv. simpl. run_m. unfold state_get_state. run_m.
  rewrite Hstart. unfold cmd_start. rewrite Hf, Hu. run_m.
  rewrite (ensure_mandatory_eq _ u w); [| by rewrite Hf].
  destruct (gate_passes w u) eqn:Hgate; cbn [negb]; cbv beta iota.
  2:{ eexists. split; [reflexivity |]. split; [done |]. intros _.
      unfold subscribe_prompt, lang_for. by rewrite Hc, Hf. }
  rewrite state_clear_eq, Hc.
  set (w0 := put_session (chat_id m) no_session w).
  destruct (ensure_user_eq u w0) as (doc & w1 & Hrun & Hdoc & Hsto1 & _).
  assert (Hs1 : session_of w1 (chat_id m) = no_session).
  { unfold session_of. rewrite Hsto1. apply session_of_put. }
  rewrite Hrun.
  assert (Hfresh : forall st e w2,
            st ∈ start_states ->
            session_of w2 (chat_id m) = mkSession st ∅ ->
            users_col w2 !! tg_id u = Some doc ->
            fsm_data (session_of (emit e w2) (chat_id m)) = ∅
            /\ fsm_state (session_of (emit e w2) (chat_id m)) ∈ start_states
            /\ is_Some (users_col (emit e w2) !! tg_id u)).
  { intros st e w2 Hst Hs Hus. rewrite session_of_emit, Hs. simpl.
    repeat split; [done | by eexists]. }
  assert (Hin : forall st, In st start_states -> st ∈ start_states)
    by (intros st; apply list_elem_of_In).
  destruct (extract_start_payload (text (canonicalize_input m))) as [payload|].
  - destruct (handle_start_payload_frame (canonicalize_input m) payload w1)
      as (w2 & -> & Hper & Hsto & _).
    assert (Hs2 : session_of w2 (chat_id m) = no_session).
    { unfold session_of in *. by rewrite Hsto. }
    assert (Hu2 : users_col w2 !! tg_id u = Some doc).
    { injection Hper as -> _ _ _ _ _. done. }
    destruct (profile_completed doc).
    + erewrite open_main_menu_eq by (by rewrite Hf).
      eexists. split; [reflexivity |]. split; [| done]. intros _.
      apply (Hfresh None); [apply Hin; simpl; tauto | done | done].
    + rewrite answer_eq. eexists. split; [reflexivity |]. split; [| done]. intros _.
      apply (Hfresh None); [apply Hin; simpl; tauto | done | done].
  - destruct (is_valid_lang (lang doc)); cbn [negb]; cbv beta iota.
    + destruct (profile_completed doc).
      * erewrite open_main_menu_eq by (by rewrite Hf).
        eexists. split; [reflexivity |]. split; [| done]. intros _.
        apply (Hfresh None); [apply Hin; simpl; tauto | done | done].
      * rewrite state_set_state_eq, answer_eq, Hc, Hs1.
        eexists. split; [reflexivity |]. split; [| done]. intros _.
        apply (Hfresh (Some Registration_first_name));
          [apply Hin; simpl; tauto | apply session_of_put | done].
    + rewrite state_set_state_eq, answer_eq, Hc, Hs1.
      eexists. split; [reflexivity |]. split; [| done]. intros _.
      apply (Hfresh (Some Language_select));
        [apply Hin; simpl; tauto | apply session_of_put | done].
Qed.

(** *** Steps of the forms, through the dispatcher *)

Lemma dict_get_item k v (d : pydict) : dict_get k d = Some v -> In (k, v) d.
Proof.
  induction d as [|[k' v'] d IH]; simpl; [discriminate |].
  destruct (String.eqb_spec k k') as [-> | _].
  - intros [= ->]. by left.
  - intros H. right. by apply IH.
Qed.

Lemma field_step_frame m k v st' t mk w :
  exists w',
    (state_update_data m k v;; state_set_state m st';; answer m t mk) w = Done tt w'
    /\ session_of w' (chat_id m)
       = mkSession (Some st') (<[k := v]> (fsm_data (session_of w (chat_id m))))
    /\ persistent w' = persistent w
    /\ clock w' = clock w
    /\ outbox w' = (outbox w ++ [Answer (chat_id m) (lang_for w m) t mk])%list.
Proof.
  run_m. rewrite state_update_data_eq, state_set_state_eq, answer_eq.
  eexists. split; [reflexivity |].
  split; [| done].
  rewrite session_of_emit, session_of_put, session_of_put. reflexivity.
Qed.

(** A message accepted by the step [st] of a form: its value is stored under
    the step's key and the state moves on. *)
Lemma dispatch_field m w chat st k v st' t mk :
  chat_type m = "private" ->
  chat_id m = chat ->
  fsm_state (session_of w chat) = Some st ->
  st <> Language_select ->
  passes_to_flow (canonicalize_input m) = true ->
  state_handler st (canonicalize_input m) w
  = (state_update_data (canonicalize_input m) k v;;
     state_set_state (canonicalize_input m) st';;
     answer (canonicalize_input m) t mk) w ->
  exists w',
    dispatch m w = Done tt w'
    /\ session_of w' chat = mkSession (Some st') (<[k := v]> (fsm_data (session_of w chat)))
    /\ persistent w' = persistent w
    /\ clock w' = clock w.
Proof.
  intros Hpriv Hchat Hst Hne Hpass Hstep. subst chat.
  rewrite (dispatch_state_handler m w st Hpriv Hst Hne Hpass), Hstep.
  destruct (field_step_frame (canonicalize_input m) k v st' t mk w)
    as (w' & -> & Hs & Hp & Hk & _).
  destruct (canonicalize_input_meta m) as (Hc & _ & _). rewrite Hc in Hs.
  by exists w'.
Qed.

(** The phone number [reg_phone] reads: the contact's when the message
    carries one, the text otherwise. *)
Definition submitted_phone (m : Message) : option string :=
  if truthy (contact_phone m) then parse_phone (or_empty (contact_phone m))
  else if truthy (text m) then parse_phone (or_empty (text m))
  else None.

Lemma short_text_step (n : nat) (t : string) {A} (x y : A) :
  (n <= py_len t)%nat -> (if (py_len t <? n)%nat then x else y) = y.
Proof. intros H. destruct (Nat.ltb_spec (py_len t) n); [lia | reflexivity]. Qed.

(** *** Language selection *)

(** During language selection one of the two language labels stores the
    language, and the reply that follows is already sent in it: the main menu
    for a user whose profile is complete (the session ends), the first question
    of the registration otherwise. *)
Theorem language_choice_applies (m : Message) (u : TgUser) (t l : string) (w : World) :
  chat_type m = "private" ->
  from_user m = Some u ->
  text m = Some t ->
  dict_get (canonicalize_user_text (Some t)) LANG_LABEL_TO_CODE = Some l ->
  fsm_state (session_of w (chat_id m)) = Some Language_select ->
  exists w' usr',
    dispatch m w = Done tt w'
    /\ users_col w' !! tg_id u = Some usr'
    /\ lang usr' = Some l
    /\ get_user_lang (tg_id u) w' = Done l w'
    /\ (profile_completed usr' = true ->
          session_of w' (chat_id m) = no_session
          /\ outbox w'
             = (outbox w
                ++ [Answer (chat_id m) l (Plain "✅ Til saqlandi. Asosiy menyu.")
                      (ReplyKeyboard (main_menu_keyboard (admin_in w (tg_id u))))])%list)
    /\ (profile_completed usr' = false ->
          session_of w' (chat_id m)
          = mkSession (Some Registration_first_name) (fsm_data (session_of w (chat_id m)))
          /\ outbox w'
             = (outbox w ++ [Answer (chat_id m) l (Plain GREETING) ReplyKeyboardRemove])%list).
Proof.
  intros Hpriv Hu Ht Hl Hst.
  set (c := canonicalize_user_text (Some t)) in *.
  assert (Hcases : (c = LANG_SELECT_UZ /\ l = LANG_UZ) \/ (c = LANG_SELECT_RU /\ l = LANG_RU)).
  { apply dict_get_item in Hl.
    assert (Hd : LANG_LABEL_TO_CODE = [(LANG_SELECT_UZ, LANG_UZ); (LANG_SELECT_RU, LANG_RU)])
      by (vm_compute; reflexivity).
    rewrite Hd in Hl. simpl in Hl.
    destruct Hl as [[= <- <-] | [[= <- <-] | []]]; [by left | by right]. }
  assert (Hfacts : c <> EmptyString /\ command_in c = None /\ strip c = c
                   /\ is_valid_lang (Some l) = true).
  { destruct Hcases as [[-> ->] | [-> ->]]; repeat split; try done; by vm_compute. }
  destruct Hfacts as (Hne & Hcmd & Hstrip & Hvalid).
  assert (Htne : t <> EmptyString).
  { intros ->. subst c. vm_compute in Hne. congruence. }
  destruct (canonicalize_input_meta m) as (Hc & Hf & _).
  pose proof (canonicalize_input_text m t Ht Htne) as Hseen. fold c in Hseen.
  unfold dispatch. rewrite Hpriv. simpl. run_m. unfold state_get_state. run_m.
  rewrite Hc, Hst.
  unfold is_command. rewrite (command_of_text _ _ Hseen Hne), Hcmd.
  rewrite bool_decide_eq_false_2 by discriminate.
  rewrite bool_decide_eq_true_2 by reflexivity.
  unfold select_language. rewrite Hf, Hu, Hseen. cbv zeta. unfold or_empty.
  rewrite Hstrip, Hl.
  assert (Htruthy : truthy (Some l) = true)
    by (destruct Hcases as [[_ ->] | [_ ->]]; reflexivity).
  rewrite Htruthy. cbn [negb]. cbv iota. change (default EmptyString (Some l)) with l. run_m.
  unfold set_user_lang, users_upsert, now_utc. rewrite Hvalid. cbn [negb]. cbv iota. run_m.
  set (w0 := set_users _ w).
  destruct (ensure_user_eq u w0) as (doc & w1 & Hrun & Hdoc & Hsto1 & Hrest & _ & Hshape).
  rewrite Hrun.
  assert (Hlang : lang doc = Some l).
  { rewrite Hshape. unfold w0. simpl. rewrite lookup_insert_eq. reflexivity. }
  assert (Hlf : forall w2, users_col w2 = users_col w1 ->
                           lang_for w2 (canonicalize_input m) = l).
  { intros w2 Hw2. unfold lang_for. rewrite Hf, Hu, Hw2, Hdoc, Hlang, Hvalid. reflexivity. }
  assert (Hget : forall w2, users_col w2 = users_col w1 ->
                            get_user_lang (tg_id u) w2 = Done l w2).
  { intros w2 Hw2. unfold get_user_lang, fetch_user. run_m.
    rewrite Hw2, Hdoc, Hlang, Hvalid. reflexivity. }
  assert (Hout1 : outbox w1 = outbox w) by (by injection Hrest as _ _ _ _ _ _ ->).
  assert (Hadm1 : forall w2, admins_col w2 = admins_col w1 ->
                             admin_in w2 (tg_id u) = admin_in w (tg_id u)).
  { intros w2 Hw2. unfold admin_in. rewrite Hw2.
    by injection Hrest as _ _ _ _ -> _ _. }
  assert (Hs1 : session_of w1 (chat_id m) = session_of w (chat_id m)).
  { unfold session_of. by rewrite Hsto1. }
  destruct (profile_completed doc) eqn:Hpc.
  - rewrite state_clear_eq, Hc.
    erewrite open_main_menu_eq by (by rewrite Hf).
    eexists _, doc. split; [reflexivity |].
    split; [exact Hdoc |]. split; [exact Hlang |].
    split; [by apply Hget |].
    split; [| intros Hx; congruence]. intros _.
    split; [rewrite session_of_emit; apply session_of_put |].
    simpl. rewrite Hout1, Hc. do 3 f_equal; [by apply Hlf | by rewrite Hadm1].
  - rewrite state_set_state_eq, answer_eq, Hc.
    eexists _, doc. split; [reflexivity |].
    split; [exact Hdoc |]. split; [exact Hlang |].
    split; [by apply Hget |].
    split; [intros Hx; congruence |]. intros _.
    split; [rewrite session_of_emit, session_of_put, Hs1; reflexivity |].
    simpl. rewrite Hout1. do 3 f_equal. by apply Hlf.
Qed.

(** *** Registration *)

(** The registration, step by step through the dispatcher: a first name and a
    last name of two characters or more, an accepted phone number and a role
    label put the three values and the role in the user's document.  A shipper
    is complete at once and the session ends; a driver is not complete yet and
    is taken to the first step of the driver form. *)
Theorem registration_stores_profile
    (m1 m2 m3 m4 : Message) (u : TgUser) (usr : User) (chat : Z) (ph r : string)
    (w : World) :
  Forall (fun m => chat_type m = "private" /\ from_user m = Some u /\ chat_id m = chat
                   /\ passes_to_flow (canonicalize_input m) = true)
    [m1; m2; m3; m4] ->
  fsm_state (session_of w chat) = Some Registration_first_name ->
  users_col w !! tg_id u = Some usr ->
  (2 <= py_len (text_of (canonicalize_input m1)))%nat ->
  (2 <= py_len (text_of (canonicalize_input m2)))%nat ->
  submitted_phone (canonicalize_input m3) = Some ph ->
  dict_get (text_of (canonicalize_input m4)) LABEL_TO_ROLE = Some r ->
  exists w' usr',
    dispatch_all [m1; m2; m3; m4] w = Done tt w'
    /\ users_col w' !! tg_id u = Some usr'
    /\ (first_name usr', last_name usr', phone usr')
       = (VStr (text_of (canonicalize_input m1)), VStr (text_of (canonicalize_input m2)),
          VStr ph)
    /\ role usr' = Some r
    /\ r ∈ [ROLE_DRIVER; ROLE_SHIPPER]
    /\ profile_completed usr' = String.eqb r ROLE_SHIPPER
    /\ session_of w' chat
       = (if String.eqb r ROLE_SHIPPER then no_session
          else mkSession (Some Driver_car_type) {[ "driver_mode" := VStr "registration" ]})
    /\ (pro_until usr', lang usr', driver_profile usr', created_at usr')
       = (pro_until usr, lang usr, driver_profile usr, created_at usr).
Proof.
  intros Hall Hst Husr Hfn Hln Hph Hrole.
  repeat match goal with
         | H : Forall _ (_ :: _) |- _ => apply Forall_cons in H as [? H]
         end.
  repeat match goal with H : _ /\ _ |- _ => destruct H end.
  assert (Hr : r ∈ [ROLE_DRIVER; ROLE_SHIPPER]).
  { apply dict_get_item in Hrole.
    assert (Hd : LABEL_TO_ROLE
                 = [ ("🚛 Haydovchi", ROLE_DRIVER); ("📦 Yuk beruvchi", ROLE_SHIPPER);
                     ("🚛 Водитель", ROLE_DRIVER); ("📦 Грузоотправитель", ROLE_SHIPPER) ])
      by (vm_compute; reflexivity).
    rewrite Hd in Hrole. simpl in Hrole. apply list_elem_of_In. simpl.
    destruct Hrole as [[= _ <-] | [[= _ <-] | [[= _ <-] | [[= _ <-] | []]]]]; tauto. }
  unfold dispatch_all. run_m.
  (* first name *)
  destruct (dispatch_field m1 w chat Registration_first_name "first_name"
              (VStr (text_of (canonicalize_input m1))) Registration_last_name
              (Plain "🧾 Familiyangizni kiriting:") NoMarkup)
    as (w1 & -> & Hs1 & Hp1 & Hk1); try done.
  { simpl state_handler. unfold reg_first_name. cbv zeta.
    by rewrite (short_text_step 2 _ _ _ Hfn). }
  (* last name *)
  destruct (dispatch_field m2 w1 chat Registration_last_name "last_name"
              (VStr (text_of (canonicalize_input m2))) Registration_phone
              (Plain "📱 Telefon raqamingizni yuboring:") (ReplyKeyboard phone_keyboard))
    as (w2 & -> & Hs2 & Hp2 & Hk2); try done; [by rewrite Hs1 | |].
  { simpl state_handler. unfold reg_last_name. cbv zeta.
    by rewrite (short_text_step 2 _ _ _ Hln). }
  (* phone *)
  destruct (dispatch_field m3 w2 chat Registration_phone "phone" (VStr ph) Registration_role
              (Plain "Sizning rolingizni tanlang:") (ReplyKeyboard role_keyboard))
    as (w3 & -> & Hs3 & Hp3 & Hk3); try done; [by rewrite Hs2 | |].
  { simpl state_handler. unfold reg_phone. fold (submitted_phone (canonicalize_input m3)).
    by rewrite Hph. }
  (* role *)
  destruct (canonicalize_input_meta m4) as (Hc4 & Hf4 & _).
  rewrite (dispatch_state_handler m4 w3 Registration_role);
    [| done | replace (chat_id m4) with chat by congruence; by rewrite Hs3 | done | done].
  simpl state_handler. unfold reg_role. rewrite Hf4.
  replace (from_user m4) with (Some u) by congruence. rewrite Hrole.
  rewrite (proj2 (mem_true_iff _ _) Hr). cbn [negb]. cbv iota.
  unfold state_get_data, now_utc, users_update_one. run_m.
  rewrite Hc4. replace (chat_id m4) with chat by congruence.
  rewrite Hs3, Hs2, Hs1. cbn [fsm_data].
  assert (Hus3 : users_col w3 = users_col w).
  { injection Hp3 as -> _ _ _ _ _. injection Hp2 as -> _ _ _ _ _.
    by injection Hp1 as -> _ _ _ _ _. }
  set (reg := with_registration _ _ _ r (clock w3)).
  assert (Hreg : forall usr0, (first_name (reg usr0), last_name (reg usr0), phone (reg usr0))
                 = (VStr (text_of (canonicalize_input m1)),
                    VStr (text_of (canonicalize_input m2)), VStr ph)).
  { intros usr0. unfold reg, with_registration, get_value. simpl.
    by simplify_map_eq. }
  destruct (String.eqb r ROLE_SHIPPER) eqn:Hship.
  - rewrite state_clear_eq, Hc4.
    rewrite (open_main_menu_eq _ u) by (by rewrite Hf4).
    eexists _, (reg usr). split; [reflexivity |].
    split; [simpl; rewrite Hus3, lookup_alter_eq, Husr; reflexivity |].
    split; [apply Hreg |].
    split; [reflexivity |]. split; [exact Hr |].
    split; [simpl; exact Hship |].
    split; [| reflexivity].
    rewrite session_of_emit. replace (chat_id m4) with chat by congruence.
    apply session_of_put.
  - unfold start_driver_form. run_m.
    rewrite state_clear_eq, state_set_state_eq, state_update_data_eq, answer_eq, Hc4.
    replace (chat_id m4) with chat by congruence.
    eexists _, (reg usr). split; [reflexivity |].
    split; [simpl; rewrite Hus3, lookup_alter_eq, Husr; reflexivity |].
    split; [apply Hreg |].
    split; [reflexivity |]. split; [exact Hr |].
    split; [simpl; exact Hship |].
    split; [| reflexivity].
    rewrite session_of_emit, !session_of_put. cbn [fsm_state fsm_data no_session].
    by rewrite insert_empty.
Qed.

(** *** The cargo form *)

(** The comment [cargo_comment] keeps: a dash for the skip label. *)
Definition comment_of (m : Message) : string :=
  if String.eqb (text_of m) BTN_SKIP then "-" else text_of m.

(** The nine steps of the cargo form, through the dispatcher: two regions,
    a cargo type, three positive numbers, a loading date, a payment option and
    a comment lead to the preview with the nine values in the session, and
    store nothing: no collection changes before the listing is confirmed. *)
Theorem cargo_form_collects
    (m1 m2 m3 m4 m5 m6 m7 m8 m9 : Message) (chat : Z) (from to : string)
    (weight volume price : float) (w : World) :
  Forall (fun m => chat_type m = "private" /\ chat_id m = chat
                   /\ passes_to_flow (canonicalize_input m) = true)
    [m1; m2; m3; m4; m5; m6; m7; m8; m9] ->
  fsm_state (session_of w chat) = Some Cargo_from_region ->
  normalize_region (or_empty (text (canonicalize_input m1))) = Some from ->
  normalize_region (or_empty (text (canonicalize_input m2))) = Some to ->
  (2 <= py_len (text_of (canonicalize_input m3)))%nat ->
  parse_positive_number (or_empty (text (canonicalize_input m4))) = Some weight ->
  parse_positive_number (or_empty (text (canonicalize_input m5))) = Some volume ->
  parse_positive_number (or_empty (text (canonicalize_input m6))) = Some price ->
  (2 <= py_len (text_of (canonicalize_input m7)))%nat ->
  mem (text_of (canonicalize_input m8)) PAYMENT_OPTIONS = true ->
  exists w',
    dispatch_all [m1; m2; m3; m4; m5; m6; m7; m8; m9] w = Done tt w'
    /\ fsm_state (session_of w' chat) = Some Cargo_confirm
    /\ fsm_data (session_of w' chat) !! "from_region" = Some (VStr from)
    /\ fsm_data (session_of w' chat) !! "to_region" = Some (VStr to)
    /\ fsm_data (session_of w' chat) !! "cargo_type"
       = Some (VStr (text_of (canonicalize_input m3)))
    /\ fsm_data (session_of w' chat) !! "weight_ton" = Some (VNum weight)
    /\ fsm_data (session_of w' chat) !! "volume_m3" = Some (VNum volume)
    /\ fsm_data (session_of w' chat) !! "price" = Some (VNum price)
    /\ fsm_data (session_of w' chat) !! "load_date"
       = Some (VStr (text_of (canonicalize_input m7)))
    /\ fsm_data (session_of w' chat) !! "payment_type"
       = Some (VStr (text_of (canonicalize_input m8)))
    /\ fsm_data (session_of w' chat) !! "comment"
       = Some (VStr (comment_of (canonicalize_input m9)))
    /\ persistent w' = persistent w.
Proof.
  intros Hall Hst Hfrom Hto Hty Hwt Hvol Hpr Hdate Hpay.
  repeat match goal with
         | H : Forall _ (_ :: _) |- _ => apply Forall_cons in H as [? H]
         end.
  repeat match goal with H : _ /\ _ |- _ => destruct H end.
  unfold dispatch_all. run_m.
  destruct (dispatch_field m1 w chat Cargo_from_region "from_region" (VStr from)
              Cargo_to_region (Plain "🏁 Yuk qayerga boradi? Viloyatni tanlang:")
              (ReplyKeyboard region_keyboard))
    as (w1 & -> & Hs1 & Hp1 & _); try done.
  { simpl state_handler. unfold cargo_from_region. by rewrite Hfrom. }
  destruct (dispatch_field m2 w1 chat Cargo_to_region "to_region" (VStr to)
              Cargo_cargo_type
              (Plain "📦 Yuk turini kiriting (masalan: sement, mebel, oziq-ovqat):")
              (ReplyKeyboard cancel_keyboard))
    as (w2 & -> & Hs2 & Hp2 & _); try done; [by rewrite Hs1 | |].
  { simpl state_handler. unfold cargo_to_region. by rewrite Hto. }
  destruct (dispatch_field m3 w2 chat Cargo_cargo_type "cargo_type"
              (VStr (text_of (canonicalize_input m3))) Cargo_weight_ton
              (Plain "⚖️ Og'irligini kiriting (tonna):") NoMarkup)
    as (w3 & -> & Hs3 & Hp3 & _); try done; [by rewrite Hs2 | |].
  { simpl state_handler. unfold cargo_type. cbv zeta.
    by rewrite (short_text_step 2 _ _ _ Hty). }
  destruct (dispatch_field m4 w3 chat Cargo_weight_ton "weight_ton" (VNum weight)
              Cargo_volume_m3 (Plain "📐 Hajmini kiriting (m3):") NoMarkup)
    as (w4 & -> & Hs4 & Hp4 & _); try done; [by rewrite Hs3 | |].
  { simpl state_handler. unfold cargo_weight. by rewrite Hwt. }
  destruct (dispatch_field m5 w4 chat Cargo_volume_m3 "volume_m3" (VNum volume)
              Cargo_price (Plain "💰 Taklif narxini kiriting (so'm):") NoMarkup)
    as (w5 & -> & Hs5 & Hp5 & _); try done; [by rewrite Hs4 | |].
  { simpl state_handler. unfold cargo_volume. by rewrite Hvol. }
  destruct (dispatch_field m6 w5 chat Cargo_price "price" (VNum price)
              Cargo_load_date
              (Plain "📅 Yuklash sanasi (masalan: 25.02.2026 yoki bugun):") NoMarkup)
    as (w6 & -> & Hs6 & Hp6 & _); try done; [by rewrite Hs5 | |].
  { simpl state_handler. unfold cargo_price. by rewrite Hpr. }
  destruct (dispatch_field m7 w6 chat Cargo_load_date "load_date"
              (VStr (text_of (canonicalize_input m7))) Cargo_payment_type
              (Plain "💳 To'lov turini tanlang:") (ReplyKeyboard payment_keyboard))
    as (w7 & -> & Hs7 & Hp7 & _); try done; [by rewrite Hs6 | |].
  { simpl state_handler. unfold cargo_load_date. cbv zeta.
    by rewrite (short_text_step 2 _ _ _ Hdate). }
  destruct (dispatch_field m8 w7 chat Cargo_payment_type "payment_type"
              (VStr (text_of (canonicalize_input m8))) Cargo_comment
              (Plain ASK_NOTE) (ReplyKeyboard skip_cancel_keyboard))
    as (w8 & -> & Hs8 & Hp8 & _); try done; [by rewrite Hs7 | |].
  { simpl state_handler. unfold cargo_payment. cbv zeta. by rewrite Hpay. }
  destruct (dispatch_field m9 w8 chat Cargo_comment "comment"
              (VStr (comment_of (canonicalize_input m9))) Cargo_confirm
              (Built "build_cargo_preview") (ReplyKeyboard cargo_confirm_keyboard))
    as (w9 & -> & Hs9 & Hp9 & _); try done; [by rewrite Hs8 |].
  exists w9. split; [reflexivity |].
  rewrite Hs9, Hs8, Hs7, Hs6, Hs5, Hs4, Hs3, Hs2, Hs1. cbn [fsm_state fsm_data].
  split; [reflexivity |].
  repeat (split; [by simplify_map_eq |]).
  congruence.
Qed.

(** *** Confirming a listing *)

(** The chats [publish_cargo] reports as reached and the failures it
    reports, for a listing that leaves from [from]. *)
Definition publish_result (w : World) (from : Value) : list Z * list string :=
  match region_chat_of w from with
  | None => ([], [])
  | Some chat =>
      match tg_send_message chat with
      | None => ([chat], [])
      | Some exc => ([], [failure_entry chat exc])
      end
  end.

(** The sends it makes. *)
Definition publish_events (w : World) (from : Value) : list Event :=
  match region_chat_of w from with
  | None => []
  | Some chat =>
      [SendMessage chat (Built "build_cargo_post_text")
         (bool_decide (tg_send_message chat = None))]
  end.

Lemma publish_cargo_run cargo owner cargo_id w :
  publish_cargo cargo owner cargo_id w
  = Done (publish_result w (c_from_region cargo))
      (emit_all (publish_events w (c_from_region cargo)) w).
Proof.
  unfold publish_cargo, resolve_target_chats, get_region_chat_id, publish_result,
    publish_events, region_chat_of.
  run_m.
  destruct (c_from_region cargo) as [|r|x]; simpl; try reflexivity.
  destruct (mjoin (region_channels_col w !! r)) as [chat|]; simpl; [| reflexivity].
  destruct (tg_send_message chat); reflexivity.
Qed.

(** At the preview, the confirm label stores the listing and publishes it:
    one document is appended to the cargo collection, owned by the sender, with
    the nine values of the session, the time of the confirmation and the status
    [active]; it is sent to the chat of its origin region only, and what the
    send gave is recorded on the document; the session ends; no user document
    and no channel setting changes. *)
Theorem cargo_confirm_stores_and_publishes
    (m : Message) (u : TgUser) (t : string) (owner : User)
    (from to ctype weight volume price date pay comment : Value) (w : World) :
  chat_type m = "private" ->
  from_user m = Some u ->
  text m = Some t ->
  canonicalize_user_text (Some t) = BTN_CARGO_CONFIRM ->
  fsm_state (session_of w (chat_id m)) = Some Cargo_confirm ->
  users_col w !! tg_id u = Some owner ->
  fsm_data (session_of w (chat_id m)) !! "from_region" = Some from ->
  fsm_data (session_of w (chat_id m)) !! "to_region" = Some to ->
  fsm_data (session_of w (chat_id m)) !! "cargo_type" = Some ctype ->
  fsm_data (session_of w (chat_id m)) !! "weight_ton" = Some weight ->
  fsm_data (session_of w (chat_id m)) !! "volume_m3" = Some volume ->
  fsm_data (session_of w (chat_id m)) !! "price" = Some price ->
  fsm_data (session_of w (chat_id m)) !! "load_date" = Some date ->
  fsm_data (session_of w (chat_id m)) !! "payment_type" = Some pay ->
  fsm_data (session_of w (chat_id m)) !! "comment" = Some comment ->
  exists w',
    dispatch m w = Done tt w'
    /\ cargo_col w'
       = (cargo_col w
          ++ [mkCargo (tg_id u) from to ctype weight volume price date pay comment (clock w)
                "active" (Some (fst (publish_result w from)))
                (Some (snd (publish_result w from))) (Some (clock w))])%list
    /\ outbox w'
       = (outbox w ++ publish_events w from
          ++ [Answer (chat_id m) (lang_for w m) (Built "cargo_confirm")
                (ReplyKeyboard (main_menu_keyboard (admin_in w (tg_id u))))])%list
    /\ session_of w' (chat_id m) = no_session
    /\ (users_col w', catalog_chat w', mandatory_channels w', region_channels_col w',
        admins_col w')
       = (users_col w, catalog_chat w, mandatory_channels w, region_channels_col w,
          admins_col w).
Proof.
  intros Hpriv Hu Ht Hcanon Hst Howner Hfrom Hto Hty Hwt Hvol Hpr Hdate Hpay Hcom.
  assert (Hne : t <> EmptyString).
  { intros ->. vm_compute in Hcanon. discriminate. }
  destruct (canonicalize_input_meta m) as (Hc & Hf & _).
  assert (Htext : text (canonicalize_input m) = Some BTN_CARGO_CONFIRM).
  { rewrite (canonicalize_input_text m t Ht Hne). by rewrite Hcanon. }
  rewrite (dispatch_state_handler m w Cargo_confirm Hpriv Hst); [| done |].
  2:{ rewrite (passes_to_flow_text _ _ Htext); [by vm_compute | done]. }
  simpl state_handler. unfold cargo_confirm. rewrite Hf, Hu.
  unfold text_of. rewrite Htext.
  replace (strip (or_empty (Some BTN_CARGO_CONFIRM))) with BTN_CARGO_CONFIRM
    by (vm_compute; reflexivity).
  replace (String.eqb BTN_CARGO_CONFIRM BTN_CARGO_EDIT) with false
    by (vm_compute; reflexivity).
  rewrite String.eqb_refl. cbn [negb]. cbv iota.
  unfold state_get_data, fetch_user, now_utc, item. run_m.
  rewrite state_clear_eq, !Hc. cbn [users_col put_session set_storage].
  rewrite Howner, Hfrom, Hto, Hty, Hwt, Hvol, Hpr, Hdate, Hpay, Hcom.
  rewrite publish_cargo_run. cbn [c_from_region].
  set (w1 := set_cargo _ _).
  assert (Hreg : forall v, region_chat_of w1 v = region_chat_of w v) by done.
  assert (Hres : publish_result w1 from = publish_result w from).
  { unfold publish_result. by rewrite Hreg. }
  assert (Hev : publish_events w1 from = publish_events w from).
  { unfold publish_events. by rewrite Hreg. }
  rewrite Hres, Hev.
  destruct (publish_result w from) as [sent failed] eqn:Hpub.
  destruct (emit_all_frame (publish_events w from) w1) as (Hper & Hsto & Hclk).
  pose proof (emit_all_outbox (publish_events w from) w1) as Hout.
  set (w2 := emit_all (publish_events w from) w1) in *.
  rewrite (open_main_menu_eq _ u) by (by rewrite Hf).
  rewrite Hc.
  remember (set_cargo _ w2) as w3 eqn:Hw3.
  assert (Hus : users_col w3 = users_col w)
    by (rewrite Hw3; simpl; by injection Hper as -> _ _ _ _ _).
  assert (Hadm : admins_col w3 = admins_col w)
    by (rewrite Hw3; simpl; by injection Hper as _ _ _ _ _ ->).
  assert (Hout3 : outbox w3 = (outbox w ++ publish_events w from)%list)
    by (rewrite Hw3; simpl; by rewrite Hout).
  assert (Hsto3 : storage w3 = <[chat_id m := no_session]> (storage w))
    by (rewrite Hw3; simpl; by rewrite Hsto).
  assert (Hrest3 : (catalog_chat w3, mandatory_channels w3, region_channels_col w3)
                   = (catalog_chat w, mandatory_channels w, region_channels_col w))
    by (rewrite Hw3; simpl; by injection Hper as _ _ -> -> -> _).
  assert (Hcargo3 : cargo_col w3
                    = (cargo_col w
                       ++ [mkCargo (tg_id u) from to ctype weight volume price date pay
                             comment (clock w) "active" (Some sent) (Some failed)
                             (Some (clock w))])%list).
  { rewrite Hw3. simpl.
    replace (cargo_col w2) with (cargo_col w1) by (by injection Hper as _ -> _ _ _ _).
    rewrite Hclk. unfold w1. simpl.
    replace (length (cargo_col w)) with (length (cargo_col w) + 0) by lia.
    rewrite alter_app_r. reflexivity. }
  clear Hw3.
  eexists. split; [reflexivity |].
  split; [exact Hcargo3 |].
  split.
  { simpl. rewrite Hout3, <- app_assoc. do 3 f_equal.
    unfold lang_for, admin_in. by rewrite Hf, Hus, Hadm. }
  split.
  { rewrite session_of_emit. unfold session_of. by rewrite Hsto3, lookup_insert_eq. }
  simpl. rewrite Hus, Hadm. by injection Hrest3 as -> -> ->.
Qed.

(** *** Rejected input *)




(** *** Changing the role *)

(** The vehicle fields [settings_change_role] looks at. *)
Definition driver_ready (usr : User) : bool :=
  value_truthy (driver_profile usr !! "car_type")
  && value_truthy (driver_profile usr !! "capacity_ton")
  && value_truthy (driver_profile usr !! "volume_m3")
  && value_truthy (driver_profile usr !! "routes").

(** Changing the role in the settings: the new role is stored at once.  A
    shipper is always complete; a driver is complete exactly when the document
    holds a vehicle type, a capacity, a volume and the routes, and is otherwise
    marked incomplete and taken to the driver form.  The names, the phone, the
    vehicle profile and the subscription are not touched. *)
Theorem role_change_sets_completion
    (m : Message) (u : TgUser) (usr : User) (r : string) (w : World) :
  chat_type m = "private" ->
  from_user m = Some u ->
  fsm_state (session_of w (chat_id m)) = Some Settings_role ->
  passes_to_flow (canonicalize_input m) = true ->
  dict_get (text_of (canonicalize_input m)) LABEL_TO_ROLE = Some r ->
  users_col w !! tg_id u = Some usr ->
  exists w' usr',
    dispatch m w = Done tt w'
    /\ users_col w' !! tg_id u = Some usr'
    /\ role usr' = Some r
    /\ profile_completed usr' = (String.eqb r ROLE_SHIPPER || driver_ready usr)
    /\ session_of w' (chat_id m)
       = (if profile_completed usr' then no_session
          else mkSession (Some Driver_car_type) {[ "driver_mode" := VStr "settings" ]})
    /\ (first_name usr', last_name usr', phone usr', driver_profile usr', pro_until usr',
        lang usr')
       = (first_name usr, last_name usr, phone usr, driver_profile usr, pro_until usr,
          lang usr)
    /\ (forall other, other <> tg_id u -> users_col w' !! other = users_col w !! other).
Proof.
  intros Hpriv Hu Hst Hpass Hrole Husr.
  destruct (canonicalize_input_meta m) as (Hc & Hf & _).
  assert (Hr : r = ROLE_DRIVER \/ r = ROLE_SHIPPER).
  { pose proof Hrole as Hin. apply dict_get_item in Hin.
    assert (Hd : LABEL_TO_ROLE
                 = [ ("🚛 Haydovchi", ROLE_DRIVER); ("📦 Yuk beruvchi", ROLE_SHIPPER);
                     ("🚛 Водитель", ROLE_DRIVER); ("📦 Грузоотправитель", ROLE_SHIPPER) ])
      by (vm_compute; reflexivity).
    rewrite Hd in Hin. simpl in Hin.
    destruct Hin as [[= _ <-] | [[= _ <-] | [[= _ <-] | [[= _ <-] | []]]]]; tauto. }
  rewrite (dispatch_state_handler m w Settings_role Hpriv Hst); [| done | done].
  simpl state_handler. unfold settings_change_role. rewrite Hf, Hu, Hrole.
  unfold fetch_user, now_utc, users_update_one. run_m.
  destruct Hr as [-> | ->].
  - (* driver *)
    replace (mem ROLE_DRIVER [ROLE_DRIVER; ROLE_SHIPPER]) with true by reflexivity.
    replace (String.eqb ROLE_DRIVER ROLE_SHIPPER) with false by reflexivity.
    cbn [negb orb]. cbv iota. rewrite Husr. cbv zeta. fold (driver_ready usr).
    destruct (driver_ready usr) eqn:Hready.
    + rewrite state_clear_eq, (open_main_menu_eq _ u), Hc by (by rewrite Hf).
      eexists _, _. split; [reflexivity |].
      split; [simpl; rewrite lookup_alter_eq, Husr; reflexivity |]. simpl.
      split; [reflexivity |]. split; [reflexivity |].
      split; [rewrite session_of_emit; apply session_of_put |].
      split; [reflexivity |]. intros other Hne. by rewrite lookup_alter_ne.
    + unfold start_driver_form. run_m.
      rewrite state_clear_eq, state_set_state_eq, state_update_data_eq, answer_eq, Hc.
      eexists _, _. split; [reflexivity |].
      split; [simpl; rewrite lookup_alter_eq, Husr; reflexivity |]. simpl.
      split; [reflexivity |]. split; [reflexivity |].
      split.
      { rewrite session_of_emit, !session_of_put. cbn [fsm_state fsm_data no_session].
        by rewrite insert_empty. }
      split; [reflexivity |]. intros other Hne. by rewrite lookup_alter_ne.
  - (* shipper *)
    replace (mem ROLE_SHIPPER [ROLE_DRIVER; ROLE_SHIPPER]) with true by reflexivity.
    rewrite String.eqb_refl. cbn [negb orb]. cbv iota. rewrite Husr.
    rewrite state_clear_eq, (open_main_menu_eq _ u), Hc by (by rewrite Hf).
    eexists _, _. split; [reflexivity |].
    split; [simpl; rewrite lookup_alter_eq, Husr; reflexivity |]. simpl.
    split; [reflexivity |]. split; [reflexivity |].
    split; [rewrite session_of_emit; apply session_of_put |].
    split; [reflexivity |]. intros other Hne. by rewrite lookup_alter_ne.
Qed.

(** *** Broadcast audiences *)

(** The content step of the broadcast, for any audience the session holds
    (all users when it holds none): the message is copied once to every user the
    audience's query selects and to nobody else, each recipient is attempted,
    and the two counts of the report add up to the number of recipients.  The
    audience [pro] is the users whose subscription runs past the current
    time. *)
Theorem broadcast_reaches_audience (m : Message) (u : TgUser) (w : World) :
  chat_type m = "private" ->
  from_user m = Some u ->
  admin_in w (tg_id u) = true ->
  fsm_state (session_of w (chat_id m)) = Some AdminBroadcast_content ->
  passes_to_flow (canonicalize_input m) = true ->
  let audience := default (VStr "all") (fsm_data (session_of w (chat_id m)) !! "audience") in
  exists w' ids sent failed,
    dispatch m w = Done tt w'
    /\ outbox w'
       = (outbox w
          ++ map (fun user_id => CopyTo user_id (tg_copy_to user_id)) ids
          ++ [Answer (chat_id m) (lang_for w m) (Plain (broadcast_report sent failed))
                (ReplyKeyboard admin_panel_keyboard)])%list
    /\ NoDup ids
    /\ (forall user_id,
          user_id ∈ ids
          <-> exists x, users_col w !! user_id = Some x
                        /\ audience_query audience (clock w) x = true)
    /\ sent = count_delivered ids
    /\ sent + failed = length ids
    /\ persistent w' = persistent w
    /\ session_of w' (chat_id m) = no_session.
Proof.
  intros Hpriv Hu Hadm Hst Hpass audience.
  destruct (canonicalize_input_meta m) as (Hc & Hf & _).
  rewrite (dispatch_state_handler m w AdminBroadcast_content Hpriv Hst); [| done | done].
  simpl state_handler. unfold admin_broadcast_content. rewrite Hf, Hu. run_m.
  rewrite (require_admin_granted _ u w); [| by rewrite Hf | done]. cbn [negb]. cbv iota.
  unfold state_get_data, now_utc. run_m. rewrite Hc. fold audience.
  set (ids := find_user_ids _ (users_col w)).
  rewrite broadcast_loop_eq. cbv beta iota. rewrite state_clear_eq, answer_eq, Hc.
  pose proof (count_delivered_le ids) as Hle.
  destruct (emit_all_frame (map (fun user_id => CopyTo user_id (tg_copy_to user_id)) ids) w)
    as (Hper & Hsto & Hclk).
  eexists _, ids, (0 + count_delivered ids), (0 + (length ids - count_delivered ids)).
  split; [reflexivity |].
  split.
  { simpl. rewrite emit_all_outbox, <- app_assoc. do 3 f_equal.
    unfold lang_for. rewrite Hf. simpl.
    injection Hper as Hus _ _ _ _ _. by rewrite Hus. }
  split; [apply find_user_ids_NoDup |].
  split; [intros user_id; unfold ids; apply find_user_ids_elem |].
  split; [lia |]. split; [lia |].
  split; [exact Hper |].
  rewrite session_of_emit. apply session_of_put.
Qed.

(** *** The pro step of the admin panel *)


(** *** Connecting chats *)

(** The region step of the channel settings: a chat found on the message
    (a forward, or an id in the text) is mapped to the region chosen before and
    the session ends, whatever the writability check reports afterwards; from
    then on a listing that leaves from the region is routed to this chat, and
    the other regions keep their chats. *)
Theorem region_chat_routes_listings
    (m : Message) (u : TgUser) (chat : Z) (a : ascii) (rest : string) (w : World) :
  chat_type m = "private" ->
  from_user m = Some u ->
  admin_in w (tg_id u) = true ->
  fsm_state (session_of w (chat_id m)) = Some AdminChannel_region_chat ->
  passes_to_flow (canonicalize_input m) = true ->
  extract_chat_id_from_message (canonicalize_input m) = Some chat ->
  fsm_data (session_of w (chat_id m)) !! "selected_region" = Some (VStr (String a rest)) ->
  exists w',
    dispatch m w = Done tt w'
    /\ region_chat_of w' (VStr (String a rest)) = Some chat
    /\ (forall other, other <> String a rest ->
          region_chat_of w' (VStr other) = region_chat_of w (VStr other))
    /\ session_of w' (chat_id m) = no_session
    /\ outbox w'
       = (outbox w
          ++ [CheckWritable chat;
              Answer (chat_id m) (lang_for w m) (Built "region_saved")
                (ReplyKeyboard admin_channels_keyboard)])%list
    /\ (users_col w', cargo_col w', catalog_chat w', mandatory_channels w')
       = (users_col w, cargo_col w, catalog_chat w, mandatory_channels w).
Proof.
  intros Hpriv Hu Hadm Hst Hpass Hchat Hregion.
  destruct (canonicalize_input_meta m) as (Hc & Hf & _).
  rewrite (dispatch_state_handler m w AdminChannel_region_chat Hpriv Hst); [| done | done].
  simpl state_handler. unfold admin_set_region_chat. run_m.
  rewrite (require_admin_granted _ u w); [| by rewrite Hf | done]. cbn [negb]. cbv iota.
  unfold resolve_chat_id_from_message. rewrite Hchat. run_m.
  unfold state_get_data. run_m. rewrite Hc, Hregion.
  rewrite state_clear_eq, Hc. unfold check_writable. run_m. rewrite answer_eq, Hc.
  eexists. split; [reflexivity |].
  split; [unfold region_chat_of; simpl; by rewrite lookup_insert_eq |].
  split.
  { intros other Hne. unfold region_chat_of. simpl. by rewrite lookup_insert_ne. }
  split; [rewrite !session_of_emit; apply session_of_put |].
  split; [| reflexivity].
  simpl. rewrite <- app_assoc. simpl. do 3 f_equal.
  unfold lang_for. by rewrite Hf.
Qed.

(** The catalog step does the same for the catalog chat; and a message on
    which no chat can be found stores nothing and leaves the step open. *)
Theorem catalog_chat_saved (m : Message) (u : TgUser) (w : World) :
  chat_type m = "private" ->
  from_user m = Some u ->
  admin_in w (tg_id u) = true ->
  fsm_state (session_of w (chat_id m)) = Some AdminChannel_catalog_chat ->
  passes_to_flow (canonicalize_input m) = true ->
  (forall chat, extract_chat_id_from_message (canonicalize_input m) = Some chat ->
     exists w',
       dispatch m w = Done tt w'
       /\ catalog_chat w' = Some chat
       /\ session_of w' (chat_id m) = no_session
       /\ outbox w'
          = (outbox w
             ++ [CheckWritable chat;
                 Answer (chat_id m) (lang_for w m) (Built "catalog_saved")
                   (ReplyKeyboard admin_channels_keyboard)])%list)
  /\ (extract_chat_id_from_message (canonicalize_input m) = None ->
      text (canonicalize_input m) = None ->
      dispatch m w
      = Done tt (emit (Answer (chat_id m) (lang_for w m) (Plain NO_CHAT_ID) NoMarkup) w)).
Proof.
  intros Hpriv Hu Hadm Hst Hpass.
  destruct (canonicalize_input_meta m) as (Hc & Hf & _).
  rewrite (dispatch_state_handler m w AdminChannel_catalog_chat Hpriv Hst); [| done | done].
  simpl state_handler. unfold admin_set_catalog_chat. run_m.
  rewrite (require_admin_granted _ u w); [| by rewrite Hf | done]. cbn [negb]. cbv iota.
  unfold resolve_chat_id_from_message.
  split.
  - intros chat ->. run_m.
    rewrite state_clear_eq, Hc. unfold check_writable. run_m. rewrite answer_eq, Hc.
    eexists. split; [reflexivity |].
    split; [reflexivity |].
    split; [rewrite !session_of_emit; apply session_of_put |].
    simpl. rewrite <- app_assoc. simpl. do 3 f_equal.
    unfold lang_for. by rewrite Hf.
  - intros -> ->. cbn [truthy negb]. cbv iota. run_m.
    rewrite answer_eq, Hc. unfold lang_for. by rewrite Hf.
Qed.

(** *** Regions *)


(** *** What a regular expression match proves *)

(** [matched r s cap s' cap']: [r] matches the text between [s] and its
    suffix [s'], taking the capture from [cap] to [cap']. *)
Inductive matched : re -> string -> option string -> string -> option string -> Prop :=
| matched_lit l s cap :
    String.prefix l s = true ->
    matched (Lit l) s cap (drop_string (String.length l) s) cap
| matched_cls p a s cap :
    p (code a) = true -> matched (Cls p) (String a s) cap s cap
| matched_seq r1 r2 s cap s1 cap1 s2 cap2 :
    matched r1 s cap s1 cap1 -> matched r2 s1 cap1 s2 cap2 ->
    matched (Seq r1 r2) s cap s2 cap2
| matched_alt_l r1 r2 s cap s' cap' :
    matched r1 s cap s' cap' -> matched (Alt r1 r2) s cap s' cap'
| matched_alt_r r1 r2 s cap s' cap' :
    matched r2 s cap s' cap' -> matched (Alt r1 r2) s cap s' cap'
| matched_rep lo hi r n s cap s' cap' :
    (lo <= n)%nat -> (forall h, hi = Some h -> (n <= h)%nat) ->
    iterated r n s cap s' cap' ->
    matched (Rep lo hi r) s cap s' cap'
| matched_grp r s cap s' cap' :
    matched r s cap s' cap' -> matched (Grp r) s cap s' (Some (consumed s s'))
with iterated : re -> nat -> string -> option string -> string -> option string -> Prop :=
| iterated_O r s cap : iterated r 0 s cap s cap
| iterated_S r n s cap s1 cap1 s2 cap2 :
    matched r s cap s1 cap1 -> iterated r n s1 cap1 s2 cap2 ->
    iterated r (S n) s cap s2 cap2.

(** Whatever [run] answers, it answers through a match. *)
Lemma run_sound r :
  forall s cap k res,
    run r s cap k = Some res ->
    exists s' cap', matched r s cap s' cap' /\ k s' cap' = Some res.
Proof.
  induction r as [l | p | r1 IH1 r2 IH2 | r1 IH1 r2 IH2 | lo hi r1 IH1 | r1 IH1];
    intros s cap k res Hrun; simpl in Hrun.
  - destruct (String.prefix l s) eqn:Hp; [| discriminate].
    eexists _, _. split; [by constructor | exact Hrun].
  - destruct s as [|a s]; [discriminate |].
    destruct (p (code a)) eqn:Hp; [| discriminate].
    eexists _, _. split; [by constructor | exact Hrun].
  - apply IH1 in Hrun as (s1 & cap1 & Hm1 & Hrun).
    apply IH2 in Hrun as (s2 & cap2 & Hm2 & Hk).
    eexists _, _. split; [by econstructor | exact Hk].
  - destruct (run r1 s cap k) as [res1|] eqn:H1.
    + injection Hrun as <-. apply IH1 in H1 as (s' & cap' & Hm & Hk).
      eexists _, _. split; [by apply matched_alt_l | exact Hk].
    + apply IH2 in Hrun as (s' & cap' & Hm & Hk).
      eexists _, _. split; [by apply matched_alt_r | exact Hk].
  - assert (Hloop : forall fuel done s cap,
              (forall h, hi = Some h -> (done <= h)%nat) ->
              (fix loop (fuel done : nat) (s : string) (cap : option string)
                 {struct fuel} : option (option string) :=
                 let stop := if (lo <=? done)%nat then k s cap else None in
                 match fuel with
                 | O => stop
                 | S fuel' =>
                     if below done hi then
                       match run r1 s cap
                               (fun s' cap' =>
                                  if (String.length s' <? String.length s)%nat
                                  then loop fuel' (S done) s' cap'
                                  else None) with
                       | Some res => Some res
                       | None => stop
                       end
                     else stop
                 end) fuel done s cap = Some res ->
              exists n s' cap',
                iterated r1 n s cap s' cap'
                /\ (lo <= done + n)%nat
                /\ (forall h, hi = Some h -> (done + n <= h)%nat)
                /\ k s' cap' = Some res).
    { clear s cap Hrun. intros fuel. induction fuel as [|fuel IHf]; intros done s cap Hdone Hrun.
      - destruct (Nat.leb_spec lo done); [| discriminate].
        exists 0, s, cap. repeat split; [constructor | lia | | exact Hrun].
        intros h Hh. specialize (Hdone h Hh). lia.
      - assert (Hstop : (if (lo <=? done)%nat then k s cap else None) = Some res ->
                        exists n s' cap',
                          iterated r1 n s cap s' cap'
                          /\ (lo <= done + n)%nat
                          /\ (forall h, hi = Some h -> (done + n <= h)%nat)
                          /\ k s' cap' = Some res).
        { intros Hs. destruct (Nat.leb_spec lo done); [| discriminate].
          exists 0, s, cap. repeat split; [constructor | lia | | exact Hs].
          intros h Hh. specialize (Hdone h Hh). lia. }
        destruct (below done hi) eqn:Hbelow; [| by apply Hstop].
        destruct (run r1 s cap _) as [res1|] eqn:H1; [| by apply Hstop].
        injection Hrun as <-.
        apply IH1 in H1 as (s1 & cap1 & Hm & Hk).
        destruct (String.length s1 <? String.length s)%nat; [| discriminate].
        apply IHf in Hk as (n & s' & cap' & Hit & Hlo & Hhi & Hk).
        + exists (S n), s', cap'. repeat split.
          * by econstructor.
          * lia.
          * intros h Hh. specialize (Hhi h Hh). lia.
          * exact Hk.
        + intros h Hh. unfold below in Hbelow. rewrite Hh in Hbelow.
          apply Nat.ltb_lt in Hbelow. lia. }
    apply (Hloop (S (String.length s)) 0 s cap) in Hrun
      as (n & s' & cap' & Hit & Hlo & Hhi & Hk); [| intros; lia].
    exists s', cap'. split; [| exact Hk].
    apply (matched_rep lo hi r1 n); [lia | | exact Hit].
    intros h Hh. specialize (Hhi h Hh). lia.
  - apply IH1 in Hrun as (s' & cap' & Hm & Hk).
    exists s', (Some (consumed s s')).
    split; [by apply (matched_grp _ _ _ _ cap') | exact Hk].
Qed.

Lemma prefix_split l s :
  String.prefix l s = true -> s = l ++ drop_string (String.length l) s.
Proof.
  revert s. induction l as [|a l IH]; intros s Hp.
  - unfold drop_string. simpl. by rewrite Nat.sub_0_r, substring_all.
  - destruct s as [|b s]; [discriminate |]. simpl in Hp.
    destruct (ascii_dec a b) as [-> |]; [| discriminate].
    change (String b s = String b (l ++ drop_string (String.length l) s)).
    f_equal. exact (IH s Hp).
Qed.

(** Every byte of the text satisfies [p]. *)
Definition all_bytes (p : N -> bool) (s : string) : bool := forallb p (bytes s).

Lemma iterated_cls p n s cap s' cap' :
  iterated (Cls p) n s cap s' cap' ->
  exists x, s = x ++ s' /\ String.length x = n /\ all_bytes p x = true /\ cap' = cap.
Proof.
  revert s cap. induction n as [|n IH]; intros s cap Hit.
  - inversion Hit; subst. by exists EmptyString.
  - inversion Hit as [| ? ? ? ? s1 cap1 ? ? Hm Hrest]; subst.
    inversion Hm; subst.
    apply IH in Hrest as (x & -> & <- & Hall & ->).
    exists (String a x). repeat split.
    unfold all_bytes, bytes. simpl. fold (bytes x).
    match goal with H : p (code a) = true |- _ => rewrite H end.
    exact Hall.
Qed.

Lemma matched_opt_lit l s cap s' cap' :
  matched (opt (Lit l)) s cap s' cap' ->
  cap' = cap /\ (s = s' \/ s = l ++ s').
Proof.
  intros Hm. inversion Hm as [| | | | | ? ? ? n ? ? ? ? _ Hhi Hit |]; subst.
  specialize (Hhi 1 eq_refl).
  destruct n as [|[|n]]; [| | lia].
  - inversion Hit; subst. split; [done | by left].
  - inversion Hit as [| ? ? ? ? s1 cap1 ? ? Hm1 Hrest]; subst.
    inversion Hrest; subst. inversion Hm1; subst.
    split; [done | right]. by apply prefix_split.
Qed.

Lemma matched_rep_cls lo hi p s cap s' cap' :
  matched (Rep lo hi (Cls p)) s cap s' cap' ->
  exists x, s = x ++ s' /\ (lo <= String.length x)%nat
            /\ (forall h, hi = Some h -> (String.length x <= h)%nat)
            /\ all_bytes p x = true /\ cap' = cap.
Proof.
  intros Hm. inversion Hm as [| | | | | ? ? ? n ? ? ? ? Hlo Hhi Hit |]; subst.
  apply iterated_cls in Hit as (x & -> & <- & Hall & ->).
  by exists x.
Qed.

Lemma fullmatch_sound r s cap :
  fullmatch r s = Some cap -> matched r s None EmptyString cap.
Proof.
  intros Hf. apply run_sound in Hf as (s' & cap' & Hm & Hk).
  destruct s'; [| discriminate]. by injection Hk as <-.
Qed.

Lemma append_empty_r s : s ++ "" = s.
Proof.
  induction s as [|a s IH]; [done |].
  change (String a (s ++ "") = String a s). by rewrite IH.
Qed.

(** *** Phone numbers *)

(** The shape of a phone number: an optional plus sign, then 9 to 15
    digits. *)
Definition phone_shaped (c : string) : Prop :=
  exists sign digits,
    c = sign ++ digits
    /\ (sign = "" \/ sign = "+")
    /\ all_bytes is_digit digits = true
    /\ (9 <= String.length digits <= 15)%nat.

(** [parse_phone] only ever answers a text of that shape, so with no blank
    in it and not empty; and this is what the phone step of the registration
    puts in the session, from a contact or from a text. *)
Theorem parse_phone_shape :
  (forall value c, parse_phone value = Some c -> phone_shaped c)
  /\ (forall m c, submitted_phone m = Some c -> phone_shaped c).
Proof.
  assert (Hshape : forall value c, parse_phone value = Some c -> phone_shaped c).
  { intros value c Hp. unfold parse_phone in Hp. cbv zeta in Hp.
    set (cleaned := of_bytes _) in Hp.
    unfold matches in Hp.
    destruct (fullmatch PHONE_RE cleaned) as [cap|] eqn:Hf; [| discriminate].
    injection Hp as <-.
    apply fullmatch_sound in Hf.
    inversion Hf as [| | ? ? ? ? s1 cap1 ? ? Hsign Hdigits | | | |]; subst.
    apply matched_opt_lit in Hsign as [-> Hsign].
    apply matched_rep_cls in Hdigits as (x & -> & Hlo & Hhi & Hall & _).
    specialize (Hhi 15 eq_refl). rewrite append_empty_r in Hsign.
    destruct Hsign as [-> | ->].
    - exists "", x. repeat split; try done. by left.
    - exists "+", x. repeat split; try done. by right. }
  split; [exact Hshape |].
  intros m c Hs. unfold submitted_phone in Hs.
  destruct (truthy (contact_phone m)); [by apply Hshape in Hs |].
  destruct (truthy (text m)); [by apply Hshape in Hs | discriminate].
Qed.

(** *** Chat references *)










Lemma of_bytes_bytes s : of_bytes (bytes s) = s.
Proof.
  unfold of_bytes, bytes, code. induction s as [|a s IH]; [done |].
  simpl. by rewrite ascii_N_embedding, IH.
Qed.

Lemma drop_while_stops head fuel l : head l = 0 -> drop_while_ws head fuel l = l.
Proof. intros H. destruct fuel; simpl; [done |]. by rewrite H. Qed.

(** A text with no blank at either end is its own [strip]. *)
Lemma strip_fixed s :
  ws_head (bytes s) = 0 -> ws_last (rev (bytes s)) = 0 -> strip s = s.
Proof.
  intros Hh Hl. unfold strip, lstrip_bytes, rstrip_bytes.
  rewrite (drop_while_stops _ _ _ Hh), (drop_while_stops _ _ _ Hl), rev_involutive.
  apply of_bytes_bytes.
Qed.

Lemma ws_last_digit c l : is_digit c = true -> ws_last (c :: l) = 0.
Proof.
  unfold is_digit. intros Hc. apply andb_true_iff in Hc as [Hlo Hhi].
  apply N.leb_le in Hlo, Hhi.
  assert (H1 : ws1 c = false).
  { unfold ws1. apply orb_false_iff. split; apply andb_false_iff.
    - right. apply N.leb_gt. lia.
    - right. apply N.leb_gt. lia. }
  unfold ws_last. rewrite H1.
  destruct l as [|b l]; [done |].
  assert (H2 : ws2 b c = false).
  { unfold ws2. apply andb_false_iff. right. apply orb_false_iff.
    split; apply N.eqb_neq; lia. }
  rewrite H2. destruct l as [|a l]; [done |].
  assert (H3 : ws3 a b c = false).
  { unfold ws3.
    replace (c =? 128)%N with false by (symmetry; apply N.eqb_neq; lia).
    replace (128 <=? c)%N with false by (symmetry; apply N.leb_gt; lia).
    replace (c =? 168)%N with false by (symmetry; apply N.eqb_neq; lia).
    replace (c =? 169)%N with false by (symmetry; apply N.eqb_neq; lia).
    replace (c =? 175)%N with false by (symmetry; apply N.eqb_neq; lia).
    replace (c =? 159)%N with false by (symmetry; apply N.eqb_neq; lia).
    by rewrite !andb_false_r. }
  by rewrite H3.
Qed.

(** [int] reads every run of ASCII digits. *)
Lemma digits_value_digits x :
  all_bytes is_digit x = true ->
  forall acc, (0 <= acc)%Z ->
    exists v, digits_value acc true x = Some v /\ (acc <= v)%Z.
Proof.
  induction x as [|a x IH]; intros Hall acc Hacc.
  - exists acc. split; [reflexivity | lia].
  - unfold all_bytes, bytes in Hall. simpl in Hall. fold (bytes x) in Hall.
    apply andb_true_iff in Hall as [Ha Hx].
    simpl. rewrite Ha.
    destruct (IH Hx (acc * 10 + Z.of_N (code a - 48))%Z) as (v & Hv & Hle); [lia |].
    exists v. split; [exact Hv | lia].
Qed.



(** *** The completeness of a profile *)

(** The checks of [profile_completeness]: the names, the phone and the role,
    and for a driver four fields of the vehicle profile.  [bool(x)] is false
    on a missing field, on [None], on an empty text and on zero. *)
Definition profile_checks (user : User) : list (string * bool) :=
  ([ ("Ism", value_truthy (Some (first_name user)));
     ("Familiya", value_truthy (Some (last_name user)));
     ("Telefon", value_truthy (Some (phone user)));
     ("Rol", truthy (role user)) ]
   ++ (if bool_decide (role user = Some ROLE_DRIVER) then
         [ ("Mashina turi", value_truthy (driver_profile user !! "car_type"));
           ("Yuk sig'imi", value_truthy (driver_profile user !! "capacity_ton"));
           ("Hajmi", value_truthy (driver_profile user !! "volume_m3"));
           ("Yo'nalish", value_truthy (driver_profile user !! "routes")) ]
       else []))%list.

(** [int((done / total) * 100)]: with 4 or 8 checks the quotient and the
    product are exact in floating point, and [int] rounds down. *)
Definition profile_completeness (user : User) : nat * list string :=
  let checks := profile_checks user in
  let done := length (filter (fun c : string * bool => snd c) checks) in
  let total := length checks in
  let score := if (total =? 0)%nat then 0 else (done * 100 / total)%nat in
  let missing := map fst (filter (fun c : string * bool => negb (snd c)) checks) in
  (score, missing).

(** The score is at most 100 and is 100 exactly when nothing is reported
    missing.  For a driver this is exactly when the names and the phone are
    there and the vehicle type, capacity, volume and routes are filled in, the
    four fields the role change looks at too: the optional price and note do
    not count.  For anybody else it is when the names, the phone and the role
    are there. *)
Theorem completeness_full_iff (user : User) :
  (fst (profile_completeness user) <= 100)%nat
  /\ (fst (profile_completeness user) = 100%nat <-> snd (profile_completeness user) = [])
  /\ (role user = Some ROLE_DRIVER ->
      (snd (profile_completeness user) = []
       <-> value_truthy (Some (first_name user)) && value_truthy (Some (last_name user))
           && value_truthy (Some (phone user)) && driver_ready user = true))
  /\ (role user <> Some ROLE_DRIVER ->
      (snd (profile_completeness user) = []
       <-> value_truthy (Some (first_name user)) && value_truthy (Some (last_name user))
           && value_truthy (Some (phone user)) && truthy (role user) = true)).
Proof.
  unfold profile_completeness, profile_checks, driver_ready. cbv zeta.
  destruct (decide (role user = Some ROLE_DRIVER)) as [Hrole | Hrole].
  - rewrite bool_decide_eq_true_2 by done. rewrite Hrole.
    change (truthy (Some ROLE_DRIVER)) with true.
    destruct (value_truthy (Some (first_name user))), (value_truthy (Some (last_name user))),
      (value_truthy (Some (phone user))), (value_truthy (driver_profile user !! "car_type")),
      (value_truthy (driver_profile user !! "capacity_ton")),
      (value_truthy (driver_profile user !! "volume_m3")),
      (value_truthy (driver_profile user !! "routes"));
      vm_compute; repeat split; try lia; try discriminate; try congruence; try done.
  - rewrite bool_decide_eq_false_2 by done.
    destruct (value_truthy (Some (first_name user))), (value_truthy (Some (last_name user))),
      (value_truthy (Some (phone user))), (truthy (role user));
      vm_compute; repeat split; try lia; try discriminate; try congruence; try done.
Qed.

(** *** Masking a phone number *)



(** *** The buttons of the subscription prompt *)








End Handlers.

Arguments Done {float A} a w.
Arguments Raised {float A} exc w.
Arguments world_of {float A} o.
Arguments VNone {float}.
Arguments VStr {float} s.
Arguments VNum {float} x.
Arguments mkSession {float} fsm_state fsm_data.
Arguments fsm_state {float} s.
Arguments fsm_data {float} s.
Arguments no_session {float}.
Arguments session_of {float} w chat.
Arguments put_session {float} chat s w.
Arguments users_col {float} w.
Arguments storage {float} w.
Arguments outbox {float} w.
Arguments persistent {float} w.
Arguments driver_profile {float} u.
Arguments profile_completed {float} u.
Arguments role {float} u.
Arguments pro_until {float} u.

(** ** A concrete deployment

    Whole numbers stand for the floats; user 9 is the configured admin; the
    transport delivers to everyone but user 2 and chat -1002. *)

Definition ex_float : Type := Z.
Definition ex_py_float (s : string) : option Z := py_int s.
Definition ex_le_zero (x : Z) : bool := (x <=? 0)%Z.
Definition ex_truthy (x : Z) : bool := negb (x =? 0)%Z.
Definition ex_admins : gset Z := {[ 9%Z ]}.
Definition ex_mention_ok (mention : string) : bool := String.eqb mention "logistik_bot".
Definition ex_member (chat user : Z) : option string := Some "member".
Definition ex_get_chat_by_username (name : string) : option Z :=
  if String.eqb name "@abcde" then Some (-1005)%Z else None.
Definition ex_get_chat (chat : Z) : result ChatInfo := Raise "chat not found".
Definition ex_fetch (chat : Z) : fetched := Fetched "channel" "administrator" None None.
Definition ex_send (chat : Z) : option string :=
  if (chat =? -1002)%Z then Some "Forbidden: bot was kicked" else None.
Definition ex_copy (user : Z) : bool := negb (user =? 2)%Z.
Definition ex_oid (s : string) : option nat := None.

Definition ex_dispatch : Message -> M ex_float unit :=
  dispatch ex_float ex_py_float ex_le_zero ex_truthy ex_admins EmptyString ex_mention_ok
    ex_member ex_get_chat_by_username ex_get_chat ex_fetch ex_send ex_copy ex_oid.

Definition ex_dispatch_all : list Message -> M ex_float unit :=
  dispatch_all ex_float ex_py_float ex_le_zero ex_truthy ex_admins EmptyString
    ex_mention_ok ex_member ex_get_chat_by_username ex_get_chat ex_fetch ex_send ex_copy
    ex_oid.

Definition ex_person (id : Z) : TgUser := mkTgUser id None (Some "Ali") None.

(** A private text message from a user. *)
Definition ex_message (id : Z) (t : string) : Message :=
  mkMessage id "private" (Some (ex_person id)) (Some t) None None None None None None.

Definition ex_user (r : option string) (completed : bool) : User ex_float :=
  mkUser ex_float None (Some "Ali") None (VStr "Ali") (VStr "Valiyev")
    (VStr "+998901234567") r completed ∅ None (Some LANG_UZ) (Some 0%Z) (Some 0%Z).

(** Five user documents: the drivers 1, 2 and 3, the shipper 4 and the
    admin 9, registered as a shipper. *)
Definition ex_users : gmap Z (User ex_float) :=
  <[1%Z := ex_user (Some ROLE_DRIVER) true]>
  (<[2%Z := ex_user (Some ROLE_DRIVER) true]>
  (<[3%Z := ex_user (Some ROLE_DRIVER) true]>
  (<[4%Z := ex_user (Some ROLE_SHIPPER) true]>
  (<[9%Z := ex_user (Some ROLE_SHIPPER) true]> ∅)))).

(** 2027-01-15 08:00:00 UTC *)
Definition ex_now : Z := 1800000000 * 1000000.

Definition ex_world (st : gmap Z (Session ex_float)) : World ex_float :=
  mkWorld ex_float ex_users [] None [] ∅ ∅ st ex_now [].

Definition ex_admin_handler : AdminOp -> Message -> M ex_float unit :=
  admin_handler ex_float ex_admins ex_get_chat_by_username ex_get_chat ex_fetch ex_send
    ex_copy.

(** User 4, a shipper and no admin, at the content step of the broadcast
    flow (as after losing the admin right in mid-flow). *)
Definition ex_world_denied : World ex_float :=
  ex_world {[ 4%Z := mkSession (Some AdminBroadcast_content) {[ "audience" := VStr "drivers" ]} ]}.

(** The admin, user 9, at the same step. *)
Definition ex_world_broadcast : World ex_float :=
  ex_world {[ 9%Z := mkSession (Some AdminBroadcast_content) {[ "audience" := VStr "drivers" ]} ]}.

(** User 4 at the preview of a listing from Andijon to Toshkent. *)
Definition ex_world_confirm : World ex_float :=
  ex_world
    {[ 4%Z := mkSession (Some Cargo_confirm)
                (<["from_region" := VStr "Andijon"]> {[ "to_region" := VStr "Toshkent" ]}) ]}.

(** User 4 at the first step of the driver form. *)
Definition ex_world_driver : World ex_float :=
  ex_world {[ 4%Z := mkSession (Some Driver_car_type) {[ "driver_mode" := VStr "edit" ]} ]}.

(** User 4 choosing a language. *)
Definition ex_world_language : World ex_float :=
  ex_world {[ 4%Z := mkSession (Some Language_select) ∅ ]}.

Definition ex_driver_inputs : list Message :=
  [ ex_message 4 "Isuzu"; ex_message 4 "5"; ex_message 4 "20";
    ex_message 4 "Toshkent-Samarqand"; ex_message 4 "⏭ Пропустить";
    ex_message 4 "⏭ O'tkazib yuborish" ].

(** C9, as stated, fails: the denied step of the broadcast flow leaves no
    persistent trace but clears the sender's session. *)
Lemma denied_step_clears_session :
  fsm_state (session_of ex_world_denied 4) = Some AdminBroadcast_content
  /\ session_of
       (world_of (ex_admin_handler Op_admin_broadcast_content (ex_message 4 "Salom")
                    ex_world_denied)) 4
     = no_session
  /\ outbox
       (world_of (ex_admin_handler Op_admin_broadcast_content (ex_message 4 "Salom")
                    ex_world_denied))
     = [Answer 4 LANG_UZ (Plain DENIED) NoMarkup].
Proof. repeat split; vm_compute; reflexivity. Qed.

Lemma admin_denied_effects_witness :
  exists w',
    ex_admin_handler Op_admin_broadcast_content (ex_message 4 "Salom") ex_world_denied
    = Done tt w'
    /\ persistent w' = persistent ex_world_denied
    /\ outbox w'
       = (outbox ex_world_denied
          ++ [Answer 4 (lang_for ex_float ex_world_denied (ex_message 4 "Salom"))
                (Plain DENIED) NoMarkup])%list
    /\ storage w' = <[4%Z := no_session]> (storage ex_world_denied).
Proof.
  apply (admin_denied_effects ex_float ex_admins ex_get_chat_by_username ex_get_chat
           ex_fetch ex_send ex_copy Op_admin_broadcast_content (ex_message 4 "Salom")
           (ex_person 4) ex_world_denied).
  - reflexivity.
  - vm_compute. reflexivity.
Defined.

(** C6, as stated, fails: after the edit token the session is at the first
    step and still holds the values of the listing, where a fresh start of the
    form holds none. *)
Lemma cargo_edit_keeps_prior_values :
  fsm_state (session_of (world_of (ex_dispatch (ex_message 4 BTN_CARGO_EDIT) ex_world_confirm)) 4)
  = Some Cargo_from_region
  /\ fsm_data (session_of (world_of (ex_dispatch (ex_message 4 BTN_CARGO_EDIT) ex_world_confirm)) 4)
     !! "from_region" = Some (VStr "Andijon")
  /\ fsm_data (session_of (world_of (start_cargo_form ex_float (ex_message 4 BTN_MENU_CARGO)
                                       ex_world_confirm)) 4)
     !! "from_region" = None.
Proof. repeat split; vm_compute; reflexivity. Qed.

Lemma cargo_edit_rewinds_keeping_values_witness :
  exists w',
    ex_dispatch (ex_message 4 "✏️ Изменить") ex_world_confirm = Done tt w'
    /\ session_of w' 4
       = mkSession (Some Cargo_from_region) (fsm_data (session_of ex_world_confirm 4))
    /\ persistent w' = persistent ex_world_confirm
    /\ outbox w'
       = (outbox ex_world_confirm
          ++ [Answer 4 (lang_for ex_float ex_world_confirm (ex_message 4 "✏️ Изменить"))
                (Plain "Tahrirlash boshlandi. Qayerdan yuklanadi?")
                (ReplyKeyboard region_keyboard)])%list.
Proof.
  apply (cargo_edit_rewinds_keeping_values ex_float ex_py_float ex_le_zero ex_truthy
           ex_admins EmptyString ex_mention_ok ex_member ex_get_chat_by_username
           ex_get_chat ex_fetch ex_send ex_copy ex_oid (ex_message 4 "✏️ Изменить")
           (ex_person 4) "✏️ Изменить" ex_world_confirm).
  - reflexivity.
  - reflexivity.
  - reflexivity.
  - vm_compute. reflexivity.
  - vm_compute. reflexivity.
Defined.

(** C10, as stated, fails: a grant of 4,000,000 days made in 2027 has no
    expiry a datetime can hold; [apply_pro] raises and stores nothing. *)
Lemma apply_pro_overflows :
  (0 < 4000000)%Z
  /\ is_Some (users_col (ex_world ∅) !! 4%Z)
  /\ apply_pro ex_float 4 4000000 (ex_world ∅) = Raised "OverflowError" (ex_world ∅).
Proof. split; [lia |]. split; [by eexists |]. vm_compute. reflexivity. Qed.

Lemma apply_pro_extends_witness :
  exists w',
    apply_pro ex_float 4 30 (ex_world ∅)
    = Done (Some (ex_now + 30 * MICROSECONDS_PER_DAY)%Z) w'
    /\ (pro_until <$> users_col w' !! 4%Z)
       = Some (Some (ex_now + 30 * MICROSECONDS_PER_DAY)%Z).
Proof.
  apply (proj1 (apply_pro_extends ex_float 4 (ex_world ∅))
           (ex_user (Some ROLE_SHIPPER) true) 30%Z).
  - reflexivity.
  - unfold TIMEDELTA_MAX_DAYS. lia.
  - vm_compute. split; discriminate.
Defined.

Lemma broadcast_to_drivers_witness :
  exists w' ids sent failed,
    ex_dispatch (ex_message 9 "Yangi yuklar bor") ex_world_broadcast = Done tt w'
    /\ outbox w'
       = (outbox ex_world_broadcast
          ++ map (fun user_id => CopyTo user_id (ex_copy user_id)) ids
          ++ [Answer 9 (lang_for ex_float ex_world_broadcast (ex_message 9 "Yangi yuklar bor"))
                (Plain (broadcast_report sent failed))
                (ReplyKeyboard admin_panel_keyboard)])%list
    /\ NoDup ids
    /\ (forall user_id,
          user_id ∈ ids
          <-> exists x, users_col ex_world_broadcast !! user_id = Some x
                        /\ role x = Some ROLE_DRIVER)
    /\ sent = count_delivered ex_copy ids
    /\ sent + failed = length ids
    /\ persistent w' = persistent ex_world_broadcast
    /\ session_of w' 9 = no_session.
Proof.
  apply (broadcast_to_drivers ex_float ex_py_float ex_le_zero ex_truthy ex_admins
           EmptyString ex_mention_ok ex_member ex_get_chat_by_username ex_get_chat
           ex_fetch ex_send ex_copy ex_oid (ex_message 9 "Yangi yuklar bor")
           (ex_person 9) ex_world_broadcast).
  - reflexivity.
  - reflexivity.
  - vm_compute. reflexivity.
  - vm_compute. reflexivity.
  - vm_compute. reflexivity.
  - vm_compute. reflexivity.
Defined.

(** Three drivers and two users who are not drivers: three copies go out,
    the second fails, the third is still sent. *)
Example broadcast_three_of_five :
  outbox (world_of (ex_dispatch (ex_message 9 "Yangi yuklar bor") ex_world_broadcast))
  = [ CopyTo 3 true; CopyTo 2 false; CopyTo 1 true;
      Answer 9 LANG_UZ (Plain (broadcast_report 2 1)) (ReplyKeyboard admin_panel_keyboard) ].
Proof. vm_compute. reflexivity. Qed.

Lemma driver_profile_skips_complete_witness :
  exists w' usr',
    ex_dispatch_all ex_driver_inputs ex_world_driver = Done tt w'
    /\ users_col w' !! 4%Z = Some usr'
    /\ profile_completed usr' = true
    /\ role usr' = Some ROLE_DRIVER
    /\ driver_profile usr' !! "price_per_km" = Some VNone
    /\ driver_profile usr' !! "note" = Some VNone
    /\ driver_profile usr' !! "car_type" = Some (VStr "Isuzu")
    /\ driver_profile usr' !! "capacity_ton" = Some (VNum 5%Z)
    /\ driver_profile usr' !! "volume_m3" = Some (VNum 20%Z)
    /\ driver_profile usr' !! "routes" = Some (VStr "Toshkent-Samarqand")
    /\ session_of w' 4 = no_session.
Proof.
  apply (driver_profile_skips_complete ex_float ex_py_float ex_le_zero ex_truthy ex_admins
           EmptyString ex_mention_ok ex_member ex_get_chat_by_username ex_get_chat
           ex_fetch ex_send ex_copy ex_oid
           (ex_message 4 "Isuzu") (ex_message 4 "5") (ex_message 4 "20")
           (ex_message 4 "Toshkent-Samarqand") (ex_message 4 "⏭ Пропустить")
           (ex_message 4 "⏭ O'tkazib yuborish")
           (ex_person 4) (ex_user (Some ROLE_SHIPPER) true) 4%Z 5%Z 20%Z ex_world_driver).
  - repeat constructor.
  - repeat constructor; vm_compute; reflexivity.
  - vm_compute. reflexivity.
  - vm_compute. reflexivity.
  - vm_compute. lia.
  - vm_compute. reflexivity.
  - vm_compute. reflexivity.
  - vm_compute. lia.
  - vm_compute. reflexivity.
  - vm_compute. reflexivity.
Defined.

(** The failing input of C1: user 4, choosing a language, presses the cancel
    button of the language keyboard. *)
Lemma language_selection_swallows_menu_labels_witness :
  ex_dispatch (ex_message 4 BTN_CANCEL) ex_world_language
  = Done tt
      (emit ex_float
         (Answer 4 (lang_for ex_float ex_world_language (ex_message 4 BTN_CANCEL))
            (Plain ASK_LANGUAGE_AGAIN) (ReplyKeyboard language_keyboard))
         ex_world_language).
Proof.
  apply (language_selection_swallows_menu_labels ex_float ex_py_float ex_le_zero ex_truthy
           ex_admins EmptyString ex_mention_ok ex_member ex_get_chat_by_username
           ex_get_chat ex_fetch ex_send ex_copy ex_oid (ex_message 4 BTN_CANCEL)
           (ex_person 4) BTN_CANCEL ex_world_language).
  - reflexivity.
  - reflexivity.
  - reflexivity.
  - vm_compute. reflexivity.
  - vm_compute. reflexivity.
Defined.

Example cancel_during_language_selection :
  session_of (world_of (ex_dispatch (ex_message 4 "❌ Отмена") ex_world_language)) 4
  = mkSession (Some Language_select) ∅
  /\ outbox (world_of (ex_dispatch (ex_message 4 "❌ Отмена") ex_world_language))
     = [Answer 4 LANG_UZ (Plain ASK_LANGUAGE_AGAIN) (ReplyKeyboard language_keyboard)].
Proof. split; vm_compute; reflexivity. Qed.

Lemma menu_label_clears_other_flows_witness :
  ex_dispatch (ex_message 4 "❌ Отмена")
    (put_session 4 (mkSession (Some Cargo_confirm) {[ "from_region" := VStr "Andijon" ]})
       (ex_world ∅))
  = open_main_menu ex_float ex_admins (canonicalize_input (ex_message 4 "❌ Отмена"))
      (Plain CANCELLED) (put_session 4 no_session (ex_world ∅)).
Proof.
  apply (menu_label_clears_other_flows ex_float ex_py_float ex_le_zero ex_truthy ex_admins
           EmptyString ex_mention_ok ex_member ex_get_chat_by_username ex_get_chat
           ex_fetch ex_send ex_copy ex_oid (ex_message 4 "❌ Отмена") (ex_person 4)
           "❌ Отмена" Cargo_confirm {[ "from_region" := VStr "Andijon" ]} (ex_world ∅)).
  - reflexivity.
  - reflexivity.
  - reflexivity.
  - vm_compute. reflexivity.
  - discriminate.
Defined.

Lemma granted_pro_is_active_witness :
  exists e w' u',
    apply_pro ex_float 4 30 (ex_world ∅) = Done (Some e) w'
    /\ users_col w' !! 4%Z = Some u'
    /\ pro_until u' = Some e
    /\ is_pro_active ex_float (Some u') w' = Done true w'.
Proof.
  apply (granted_pro_is_active ex_float 4 30 (ex_user (Some ROLE_SHIPPER) true) (ex_world ∅)).
  - reflexivity.
  - unfold TIMEDELTA_MAX_DAYS. lia.
  - vm_compute. split; discriminate.
Defined.


(** ** The same deployment, at other steps *)

Arguments mandatory_channels {float} w.
Arguments cargo_col {float} w.
Arguments catalog_chat {float} w.
Arguments region_channels_col {float} w.
Arguments emit {float} e w.
Arguments lang {float} u.
Arguments first_name {float} u.
Arguments last_name {float} u.
Arguments phone {float} u.

(** A transport that can read every chat: chat [c] is a channel without a
    public name. *)
Definition ex_get_chat_ok (chat : Z) : result ChatInfo :=
  Ok (mkChatInfo chat (Some "Yuk markazi") None None).

(** A transport on which nobody has joined anything. *)
Definition ex_member_left (chat user : Z) : option string := Some "left".

Definition ex_channel : Channel :=
  mkChannel (-1007) "Yuk markazi" (Some "yukmarkazi") (Some "https://t.me/yukmarkazi").

(** The deployment with one mandatory channel. *)
Definition ex_world_gated : World ex_float :=
  mkWorld ex_float ex_users [] None [ex_channel] ∅ ∅ ∅ ex_now [].

(** User [id] at a step with nothing gathered. *)
Definition ex_world_at (id : Z) (st : State) : World ex_float :=
  ex_world {[ id := mkSession (Some st) ∅ ]}.

(** User 4 at the preview of a complete listing. *)
Definition ex_listing : gmap string (Value ex_float) :=
  <["from_region" := VStr "Andijon"]>
  (<["to_region" := VStr "Toshkent"]>
  (<["cargo_type" := VStr "Sement"]>
  (<["weight_ton" := VNum 5%Z]>
  (<["volume_m3" := VNum 20%Z]>
  (<["price" := VNum 1000%Z]>
  (<["load_date" := VStr "Ertaga"]>
  (<["payment_type" := VStr "💵 Naqd"]>
  {[ "comment" := VStr "-" ]}))))))).

Definition ex_world_listing : World ex_float :=
  ex_world {[ 4%Z := mkSession (Some Cargo_confirm) ex_listing ]}.

(** The admin at the region step of the channel settings, Andijon chosen. *)
Definition ex_world_region : World ex_float :=
  ex_world
    {[ 9%Z := mkSession (Some AdminChannel_region_chat)
                {[ "selected_region" := VStr "Andijon" ]} ]}.

Definition ex_cargo_inputs : list Message :=
  [ ex_message 4 "Andijon"; ex_message 4 "toshkent"; ex_message 4 "Sement";
    ex_message 4 "5"; ex_message 4 "20"; ex_message 4 "1000"; ex_message 4 "Ertaga";
    ex_message 4 "💵 Naqd"; ex_message 4 "-" ].

Lemma lang_roundtrip_witness :
  exists w',
    set_user_lang ex_float 4 LANG_RU (ex_world ∅) = Done tt w'
    /\ get_user_lang ex_float 4 w' = Done LANG_RU w'.
Proof.
  destruct (lang_roundtrip ex_float 4 LANG_RU (ex_world ∅)) as (w' & Hset & Hget & _).
  - reflexivity.
  - exists w'. split; [exact Hset | exact Hget].
Defined.

Lemma add_then_remove_restores_witness :
  exists r w1 w2,
    add_mandatory_channel ex_float ex_get_chat_ok (-1008) ex_world_gated = Done r w1
    /\ remove_mandatory_channel ex_float (-1008) w1 = Done true w2
    /\ mandatory_channels w2 = [ex_channel].
Proof.
  destruct (add_then_remove_restores ex_float ex_get_chat_ok (-1008)
              (mkChatInfo (-1008) (Some "Yuk markazi") None None) ex_world_gated)
    as (r & w1 & w2 & Hadd & Hrem & Hsame & _).
  - reflexivity.
  - vm_compute. intros Hin. apply list_elem_of_singleton in Hin. discriminate.
  - exists r, w1, w2. split; [exact Hadd |]. split; [exact Hrem | exact Hsame].
Defined.

(** User 4 has not joined the channel: the profile is not shown. *)
Lemma subscription_gate_blocks_witness :
  gated_handler ex_float ex_admins EmptyString ex_member_left ex_oid G_show_profile
    (ex_message 4 "👤 Profil") ex_world_gated
  = Done tt
      (emit (subscribe_prompt ex_float (ex_message 4 "👤 Profil") ex_world_gated)
         ex_world_gated).
Proof.
  apply (subscription_gate_blocks ex_float ex_admins EmptyString ex_member_left ex_oid
           G_show_profile (ex_message 4 "👤 Profil") (ex_person 4) ex_channel
           ex_world_gated).
  - reflexivity.
  - vm_compute. reflexivity.
  - apply list_elem_of_here.
  - reflexivity.
Defined.

Lemma start_resets_session_witness :
  exists w',
    ex_dispatch (ex_message 4 "/start") ex_world_listing = Done tt w'
    /\ fsm_data (session_of w' 4) = ∅.
Proof.
  destruct (start_resets_session ex_float ex_py_float ex_le_zero ex_truthy ex_admins
              EmptyString ex_mention_ok ex_member ex_get_chat_by_username ex_get_chat
              ex_fetch ex_send ex_copy ex_oid (ex_message 4 "/start") (ex_person 4)
              ex_world_listing) as (w' & Hrun & Hpass & _).
  - reflexivity.
  - reflexivity.
  - vm_compute. reflexivity.
  - exists w'. split; [exact Hrun |]. apply Hpass. vm_compute. reflexivity.
Defined.

Lemma language_choice_applies_witness :
  exists w' usr',
    ex_dispatch (ex_message 4 "🇷🇺 Русский") ex_world_language = Done tt w'
    /\ users_col w' !! 4%Z = Some usr'
    /\ lang usr' = Some LANG_RU.
Proof.
  destruct (language_choice_applies ex_float ex_py_float ex_le_zero ex_truthy ex_admins
              EmptyString ex_mention_ok ex_member ex_get_chat_by_username ex_get_chat
              ex_fetch ex_send ex_copy ex_oid (ex_message 4 "🇷🇺 Русский") (ex_person 4)
              "🇷🇺 Русский" LANG_RU ex_world_language)
    as (w' & usr' & Hrun & Husr & Hlang & _).
  - reflexivity.
  - reflexivity.
  - reflexivity.
  - vm_compute. reflexivity.
  - vm_compute. reflexivity.
  - exists w', usr'. split; [exact Hrun |]. split; [exact Husr | exact Hlang].
Defined.

Lemma registration_stores_profile_witness :
  exists w' usr',
    ex_dispatch_all
      [ ex_message 4 "Vali"; ex_message 4 "Aliyev"; ex_message 4 "+998 90 123 45 67";
        ex_message 4 "📦 Yuk beruvchi" ]
      (ex_world_at 4 Registration_first_name)
    = Done tt w'
    /\ users_col w' !! 4%Z = Some usr'
    /\ (first_name usr', last_name usr', phone usr')
       = (VStr "Vali", VStr "Aliyev", VStr "+998901234567")
    /\ role usr' = Some ROLE_SHIPPER
    /\ profile_completed usr' = true.
Proof.
  destruct (registration_stores_profile ex_float ex_py_float ex_le_zero ex_truthy ex_admins
              EmptyString ex_mention_ok ex_member ex_get_chat_by_username ex_get_chat
              ex_fetch ex_send ex_copy ex_oid
              (ex_message 4 "Vali") (ex_message 4 "Aliyev")
              (ex_message 4 "+998 90 123 45 67") (ex_message 4 "📦 Yuk beruvchi")
              (ex_person 4) (ex_user (Some ROLE_SHIPPER) true) 4%Z "+998901234567"
              ROLE_SHIPPER (ex_world_at 4 Registration_first_name))
    as (w' & usr' & Hrun & Husr & Hnames & Hrole & _ & Hdone & _).
  - repeat constructor; vm_compute; reflexivity.
  - vm_compute. reflexivity.
  - vm_compute. reflexivity.
  - vm_compute. lia.
  - vm_compute. lia.
  - vm_compute. reflexivity.
  - vm_compute. reflexivity.
  - exists w', usr'. split; [exact Hrun |]. split; [exact Husr |].
    split; [exact Hnames |]. split; [exact Hrole | exact Hdone].
Defined.

Lemma cargo_form_collects_witness :
  exists w',
    ex_dispatch_all ex_cargo_inputs (ex_world_at 4 Cargo_from_region) = Done tt w'
    /\ fsm_state (session_of w' 4) = Some Cargo_confirm
    /\ fsm_data (session_of w' 4) !! "to_region" = Some (VStr "Toshkent")
    /\ fsm_data (session_of w' 4) !! "price" = Some (VNum 1000%Z).
Proof.
  destruct (cargo_form_collects ex_float ex_py_float ex_le_zero ex_truthy ex_admins
              EmptyString ex_mention_ok ex_member ex_get_chat_by_username ex_get_chat
              ex_fetch ex_send ex_copy ex_oid
              (ex_message 4 "Andijon") (ex_message 4 "toshkent") (ex_message 4 "Sement")
              (ex_message 4 "5") (ex_message 4 "20") (ex_message 4 "1000")
              (ex_message 4 "Ertaga") (ex_message 4 "💵 Naqd") (ex_message 4 "-")
              4%Z "Andijon" "Toshkent" 5%Z 20%Z 1000%Z (ex_world_at 4 Cargo_from_region))
    as (w' & Hrun & Hst & _ & Hto & _ & _ & _ & Hprice & _).
  - repeat constructor; vm_compute; reflexivity.
  - vm_compute. reflexivity.
  - vm_compute. reflexivity.
  - vm_compute. reflexivity.
  - vm_compute. lia.
  - vm_compute. reflexivity.
  - vm_compute. reflexivity.
  - vm_compute. reflexivity.
  - vm_compute. lia.
  - vm_compute. reflexivity.
  - exists w'. split; [exact Hrun |]. split; [exact Hst |].
    split; [exact Hto | exact Hprice].
Defined.

Lemma cargo_confirm_stores_and_publishes_witness :
  exists w',
    ex_dispatch (ex_message 4 "✅ Отправить в группы") ex_world_listing = Done tt w'
    /\ length (cargo_col w') = 1
    /\ session_of w' 4 = no_session.
Proof.
  destruct (cargo_confirm_stores_and_publishes ex_float ex_py_float ex_le_zero ex_truthy
              ex_admins EmptyString ex_mention_ok ex_member ex_get_chat_by_username
              ex_get_chat ex_fetch ex_send ex_copy ex_oid
              (ex_message 4 "✅ Отправить в группы") (ex_person 4) "✅ Отправить в группы"
              (ex_user (Some ROLE_SHIPPER) true)
              (VStr "Andijon") (VStr "Toshkent") (VStr "Sement") (VNum 5%Z) (VNum 20%Z)
              (VNum 1000%Z) (VStr "Ertaga") (VStr "💵 Naqd") (VStr "-") ex_world_listing)
    as (w' & Hrun & Hcargo & _ & Hsession & _).
  - reflexivity.
  - reflexivity.
  - reflexivity.
  - vm_compute. reflexivity.
  - vm_compute. reflexivity.
  - vm_compute. reflexivity.
  - vm_compute. reflexivity.
  - vm_compute. reflexivity.
  - vm_compute. reflexivity.
  - vm_compute. reflexivity.
  - vm_compute. reflexivity.
  - vm_compute. reflexivity.
  - vm_compute. reflexivity.
  - vm_compute. reflexivity.
  - vm_compute. reflexivity.
  - exists w'. split; [exact Hrun |]. split; [by rewrite Hcargo | exact Hsession].
Defined.


(** The shipper 4 becomes a driver without a vehicle profile: the profile is
    marked incomplete and the driver form opens. *)
Lemma role_change_sets_completion_witness :
  exists w' usr',
    ex_dispatch (ex_message 4 "🚛 Haydovchi") (ex_world_at 4 Settings_role) = Done tt w'
    /\ users_col w' !! 4%Z = Some usr'
    /\ role usr' = Some ROLE_DRIVER
    /\ profile_completed usr' = false.
Proof.
  destruct (role_change_sets_completion ex_float ex_py_float ex_le_zero ex_truthy ex_admins
              EmptyString ex_mention_ok ex_member ex_get_chat_by_username ex_get_chat
              ex_fetch ex_send ex_copy ex_oid (ex_message 4 "🚛 Haydovchi") (ex_person 4)
              (ex_user (Some ROLE_SHIPPER) true) ROLE_DRIVER (ex_world_at 4 Settings_role))
    as (w' & usr' & Hrun & Husr & Hrole & Hdone & _).
  - reflexivity.
  - reflexivity.
  - vm_compute. reflexivity.
  - vm_compute. reflexivity.
  - vm_compute. reflexivity.
  - vm_compute. reflexivity.
  - exists w', usr'. split; [exact Hrun |]. split; [exact Husr |].
    split; [exact Hrole | exact Hdone].
Defined.

Lemma broadcast_reaches_audience_witness :
  exists w' ids,
    ex_dispatch (ex_message 9 "Yangi yuklar bor") ex_world_broadcast = Done tt w'
    /\ NoDup ids
    /\ (forall user_id,
          user_id ∈ ids
          <-> exists x, users_col ex_world_broadcast !! user_id = Some x
                        /\ audience_query ex_float (VStr "drivers") ex_now x = true)
    /\ session_of w' 9 = no_session.
Proof.
  destruct (broadcast_reaches_audience ex_float ex_py_float ex_le_zero ex_truthy ex_admins
              EmptyString ex_mention_ok ex_member ex_get_chat_by_username ex_get_chat
              ex_fetch ex_send ex_copy ex_oid (ex_message 9 "Yangi yuklar bor")
              (ex_person 9) ex_world_broadcast)
    as (w' & ids & sent & failed & Hrun & _ & Hnd & Hids & _ & _ & _ & Hsession).
  - reflexivity.
  - reflexivity.
  - vm_compute. reflexivity.
  - vm_compute. reflexivity.
  - vm_compute. reflexivity.
  - exists w', ids. split; [exact Hrun |]. split; [exact Hnd |].
    split; [exact Hids | exact Hsession].
Defined.


(** The admin connects chat -1001234567890 to Andijon. *)
Lemma region_chat_routes_listings_witness :
  exists w',
    ex_dispatch (ex_message 9 "-1001234567890") ex_world_region = Done tt w'
    /\ region_chat_of ex_float w' (VStr "Andijon") = Some (-1001234567890)%Z
    /\ session_of w' 9 = no_session.
Proof.
  destruct (region_chat_routes_listings ex_float ex_py_float ex_le_zero ex_truthy ex_admins
              EmptyString ex_mention_ok ex_member ex_get_chat_by_username ex_get_chat
              ex_fetch ex_send ex_copy ex_oid (ex_message 9 "-1001234567890") (ex_person 9)
              (-1001234567890)%Z "A"%char "ndijon" ex_world_region)
    as (w' & Hrun & Hregion & _ & Hsession & _).
  - reflexivity.
  - reflexivity.
  - vm_compute. reflexivity.
  - vm_compute. reflexivity.
  - vm_compute. reflexivity.
  - vm_compute. reflexivity.
  - vm_compute. reflexivity.
  - exists w'. split; [exact Hrun |]. split; [exact Hregion | exact Hsession].
Defined.



End Bot.

(** ** Localization and chat references: properties *)

Section LocalizationProperties.

Import PyStr Localization.

Lemma dict_get_In k v (d : pydict) : dict_get k d = Some v -> In (k, v) d.
Proof.
  induction d as [|[k' v'] d IH]; simpl; [discriminate |].
  destruct (String.eqb_spec k k') as [-> | _].
  - intros [= ->]. by left.
  - intros H. right. by apply IH.
Qed.

(** C4: every label of the fixed button set, shown in Russian and sent back
    by the user, is canonicalized to the label itself; on the labels the
    Russian table translates, the inverse table leads back to the label. *)
Theorem button_roundtrip (X : string) :
  X ∈ FIXED_BUTTONS ->
  canonicalize_user_text (Some (localize_button_text X LANG_RU)) = X
  /\ (forall Y, dict_get X RU_BUTTON_TEXTS = Some Y -> dict_get Y TEXT_CANON_MAP = Some X).
Proof.
  intros HX. split.
  - assert (Hall : forallb roundtrips FIXED_BUTTONS = true) by (vm_compute; reflexivity).
    rewrite forallb_forall in Hall.
    specialize (Hall X (proj1 (list_elem_of_In _ _) HX)).
    by apply String.eqb_eq in Hall.
  - intros Y HY. apply dict_get_In in HY.
    assert (Hall : forallb
                     (fun kv => bool_decide (dict_get (snd kv) TEXT_CANON_MAP = Some (fst kv)))
                     RU_BUTTON_TEXTS = true) by (vm_compute; reflexivity).
    rewrite forallb_forall in Hall. specialize (Hall (X, Y) HY).
    by apply bool_decide_eq_true in Hall.
Qed.

Lemma button_roundtrip_witness :
  canonicalize_user_text (Some (localize_button_text BTN_SKIP LANG_RU)) = BTN_SKIP
  /\ (forall Y, dict_get BTN_SKIP RU_BUTTON_TEXTS = Some Y
                -> dict_get Y TEXT_CANON_MAP = Some BTN_SKIP).
Proof.
  apply (button_roundtrip BTN_SKIP).
  apply mem_true_iff. vm_compute. reflexivity.
Defined.

(** The keyboards, translated as a whole, read back button by button. *)
Lemma keyboard_roundtrip (kb : keyboard) :
  kb ∈ ALL_KEYBOARDS ->
  map (map (fun shown => canonicalize_user_text (Some shown)))
    (translate_reply_markup kb LANG_RU) = kb.
Proof.
  intros Hkb.
  assert (Hall : forallb
                   (fun kb => bool_decide
                      (map (map (fun shown => canonicalize_user_text (Some shown)))
                         (translate_reply_markup kb LANG_RU) = kb))
                   ALL_KEYBOARDS = true) by (vm_compute; reflexivity).
  rewrite forallb_forall in Hall.
  specialize (Hall kb (proj1 (list_elem_of_In _ _) Hkb)).
  by apply bool_decide_eq_true in Hall.
Qed.

Lemma keyboard_roundtrip_witness :
  map (map (fun shown => canonicalize_user_text (Some shown)))
    (translate_reply_markup language_keyboard LANG_RU) = language_keyboard.
Proof.
  apply (keyboard_roundtrip language_keyboard).
  apply list_elem_of_In. vm_compute. tauto.
Defined.

End LocalizationProperties.

Section ChatReferenceProperties.

Import PyStr Regex ChatRef.

(** C3: the literal cases of the chat reference grammar.  A numeric id and
    an internal link resolve with no lookup; a bare handle is passed to one
    lookup, whose chat is the answer; an invite link is refused with the
    invite guidance, again with no lookup. *)
Theorem chat_reference_literal_cases (get_chat : string -> option Z) :
  resolve_chat_id_from_text get_chat "-1001234567890"
  = Ok (mkResolution (Some (-1001234567890)%Z) None [])
  /\ parse_chat_reference "@abcde" = Ok (None, Some "@abcde", None)
  /\ resolve_chat_id_from_text get_chat "@abcde"
     = Ok (match get_chat "@abcde" with
           | Some chat => mkResolution (Some chat) None ["@abcde"]
           | None => mkResolution None (Some (err_unreachable "@abcde")) ["@abcde"]
           end)
  /\ resolve_chat_id_from_text get_chat "https://t.me/c/123456789"
     = Ok (mkResolution (Some (-100123456789)%Z) None [])
  /\ resolve_chat_id_from_text get_chat "https://t.me/+AbCdEf"
     = Ok (mkResolution None (Some ERR_INVITE) []).
Proof.
  split; [vm_compute; reflexivity |].
  split; [vm_compute; reflexivity |].
  split.
  { unfold resolve_chat_id_from_text.
    replace (parse_chat_reference "@abcde") with (@Ok reference (None, Some "@abcde", None))
      by (vm_compute; reflexivity).
    simpl. destruct (get_chat "@abcde"); reflexivity. }
  split; vm_compute; reflexivity.
Qed.



(** C5: the decision table of [check_chat_writable], row by row. *)
Theorem check_chat_writable_table
    (chat_type status : string) (can_post can_send : option bool) :
  (status ∈ ["left"; "kicked"] ->
   check_chat_writable (Fetched chat_type status can_post can_send)
   = (false, MSG_NOT_IN_CHAT))
  /\ (status ∉ ["left"; "kicked"] -> chat_type = "channel" ->
      (status ∉ ["administrator"; "creator"] ->
       check_chat_writable (Fetched chat_type status can_post can_send)
       = (false, MSG_MUST_BE_ADMIN))
      /\ (status ∈ ["administrator"; "creator"] -> can_post = Some false ->
          check_chat_writable (Fetched chat_type status can_post can_send)
          = (false, MSG_POST_DISABLED))
      /\ (status ∈ ["administrator"; "creator"] -> can_post <> Some false ->
          check_chat_writable (Fetched chat_type status can_post can_send)
          = (true, MSG_CHANNEL_OK)))
  /\ (status ∉ ["left"; "kicked"] -> chat_type <> "channel" ->
      (can_send = Some false ->
       check_chat_writable (Fetched chat_type status can_post can_send)
       = (false, MSG_RESTRICTED))
      /\ (can_send <> Some false ->
          check_chat_writable (Fetched chat_type status can_post can_send)
          = (true, MSG_CHAT_OK))).
Proof.
  assert (Hmem : forall l, mem status l = false <-> status ∉ l).
  { intros l. rewrite <- mem_true_iff. by destruct (mem status l). }
  assert (HF : forall x : option bool, x <> Some false -> is_False x = false).
  { intros [[|]|]; done. }
  unfold check_chat_writable. split; [| split].
  - intros Hin. apply mem_true_iff in Hin. by rewrite Hin.
  - intros Hout ->. apply Hmem in Hout. rewrite Hout. simpl String.eqb. cbv iota.
    split; [| split].
    + intros Hna. apply Hmem in Hna. by rewrite Hna.
    + intros Ha ->. apply mem_true_iff in Ha. by rewrite Ha.
    + intros Ha Hcp. apply mem_true_iff in Ha. rewrite Ha. simpl negb. cbv iota.
      by rewrite (HF _ Hcp).
  - intros Hout Hty. apply Hmem in Hout. rewrite Hout.
    rewrite (proj2 (String.eqb_neq _ _) Hty).
    split.
    + by intros ->.
    + intros Hcs. by rewrite (HF _ Hcs).
Qed.

Lemma check_chat_writable_table_witness :
  check_chat_writable (Fetched "supergroup" "kicked" None None) = (false, MSG_NOT_IN_CHAT)
  /\ check_chat_writable (Fetched "channel" "member" None None) = (false, MSG_MUST_BE_ADMIN)
  /\ check_chat_writable (Fetched "channel" "administrator" (Some false) None)
     = (false, MSG_POST_DISABLED)
  /\ check_chat_writable (Fetched "channel" "creator" None None) = (true, MSG_CHANNEL_OK)
  /\ check_chat_writable (Fetched "supergroup" "restricted" None (Some false))
     = (false, MSG_RESTRICTED)
  /\ check_chat_writable (Fetched "group" "member" None None) = (true, MSG_CHAT_OK).
Proof.
  assert (Hin : forall (x : string) l, mem x l = true -> x ∈ l)
    by (intros x l; apply mem_true_iff).
  assert (Hout : forall (x : string) l, mem x l = false -> x ∉ l).
  { intros x l H Hx. apply mem_true_iff in Hx. congruence. }
  split; [| split; [| split; [| split; [| split]]]].
  - apply (proj1 (check_chat_writable_table "supergroup" "kicked" None None)).
    by apply Hin.
  - apply (proj2 (check_chat_writable_table "channel" "member" None None));
      [by apply Hout | reflexivity | by apply Hout].
  - apply (proj2 (check_chat_writable_table "channel" "administrator" (Some false) None));
      [by apply Hout | reflexivity | by apply Hin | reflexivity].
  - apply (proj2 (check_chat_writable_table "channel" "creator" None None));
      [by apply Hout | reflexivity | by apply Hin | discriminate].
  - apply (proj2 (check_chat_writable_table "supergroup" "restricted" None (Some false)));
      [by apply Hout | discriminate | reflexivity].
  - apply (proj2 (check_chat_writable_table "group" "member" None None));
      [by apply Hout | discriminate | discriminate].
Defined.

End ChatReferenceProperties.

(** ** Start-up: the environment file and the configuration *)

Module Startup.

Import PyStr Regex ChatRef.

(** [line.split("=", 1)] on a line that has an [=]: what comes before the
    first one and what comes after. *)
Fixpoint split_eq (s : string) : string * string :=
  match s with
  | EmptyString => (EmptyString, EmptyString)
  | String "=" s' => (EmptyString, s')
  | String a s' => let (k, v) := split_eq s' in (String a k, v)
  end.

(** The test of [load_env_file] for a quoted value: two characters or more,
    the first and the last the same, a single or a double quote (39 and 34).
    The quotes are ASCII, so the first and the last character are then the
    first and the last byte. *)
Definition quoted (value : string) : bool :=
  (2 <=? py_len value)%nat
  && match head (bytes value), last (bytes value) with
     | Some a, Some b => (a =? b)%N && ((a =? 39)%N || (a =? 34)%N)
     | _, _ => false
     end.

(** [value[1:-1]] on such a value. *)
Definition unquote (value : string) : string :=
  of_bytes (removelast (tl (bytes value))).

(** What one line of the file assigns, [None] for a blank line, a comment, a
    line with no [=] and a line with no key. *)
Definition parse_env_line (raw_line : string) : option (string * string) :=
  let line := strip raw_line in
  if String.eqb line EmptyString || startswith "#" line then None
  else
    let line := if startswith "export " line then strip (drop_string 7 line) else line in
    if negb (contains "=" line) then None
    else
      let (key, value) := split_eq line in
      let key := strip key in
      let value := strip value in
      if String.eqb key EmptyString then None
      else Some (key, if quoted value then unquote value else value).

Definition has_nul (s : string) : bool := existsb (N.eqb 0) (bytes s).

(** The loop of [load_env_file] over the lines of the file, on the
    environment of the process.  [os.environ.setdefault] leaves a variable that
    is set alone; setting a new one raises [ValueError] when the name or the
    value holds a NUL, and the [except] around the loop ends the reading
    there. *)
Fixpoint load_lines (lines : list string) (environ : gmap string string)
  : gmap string string :=
  match lines with
  | [] => environ
  | raw_line :: rest =>
      match parse_env_line raw_line with
      | None => load_lines rest environ
      | Some (key, value) =>
          match environ !! key with
          | Some _ => load_lines rest environ
          | None =>
              if has_nul key || has_nul value then environ
              else load_lines rest (<[key := value]> environ)
          end
      end
  end.

(** [load_env_file]: [file] is the lines of [.env] the loop gets to read
    (all of them, or those before the point where opening or decoding fails and
    the [except] ends the reading), [None] when there is no such file. *)
Definition load_env_file (file : option (list string)) (environ : gmap string string)
  : gmap string string :=
  match file with
  | None => environ
  | Some lines => load_lines lines environ
  end.

Record Config : Type := mkConfig {
  bot_token : string;
  mongodb_uri : string;
  mongodb_db : string;
  admin_ids : gset Z;
  support_contact : string;
  news_channel : string
}.

(** [os.getenv(name, dflt)] *)
Definition getenv (environ : gmap string string) (name dflt : string) : string :=
  default dflt (environ !! name).

(** [text.split(",")] *)
Fixpoint split_comma (s : string) : list string :=
  match s with
  | EmptyString => [EmptyString]
  | String "," s' => EmptyString :: split_comma s'
  | String a s' =>
      match split_comma s' with
      | piece :: pieces => String a piece :: pieces
      | [] => [String a EmptyString]
      end
  end.

(** The loop that fills [admin_ids]. *)
Fixpoint read_admin_ids (chunks : list string) (ids : gset Z) : result (gset Z) :=
  match chunks with
  | [] => Ok ids
  | chunk :: rest =>
      let value := strip chunk in
      if String.eqb value EmptyString then read_admin_ids rest ids
      else if Bot.isdigit value then
        match py_int value with
        | Some n => read_admin_ids rest ({[ n ]} ∪ ids)
        | None => Raise "ValueError"
        end
      else read_admin_ids rest ids
  end.

Definition load_config (file : option (list string)) (environ : gmap string string)
  : result Config :=
  let environ := load_env_file file environ in
  let token := strip (getenv environ "BOT_TOKEN" EmptyString) in
  if String.eqb token EmptyString then Raise "RuntimeError"
  else
    match read_admin_ids (split_comma (getenv environ "ADMIN_IDS" EmptyString)) ∅ with
    | Raise exc => Raise exc
    | Ok ids =>
        Ok (mkConfig token
              (strip (getenv environ "MONGODB_URI" "mongodb://127.0.0.1:27017"))
              (strip (getenv environ "MONGODB_DB" "logistik_bot"))
              ids
              (strip (getenv environ "SUPPORT_CONTACT" "@support"))
              (strip (getenv environ "NEWS_CHANNEL" EmptyString)))
    end.

Lemma load_lines_keeps lines environ k v :
  environ !! k = Some v -> load_lines lines environ !! k = Some v.
Proof.
  revert environ. induction lines as [|raw rest IH]; intros environ Hk; [done |].
  simpl. destruct (parse_env_line raw) as [[key value]|]; [| by apply IH].
  destruct (environ !! key) eqn:Hkey; [by apply IH |].
  destruct (has_nul key || has_nul value); [done |].
  apply IH. rewrite lookup_insert_ne; [done |]. congruence.
Qed.

(** [load_env_file] never changes a variable the process already has; a
    variable it adds comes from a line of the file; and of the lines that
    assign a new variable the first one wins. *)
Theorem load_env_file_keeps_environment
    (file : option (list string)) (environ : gmap string string) :
  (forall k v, environ !! k = Some v -> load_env_file file environ !! k = Some v)
  /\ (forall k v, load_env_file file environ !! k = Some v ->
        environ !! k = Some v
        \/ exists lines raw,
             file = Some lines /\ raw ∈ lines /\ parse_env_line raw = Some (k, v))
  /\ (forall before raw after k v,
        file = Some (before ++ raw :: after)%list ->
        environ !! k = None ->
        parse_env_line raw = Some (k, v) ->
        has_nul k = false -> has_nul v = false ->
        Forall (fun l => forall k' v', parse_env_line l = Some (k', v') ->
                           k' <> k /\ has_nul k' = false /\ has_nul v' = false) before ->
        load_env_file file environ !! k = Some v).
Proof.
  split; [| split].
  - intros k v Hk. destruct file as [lines|]; [| done]. by apply load_lines_keeps.
  - intros k v. destruct file as [lines|]; [| by left]. simpl.
    revert environ. induction lines as [|raw rest IH]; intros environ Hk; [by left |].
    simpl in Hk.
    assert (Hrest : (environ !! k = Some v
                     \/ exists lines raw0,
                          Some rest = Some lines /\ raw0 ∈ lines
                          /\ parse_env_line raw0 = Some (k, v)) ->
                    environ !! k = Some v
                    \/ exists lines raw0,
                         Some (raw :: rest) = Some lines /\ raw0 ∈ lines
                         /\ parse_env_line raw0 = Some (k, v)).
    { intros [? | (lines & raw0 & [= <-] & Hin & Hp)]; [by left | right].
      exists (raw :: rest), raw0. split; [done |]. split; [by apply list_elem_of_further | done]. }
    destruct (parse_env_line raw) as [[key value]|] eqn:Hparse; [| by apply Hrest, IH].
    destruct (environ !! key) eqn:Hkey; [by apply Hrest, IH |].
    destruct (has_nul key || has_nul value); [by left |].
    destruct (IH _ Hk) as [Hin | Hlater]; [| by apply Hrest; right].
    destruct (decide (k = key)) as [-> | Hne].
    + rewrite lookup_insert_eq in Hin. injection Hin as <-. right.
      exists (raw :: rest), raw. split; [done |]. split; [by apply list_elem_of_here | done].
    + rewrite lookup_insert_ne in Hin by done. by left.
  - intros before raw after k v -> Hk Hparse Hnk Hnv Hbefore. simpl.
    revert environ Hk. induction Hbefore as [|l before Hl _ IH]; intros environ Hk.
    + simpl. rewrite Hparse, Hk, Hnk, Hnv. simpl.
      apply load_lines_keeps. by rewrite lookup_insert_eq.
    + simpl. destruct (parse_env_line l) as [[k' v']|] eqn:Hpl; [| by apply IH].
      destruct (Hl k' v' eq_refl) as (Hne & Hnk' & Hnv').
      destruct (environ !! k'); [by apply IH |].
      rewrite Hnk', Hnv'. simpl. apply IH. by rewrite lookup_insert_ne.
Qed.

Lemma ws_head_digit c l : is_digit c = true -> ws_head (c :: l) = 0.
Proof.
  unfold is_digit. intros Hc. apply andb_true_iff in Hc as [Hlo Hhi].
  apply N.leb_le in Hlo, Hhi.
  assert (H1 : ws1 c = false).
  { unfold ws1. apply orb_false_iff. split; apply andb_false_iff; right;
      apply N.leb_gt; lia. }
  unfold ws_head. rewrite H1.
  destruct l as [|b l]; [done |].
  assert (H2 : ws2 c b = false).
  { unfold ws2. apply andb_false_iff. left. apply N.eqb_neq. lia. }
  rewrite H2. destruct l as [|a l]; [done |].
  assert (H3 : ws3 c b a = false).
  { unfold ws3.
    replace (c =? 225)%N with false by (symmetry; apply N.eqb_neq; lia).
    replace (c =? 226)%N with false by (symmetry; apply N.eqb_neq; lia).
    replace (c =? 227)%N with false by (symmetry; apply N.eqb_neq; lia).
    reflexivity. }
  by rewrite H3.
Qed.

(** [int] reads every text [isdigit] accepts, as a number that is not
    negative. *)
Lemma int_of_digits value :
  Bot.isdigit value = true -> exists n, py_int value = Some n /\ (0 <= n)%Z.
Proof.
  unfold Bot.isdigit. intros Hd.
  destruct (bytes value) as [|c l] eqn:Hb; [discriminate |].
  assert (Hall : Bot.all_bytes is_digit value = true)
    by (unfold Bot.all_bytes; by rewrite Hb).
  assert (Hc : is_digit c = true) by (simpl in Hd; by apply andb_true_iff in Hd as [? _]).
  assert (Hstrip : strip value = value).
  { apply Bot.strip_fixed.
    - rewrite Hb. by apply ws_head_digit.
    - destruct (rev (bytes value)) as [|d r] eqn:Hrev.
      + apply (f_equal (@length N)) in Hrev. rewrite length_rev, Hb in Hrev. discriminate.
      + apply Bot.ws_last_digit.
        unfold Bot.all_bytes in Hall. rewrite forallb_forall in Hall. apply Hall.
        apply in_rev. rewrite Hrev. by left. }
  unfold py_int. rewrite Hstrip.
  destruct value as [|a s]; [discriminate |].
  unfold bytes in Hb. simpl in Hb. injection Hb as Hca Hl.
  assert (Hs : Bot.all_bytes is_digit s = true).
  { unfold Bot.all_bytes, bytes. rewrite Hl. simpl in Hd.
    by apply andb_true_iff in Hd as [_ ?]. }
  destruct (Bot.digits_value_digits s Hs (Z.of_N (c - 48))) as (n & Hn & Hle); [lia |].
  exists n. split; [| lia].
  assert (Hstep : digits_value 0 false (String a s) = digits_value (Z.of_N (c - 48)) true s).
  { simpl. rewrite Hca, Hc. reflexivity. }
  rewrite <- Hn, <- Hstep.
  subst c. clear -Hc.
  destruct a as [[] [] [] [] [] [] [] []]; try discriminate Hc; reflexivity.
Qed.

Lemma read_admin_ids_sound chunks :
  forall ids,
    exists out,
      read_admin_ids chunks ids = Ok out
      /\ (forall n, n ∈ out ->
            n ∈ ids
            \/ exists chunk,
                 chunk ∈ chunks /\ Bot.isdigit (strip chunk) = true
                 /\ py_int (strip chunk) = Some n /\ (0 <= n)%Z).
Proof.
  induction chunks as [|chunk rest IH]; intros ids.
  - exists ids. split; [done |]. intros n Hn. by left.
  - simpl.
    assert (Hskip : exists out,
              read_admin_ids rest ids = Ok out
              /\ (forall n, n ∈ out ->
                    n ∈ ids
                    \/ exists chunk0,
                         chunk0 ∈ chunk :: rest /\ Bot.isdigit (strip chunk0) = true
                         /\ py_int (strip chunk0) = Some n /\ (0 <= n)%Z)).
    { destruct (IH ids) as (out & Hrun & Hout). exists out. split; [done |].
      intros n Hn. destruct (Hout n Hn) as [? | (c0 & Hin & ?)]; [by left | right].
      exists c0. split; [by apply list_elem_of_further | done]. }
    destruct (String.eqb (strip chunk) EmptyString); [exact Hskip |].
    destruct (Bot.isdigit (strip chunk)) eqn:Hd; [| exact Hskip].
    destruct (int_of_digits _ Hd) as (k & Hk & Hpos). rewrite Hk.
    destruct (IH ({[ k ]} ∪ ids)) as (out & Hrun & Hout). exists out. split; [done |].
    intros n Hn. destruct (Hout n Hn) as [Hin | (c0 & Hin & ?)].
    + apply elem_of_union in Hin as [Hin | Hin]; [| by left].
      apply elem_of_singleton in Hin as ->. right.
      exists chunk. split; [by apply list_elem_of_here | done].
    + right. exists c0. split; [by apply list_elem_of_further | done].
Qed.

(** Every byte of the text is below 128. *)
Definition is_ascii (s : string) : bool := Bot.all_bytes (fun b => (b <? 128)%N) s.

(** [load_config], for an [ADMIN_IDS] written in ASCII and not longer than
    4300 characters (where [isdigit] and [int] agree on what a number is),
    once the environment file has been read:
    it stops the start with [RuntimeError] exactly when [BOT_TOKEN] is missing
    or blank, and otherwise answers a configuration.  Every admin id of the
    configuration is a number that is not negative, written as digits in one of
    the pieces of [ADMIN_IDS]; a piece that is not made of digits is passed
    over. *)
Theorem load_config_admins (file : option (list string)) (environ : gmap string string) :
  let env := load_env_file file environ in
  is_ascii (getenv env "ADMIN_IDS" EmptyString) = true ->
  (String.length (getenv env "ADMIN_IDS" EmptyString) <= 4300)%nat ->
  (strip (getenv env "BOT_TOKEN" EmptyString) = EmptyString ->
     load_config file environ = Raise "RuntimeError")
  /\ (strip (getenv env "BOT_TOKEN" EmptyString) <> EmptyString ->
      exists cfg,
        load_config file environ = Ok cfg
        /\ bot_token cfg = strip (getenv env "BOT_TOKEN" EmptyString)
        /\ (forall n, n ∈ admin_ids cfg ->
              (0 <= n)%Z
              /\ exists chunk,
                   chunk ∈ split_comma (getenv env "ADMIN_IDS" EmptyString)
                   /\ Bot.isdigit (strip chunk) = true
                   /\ py_int (strip chunk) = Some n)).
Proof.
  intros env _ _. unfold load_config. fold env. cbv zeta. split.
  - intros ->. reflexivity.
  - intros Hne. rewrite (proj2 (String.eqb_neq _ _) Hne).
    destruct (read_admin_ids_sound (split_comma (getenv env "ADMIN_IDS" EmptyString)) ∅)
      as (ids & -> & Hids).
    eexists. split; [reflexivity |]. split; [reflexivity |].
    intros n Hn. simpl in Hn.
    destruct (Hids n Hn) as [Hin | (chunk & Hin & Hd & Hv & Hpos)]; [set_solver |].
    split; [exact Hpos |]. by exists chunk.
Qed.

Lemma load_env_file_keeps_environment_witness :
  load_env_file (Some ["# local settings"; "export BOT_TOKEN = 'abc' "; "BOT_TOKEN=xyz"])
    {[ "ADMIN_IDS" := "1, 22,x3" ]}
  !! "BOT_TOKEN" = Some "abc".
Proof.
  apply (proj2 (proj2 (load_env_file_keeps_environment
                         (Some ["# local settings"; "export BOT_TOKEN = 'abc' ";
                                "BOT_TOKEN=xyz"])
                         {[ "ADMIN_IDS" := "1, 22,x3" ]}))
           ["# local settings"] "export BOT_TOKEN = 'abc' " ["BOT_TOKEN=xyz"]).
  - reflexivity.
  - reflexivity.
  - vm_compute. reflexivity.
  - reflexivity.
  - reflexivity.
  - constructor; [| constructor]. intros k' v' Hp. vm_compute in Hp. discriminate.
Defined.

Lemma load_config_admins_witness :
  exists cfg,
    load_config (Some ["BOT_TOKEN=xyz"]) {[ "ADMIN_IDS" := "1, 22,x3" ]} = Ok cfg
    /\ bot_token cfg = "xyz"
    /\ (forall n, n ∈ admin_ids cfg -> (0 <= n)%Z).
Proof.
  destruct (load_config_admins (Some ["BOT_TOKEN=xyz"]) {[ "ADMIN_IDS" := "1, 22,x3" ]})
    as [_ Hcfg]; [by vm_compute | vm_compute; lia |].
  destruct Hcfg as (cfg & Hrun & Htoken & Hids).
  - vm_compute. discriminate.
  - exists cfg. split; [exact Hrun |]. split; [rewrite Htoken; by vm_compute |].
    intros n Hn. by destruct (Hids n Hn).
Defined.

End Startup.
